(** * ESPN scoreboard exploration script: a shallow embedding

    Source: [src/api_reasearch/espn_res.py].  The script fetches one JSON
    document over HTTP, writes it to a file, prints a summary of the games
    and prints the key names met on the way down the first game.

    The embedding keeps the script's dynamic typing: a document is a value
    of [json], every dictionary or attribute access is the Python operation
    with the exception it raises on a value of the wrong type, and [print]
    appends a line to the output.  *)

From Stdlib Require Import String Ascii List ZArith NArith Lia Bool Arith PeanoNat.
From Stdlib Require Import Decimal DecimalString DecimalN DecimalFacts.
Import ListNotations.
Open Scope string_scope.
#[local] Set Warnings "-register-all".

(* ================================================================== *)
(** * Python values *)

(** What [response.json()] can return (floats are left out: no function of
    the script computes with a number read from the document).  A [JObj] is
    a Python [dict] in insertion order; [JNull] is [None].  Strings are the
    UTF-8 bytes of the Python [str]. *)
Inductive json : Type :=
| JNull
| JBool (b : bool)
| JInt (n : Z)
| JStr (s : string)
| JArr (xs : list json)
| JObj (kvs : list (string * json)).

(** Exceptions the script can meet. *)
Inductive exn : Type :=
| AttributeError
| TypeError
| KeyError
| IndexError
| FileExistsError
| FileNotFoundError
| IsADirectoryError
| NotADirectoryError
| ValueError
| OSError.

(** Result of running a piece of Python: a value, or a raised exception. *)
Inductive outcome (A : Type) : Type :=
| Returned (a : A)
| Raised (e : exn).
Arguments Returned {A} a.
Arguments Raised {A} e.

Definition obind {A B} (o : outcome A) (f : A -> outcome B) : outcome B :=
  match o with
  | Returned a => f a
  | Raised e => Raised e
  end.

(** [bool(v)] *)
Definition truthy (v : json) : bool :=
  match v with
  | JNull => false
  | JBool b => b
  | JInt n => negb (Z.eqb n 0)
  | JStr s => negb (String.eqb s "")
  | JArr xs => match xs with [] => false | _ => true end
  | JObj kvs => match kvs with [] => false | _ => true end
  end.

Fixpoint dict_lookup (k : string) (kvs : list (string * json)) : option json :=
  match kvs with
  | [] => None
  | (k', v) :: rest => if String.eqb k k' then Some v else dict_lookup k rest
  end.

(** [d[k] = v] on a dict: the key keeps its place when it is there already. *)
Fixpoint dict_set (k : string) (v : json) (kvs : list (string * json))
  : list (string * json) :=
  match kvs with
  | [] => [(k, v)]
  | (k', v') :: rest =>
      if String.eqb k k' then (k', v) :: rest else (k', v') :: dict_set k v rest
  end.

Definition dict_keys (kvs : list (string * json)) : list string := map fst kvs.

Fixpoint is_prefix (p s : string) : bool :=
  match p, s with
  | EmptyString, _ => true
  | String a p', String b s' => Ascii.eqb a b && is_prefix p' s'
  | String _ _, EmptyString => false
  end.

Fixpoint is_substring (p s : string) : bool :=
  is_prefix p s ||
  match s with
  | EmptyString => false
  | String _ s' => is_substring p s'
  end.

Definition json_is_str (s : string) (v : json) : bool :=
  match v with
  | JStr s' => String.eqb s s'
  | _ => false
  end.

(** ['k' in v] *)
Definition py_in (k : string) (v : json) : outcome bool :=
  match v with
  | JObj kvs => Returned (match dict_lookup k kvs with Some _ => true | None => false end)
  | JArr xs => Returned (existsb (json_is_str k) xs)
  | JStr s => Returned (is_substring k s)
  | _ => Raised TypeError
  end.

(** [v.get(k, default)] *)
Definition py_get (k : string) (default : json) (v : json) : outcome json :=
  match v with
  | JObj kvs =>
      Returned (match dict_lookup k kvs with Some x => x | None => default end)
  | _ => Raised AttributeError
  end.

(** [v['k']] with a string key *)
Definition py_item (k : string) (v : json) : outcome json :=
  match v with
  | JObj kvs =>
      match dict_lookup k kvs with Some x => Returned x | None => Raised KeyError end
  | _ => Raised TypeError
  end.

(** [v[0]] *)
Definition py_index0 (v : json) : outcome json :=
  match v with
  | JArr [] => Raised IndexError
  | JArr (x :: _) => Returned x
  | JStr EmptyString => Raised IndexError
  | JStr (String c _) => Returned (JStr (String c EmptyString))
  | JObj _ => Raised KeyError
  | _ => Raised TypeError
  end.

(** [v.keys()] *)
Definition py_keys (v : json) : outcome (list string) :=
  match v with
  | JObj kvs => Returned (dict_keys kvs)
  | _ => Raised AttributeError
  end.

(** [len(v)] *)
Definition py_len (v : json) : outcome Z :=
  match v with
  | JArr xs => Returned (Z.of_nat (List.length xs))
  | JObj kvs => Returned (Z.of_nat (List.length kvs))
  | JStr s => Returned (Z.of_nat (String.length s))
  | _ => Raised TypeError
  end.

Fixpoint chars_of (s : string) : list json :=
  match s with
  | EmptyString => []
  | String c s' => JStr (String c EmptyString) :: chars_of s'
  end.

(** The items [for x in v] runs over. *)
Definition py_iter (v : json) : outcome (list json) :=
  match v with
  | JArr xs => Returned xs
  | JObj kvs => Returned (map JStr (dict_keys kvs))
  | JStr s => Returned (chars_of s)
  | _ => Raised TypeError
  end.

(* ================================================================== *)
(** * Standard output *)

Inductive request_exception : Type :=
| ConnectionError (msg : string)
| Timeout (msg : string)
| HTTPError (status : Z)
| JSONDecodeError
| OtherRequestException (msg : string).

(** What one call of [print] writes is a sequence of pieces: literal
    text, or a value an f-string formats with [str()].  [print] ends it
    with a newline; a piece that holds a newline itself makes the call
    write more than one line of the terminal. *)
Inductive piece : Type :=
| Lit (s : string)
| Val (v : json)
| Exc (e : request_exception).

Definition line : Type := list piece.

(** Code that prints and may raise: the calls of [print] made so far, in
    order, are kept when an exception is raised. *)
Definition Out (A : Type) : Type := (list line * outcome A)%type.

Definition ret {A} (a : A) : Out A := ([], Returned a).

Definition bind {A B} (c : Out A) (k : A -> Out B) : Out B :=
  match c with
  | (o1, Returned a) => let (o2, r) := k a in ((o1 ++ o2)%list, r)
  | (o1, Raised e) => (o1, Raised e)
  end.

Definition lift {A} (o : outcome A) : Out A := ([], o).

Definition print (l : line) : Out unit := ([l], Returned tt).

Declare Scope out_scope.
Delimit Scope out_scope with out.
Notation "x <- c ;; k" := (bind c (fun x => k))
  (at level 61, c at next level, right associativity) : out_scope.
Notation "c ;;; k" := (bind c (fun _ => k))
  (at level 61, right associativity) : out_scope.

Fixpoint repeat_string (s : string) (n : nat) : string :=
  match n with
  | O => EmptyString
  | S n' => s ++ repeat_string s n'
  end.

(** ["=" * 80] *)
Definition rule80 : line := [Lit (repeat_string "=" 80)].

(** [print()] *)
Definition blank : line := [].

(* ================================================================== *)
(** * Dates *)

(** A [datetime.datetime]: the wall-clock fields and, for an aware value,
    the offset from UTC in seconds. *)
Record datetime : Type := mkDatetime {
  dt_year : nat;
  dt_month : nat;
  dt_day : nat;
  dt_hour : nat;
  dt_minute : nat;
  dt_second : nat;
  dt_microsecond : Z;
  dt_utcoffset : option Z
}.

Definition digit_char (n : nat) : ascii :=
  match n with
  | 0 => "0" | 1 => "1" | 2 => "2" | 3 => "3" | 4 => "4"
  | 5 => "5" | 6 => "6" | 7 => "7" | 8 => "8" | _ => "9"
  end%char.

(** Two and four decimal digits, zero filled. *)
Definition d2 (n : nat) : string :=
  String (digit_char ((n / 10) mod 10)) (String (digit_char (n mod 10)) EmptyString).

Definition d4 (n : nat) : string := d2 (n / 100) ++ d2 (n mod 100).

(** [%I]: the hour on the 12-hour clock. *)
Definition hour12 (h : nat) : nat :=
  if (h mod 12 =? 0)%nat then 12 else h mod 12.

(** [%p] in the C locale. *)
Definition ampm (h : nat) : string := if (h <? 12)%nat then "AM" else "PM".

(** [dt.strftime('%Y-%m-%d %I:%M %p')] *)
Definition strftime_readable (dt : datetime) : string :=
  d4 (dt_year dt) ++ "-" ++ d2 (dt_month dt) ++ "-" ++ d2 (dt_day dt) ++ " " ++
  d2 (hour12 (dt_hour dt)) ++ ":" ++ d2 (dt_minute dt) ++ " " ++ ampm (dt_hour dt).

(** [dt.strftime("%Y%m%d_%H%M%S")] *)
Definition strftime_stamp (dt : datetime) : string :=
  d4 (dt_year dt) ++ d2 (dt_month dt) ++ d2 (dt_day dt) ++ "_" ++
  d2 (dt_hour dt) ++ d2 (dt_minute dt) ++ d2 (dt_second dt).

(** [s.replace('Z', '+00:00')]: every [Z] of the string is replaced. *)
Fixpoint replace_Z (s : string) : string :=
  match s with
  | EmptyString => EmptyString
  | String c s' =>
      if Ascii.eqb c "Z"%char then "+00:00" ++ replace_Z s'
      else String c (replace_Z s')
  end.

(* ================================================================== *)
(** * Summarizer: [print_game_summary] *)

Section Summarizer.

(** [datetime.fromisoformat]: [None] stands for the [ValueError] it raises.
    The accepted strings differ between Python versions, so the summarizer
    is written over any such function; [fromisoformat] below is the grammar
    all versions share. *)
Variable parse_iso : string -> option datetime.

Open Scope out_scope.

(** Lines 112-116: the [try] block; the bare [except] also catches the
    [AttributeError] of [date.replace] on a value that is not a string. *)
Definition format_date (date : json) : json :=
  match date with
  | JStr s =>
      match parse_iso (replace_Z s) with
      | Some dt => JStr (strftime_readable dt)
      | None => date
      end
  | _ => date
  end.

(** [next((c for c in competitors if c.get('homeAway') == side), {})] *)
Fixpoint next_side (side : string) (cs : list json) : outcome json :=
  match cs with
  | [] => Returned (JObj [])
  | c :: rest =>
      obind (py_get "homeAway" JNull c) (fun ha =>
        if json_is_str side ha then Returned c else next_side side rest)
  end.

(** [x.get('team', {}).get('displayName', 'Unknown')] *)
Definition team_display_name (c : json) : outcome json :=
  obind (py_get "team" (JObj []) c) (py_get "displayName" (JStr "Unknown")).

(** The six lines of one game. *)
Definition game_block (idx : Z) (game_id away_name home_name formatted_date status : json)
  : list line :=
  [ [Lit "Game "; Val (JInt idx); Lit ":"];
    [Lit "  ID: "; Val game_id];
    [Lit "  Matchup: "; Val away_name; Lit " @ "; Val home_name];
    [Lit "  Date: "; Val formatted_date];
    [Lit "  Status: "; Val status];
    blank ].

(** Lines 106-134: the body of the loop for one event. *)
Definition event_body (idx : Z) (event : json) : Out unit :=
  game_id <- lift (py_get "id" (JStr "Unknown") event) ;;
  name <- lift (py_get "name" (JStr "Unknown matchup") event) ;;
  date <- lift (py_get "date" (JStr "Unknown date") event) ;;
  status_obj <- lift (py_get "status" (JObj []) event) ;;
  status_type <- lift (py_get "type" (JObj []) status_obj) ;;
  status <- lift (py_get "description" (JStr "Unknown") status_type) ;;
  let formatted_date := format_date date in
  competitions <- lift (py_get "competitions" (JArr []) event) ;;
  if truthy competitions then
    first <- lift (py_index0 competitions) ;;
    competitors <- lift (py_get "competitors" (JArr []) first) ;;
    n <- lift (py_len competitors) ;;
    if (2 <=? n)%Z then
      cs <- lift (py_iter competitors) ;;
      home_team <- lift (next_side "home" cs) ;;
      away_team <- lift (next_side "away" cs) ;;
      home_name <- lift (team_display_name home_team) ;;
      away_name <- lift (team_display_name away_team) ;;
      print [Lit "Game "; Val (JInt idx); Lit ":"] ;;;
      print [Lit "  ID: "; Val game_id] ;;;
      print [Lit "  Matchup: "; Val away_name; Lit " @ "; Val home_name] ;;;
      print [Lit "  Date: "; Val formatted_date] ;;;
      print [Lit "  Status: "; Val status] ;;;
      print blank
    else ret tt
  else ret tt.

(** [for idx, event in enumerate(events, idx): ...] *)
Fixpoint event_loop (idx : Z) (events : list json) : Out unit :=
  match events with
  | [] => ret tt
  | event :: rest => event_body idx event ;;; event_loop (idx + 1) rest
  end.

Definition no_games_notice : line :=
  [Lit "⚠️  No games found in response"].

Definition no_games_this_week : line := [Lit "No games found for this week."].

Definition print_game_summary (data : json) : Out unit :=
  skip <- lift (if negb (truthy data) then Returned true
                else obind (py_in "events" data) (fun b => Returned (negb b))) ;;
  if (skip : bool) then print no_games_notice
  else
    events <- lift (py_get "events" (JArr []) data) ;;
    season <- lift (py_get "season" (JObj []) data) ;;
    week <- lift (py_get "week" (JObj []) data) ;;
    print rule80 ;;;
    print [Lit "📅 NFL SCHEDULE"] ;;;
    year <- lift (py_get "year" (JStr "Unknown") season) ;;
    print [Lit "   Season: "; Val year] ;;;
    number <- lift (py_get "number" (JStr "Unknown") week) ;;
    print [Lit "   Week: "; Val number] ;;;
    print rule80 ;;;
    print blank ;;;
    if negb (truthy events) then print no_games_this_week
    else
      items <- lift (py_iter events) ;;
      event_loop 1 items.

End Summarizer.

(* ================================================================== *)
(** * Inspector: [inspect_data_structure] *)

Section Inspector.

Open Scope out_scope.

(** [list(v.keys())], as the f-string shows it. *)
Definition keys_value (ks : list string) : json := JArr (map JStr ks).

(** ['k' in v and v['k']]: the value tested by the [if]. *)
Definition present_and (k : string) (v : json) : outcome bool :=
  obind (py_in k v) (fun b =>
    if b then obind (py_item k v) (fun x => Returned (truthy x))
    else Returned false).

(** [v['k'][0]] *)
Definition first_of (k : string) (v : json) : outcome json :=
  obind (py_item k v) py_index0.

Fixpoint print_keys (ks : list string) : Out unit :=
  match ks with
  | [] => ret tt
  | key :: rest => print [Lit "  - "; Val (JStr key)] ;;; print_keys rest
  end.

Definition inspect_team (competitor : json) : Out unit :=
  has_team <- lift (py_in "team" competitor) ;;
  if (has_team : bool) then
    team <- lift (py_item "team" competitor) ;;
    tk <- lift (py_keys team) ;;
    print [Lit "  Team keys: "; Val (keys_value tk)] ;;;
    print blank
  else ret tt.

Definition inspect_competitor (comp : json) : Out unit :=
  go <- lift (present_and "competitors" comp) ;;
  if (go : bool) then
    competitor <- lift (first_of "competitors" comp) ;;
    ck <- lift (py_keys competitor) ;;
    print [Lit "  Competitor keys: "; Val (keys_value ck)] ;;;
    print blank ;;;
    inspect_team competitor
  else ret tt.

Definition inspect_competition (event : json) : Out unit :=
  go <- lift (present_and "competitions" event) ;;
  if (go : bool) then
    comp <- lift (first_of "competitions" event) ;;
    ck <- lift (py_keys comp) ;;
    print [Lit "  Competition keys: "; Val (keys_value ck)] ;;;
    print blank ;;;
    inspect_competitor comp
  else ret tt.

Definition inspect_event (data : json) : Out unit :=
  go <- lift (present_and "events" data) ;;
  if (go : bool) then
    print [Lit "Sample event structure (first game):"] ;;;
    event <- lift (first_of "events" data) ;;
    ek <- lift (py_keys event) ;;
    print [Lit "  Event keys: "; Val (keys_value ek)] ;;;
    print blank ;;;
    inspect_competition event
  else ret tt.

Definition inspect_data_structure (data : json) : Out unit :=
  print rule80 ;;;
  print [Lit "🔍 DATA STRUCTURE INSPECTION"] ;;;
  print rule80 ;;;
  print blank ;;;
  print [Lit "Top-level keys available:"] ;;;
  ks <- lift (py_keys data) ;;
  print_keys ks ;;;
  print blank ;;;
  inspect_event data.

End Inspector.

(* ================================================================== *)
(** * JSON text: [json.dump(data, f, indent=2, ensure_ascii=False)] *)

Definition dquote : ascii := "034"%char.
Definition backslash : ascii := "092"%char.
Definition newline : ascii := "010"%char.

Definition hex_char (n : nat) : ascii :=
  match n with
  | 10 => "a" | 11 => "b" | 12 => "c" | 13 => "d" | 14 => "e" | 15 => "f"
  | _ => digit_char n
  end%char.

(** The encoder's escape table for [ensure_ascii=False]: the quote, the
    backslash and the control characters below U+0020; every other
    character, non-ASCII included, is written as it is. *)
Definition escape_char (c : ascii) : string :=
  if Ascii.eqb c dquote then String backslash (String dquote EmptyString)
  else if Ascii.eqb c backslash then String backslash (String backslash EmptyString)
  else if Ascii.eqb c "008"%char then String backslash "b"
  else if Ascii.eqb c "012"%char then String backslash "f"
  else if Ascii.eqb c "010"%char then String backslash "n"
  else if Ascii.eqb c "013"%char then String backslash "r"
  else if Ascii.eqb c "009"%char then String backslash "t"
  else if (nat_of_ascii c <? 32)%nat then
    String backslash
      ("u00" ++ String (hex_char (nat_of_ascii c / 16))
                  (String (hex_char (nat_of_ascii c mod 16)) EmptyString))
  else String c EmptyString.

Fixpoint escape_string (s : string) : string :=
  match s with
  | EmptyString => EmptyString
  | String c s' => escape_char c ++ escape_string s'
  end.

Definition encode_string (s : string) : string :=
  String dquote (escape_string s ++ String dquote EmptyString).

(** [str(n)] of an [int]. *)
Definition encode_int (n : Z) : string :=
  if (n <? 0)%Z then "-" ++ NilEmpty.string_of_uint (N.to_uint (Z.abs_N n))
  else NilEmpty.string_of_uint (N.to_uint (Z.abs_N n)).

(** A newline and the indentation of nesting level [lvl] ([indent=2]). *)
Definition newline_indent (lvl : nat) : string :=
  String newline (repeat_string " " (2 * lvl)).

Definition item_separator (lvl : nat) : string := "," ++ newline_indent lvl.

(** The chunks [_iterencode] yields for a value at nesting level [lvl],
    concatenated. *)
Fixpoint encode (lvl : nat) (v : json) : string :=
  match v with
  | JNull => "null"
  | JBool true => "true"
  | JBool false => "false"
  | JInt n => encode_int n
  | JStr s => encode_string s
  | JArr [] => "[]"
  | JArr xs =>
      "[" ++ newline_indent (S lvl) ++
      String.concat (item_separator (S lvl)) (map (encode (S lvl)) xs) ++
      newline_indent lvl ++ "]"
  | JObj [] => "{}"
  | JObj kvs =>
      "{" ++ newline_indent (S lvl) ++
      String.concat (item_separator (S lvl))
        (map (fun kv : string * json =>
                let (k, x) := kv in encode_string k ++ ": " ++ encode (S lvl) x) kvs) ++
      newline_indent lvl ++ "}"
  end.

(** The text of one member of an object at nesting level [lvl]. *)
Definition encode_member (lvl : nat) (kv : string * json) : string :=
  let (k, x) := kv in encode_string k ++ ": " ++ encode lvl x.

Definition json_dumps (v : json) : string := encode 0 v.

(* ================================================================== *)
(** * JSON text: [json.load] *)

Definition is_ws (c : ascii) : bool :=
  Ascii.eqb c " "%char || Ascii.eqb c "009"%char ||
  Ascii.eqb c "010"%char || Ascii.eqb c "013"%char.

Fixpoint skip_ws (s : string) : string :=
  match s with
  | String c s' => if is_ws c then skip_ws s' else s
  | EmptyString => s
  end.

Definition is_digit (c : ascii) : bool :=
  (48 <=? nat_of_ascii c)%nat && (nat_of_ascii c <=? 57)%nat.

Definition hex_val (c : ascii) : option N :=
  let n := N_of_ascii c in
  if is_digit c then Some (n - 48)%N
  else if (97 <=? n)%N && (n <=? 102)%N then Some (n - 87)%N
  else if (65 <=? n)%N && (n <=? 70)%N then Some (n - 55)%N
  else None.

Definition hex4 (a b c d : ascii) : option N :=
  match hex_val a, hex_val b, hex_val c, hex_val d with
  | Some x, Some y, Some z, Some w => Some (((x * 16 + y) * 16 + z) * 16 + w)%N
  | _, _, _, _ => None
  end.

(** The UTF-8 bytes of a code point; [None] for a lone surrogate, which a
    byte string cannot hold. *)
Definition utf8 (cp : N) : option string :=
  let b n := ascii_of_N n in
  (if cp <? 128 then Some (String (b cp) EmptyString)
   else if cp <? 2048 then
     Some (String (b (192 + cp / 64)) (String (b (128 + cp mod 64)) EmptyString))
   else if (55296 <=? cp) && (cp <=? 57343) then None
   else if cp <? 65536 then
     Some (String (b (224 + cp / 4096))
          (String (b (128 + (cp / 64) mod 64))
          (String (b (128 + cp mod 64)) EmptyString)))
   else
     Some (String (b (240 + cp / 262144))
          (String (b (128 + (cp / 4096) mod 64))
          (String (b (128 + (cp / 64) mod 64))
          (String (b (128 + cp mod 64)) EmptyString)))))%N.

Definition simple_escape (e : ascii) : option ascii :=
  if Ascii.eqb e dquote then Some dquote
  else if Ascii.eqb e backslash then Some backslash
  else if Ascii.eqb e "/"%char then Some "/"%char
  else if Ascii.eqb e "b"%char then Some "008"%char
  else if Ascii.eqb e "f"%char then Some "012"%char
  else if Ascii.eqb e "n"%char then Some "010"%char
  else if Ascii.eqb e "r"%char then Some "013"%char
  else if Ascii.eqb e "t"%char then Some "009"%char
  else None.

Definition prepend (t : string) (r : option (string * string)) : option (string * string) :=
  match r with
  | Some (u, rest) => Some (t ++ u, rest)
  | None => None
  end.

(** [scanstring], after the opening quote: the decoded text and what
    follows the closing quote.  A high surrogate joins the low surrogate
    that follows it; a surrogate left alone has no UTF-8 form and is
    refused here. *)
Fixpoint scanstring (s : string) : option (string * string) :=
  match s with
  | EmptyString => None
  | String c s' =>
      if Ascii.eqb c dquote then Some (EmptyString, s')
      else if Ascii.eqb c backslash then
        match s' with
        | EmptyString => None
        | String e s2 =>
            if Ascii.eqb e "u"%char then
              match s2 with
              | String h1 (String h2 (String h3 (String h4 s6))) =>
                  match hex4 h1 h2 h3 h4 with
                  | None => None
                  | Some hi =>
                      if (55296 <=? hi)%N && (hi <=? 56319)%N then
                        match s6 with
                        | String b1 (String u1 (String l1 (String l2 (String l3 (String l4 s12))))) =>
                            match hex4 l1 l2 l3 l4 with
                            | Some lo =>
                                if Ascii.eqb b1 backslash && Ascii.eqb u1 "u"%char &&
                                   (56320 <=? lo)%N && (lo <=? 57343)%N
                                then
                                  match utf8 (65536 + (hi - 55296) * 1024 + (lo - 56320))%N with
                                  | Some t => prepend t (scanstring s12)
                                  | None => None
                                  end
                                else None
                            | None => None
                            end
                        | _ => None
                        end
                      else
                        match utf8 hi with
                        | Some t => prepend t (scanstring s6)
                        | None => None
                        end
                  end
              | _ => None
              end
            else
              match simple_escape e with
              | Some ch => prepend (String ch EmptyString) (scanstring s2)
              | None => None
              end
        end
      else if (nat_of_ascii c <? 32)%nat then None
      else prepend (String c EmptyString) (scanstring s')
  end.

Fixpoint strip_prefix (p s : string) : option string :=
  match p, s with
  | EmptyString, _ => Some s
  | String a p', String b s' => if Ascii.eqb a b then strip_prefix p' s' else None
  | String _ _, EmptyString => None
  end.

(** The longest run of digits at the head of [s], and the rest. *)
Fixpoint span_digits (s : string) : string * string :=
  match s with
  | String c s' =>
      if is_digit c then let (ds, r) := span_digits s' in (String c ds, r)
      else (EmptyString, s)
  | EmptyString => (EmptyString, s)
  end.

(** What may follow an integer: a fraction or an exponent makes the
    number a float, which [json] does not hold. *)
Definition starts_fraction (s : string) : bool :=
  match s with
  | String c _ => Ascii.eqb c "."%char || Ascii.eqb c "e"%char || Ascii.eqb c "E"%char
  | EmptyString => false
  end.

(** The integer part of a number: a single zero, or a run of digits that
    does not start with a zero. *)
Definition scan_natural (s : string) : option (N * string) :=
  match s with
  | String c s' =>
      if Ascii.eqb c "0"%char then Some (0%N, s')
      else if is_digit c then
        let (ds, r) := span_digits s in
        match NilEmpty.uint_of_string ds with
        | Some d => Some (N.of_uint d, r)
        | None => None
        end
      else None
  | EmptyString => None
  end.

Definition scan_number (s : string) : option (json * string) :=
  match s with
  | String c s' =>
      let neg := Ascii.eqb c "-"%char in
      match scan_natural (if neg then s' else s) with
      | Some (n, r) =>
          if starts_fraction r then None
          else Some (JInt (if neg then Z.opp (Z.of_N n) else Z.of_N n), r)
      | None => None
      end
  | EmptyString => None
  end.

(** [dict(pairs)]: a repeated key keeps its first place and its last value. *)
Definition dict_of_pairs (pairs : list (string * json)) : list (string * json) :=
  fold_left (fun d kv => dict_set (fst kv) (snd kv) d) pairs [].

(** [scan_once], [JSONArray] and [JSONObject]; [fuel] bounds the number of
    values read. *)
Fixpoint scan_once (fuel : nat) (s : string) : option (json * string) :=
  match fuel with
  | O => None
  | S f =>
      match s with
      | EmptyString => None
      | String c s' =>
          if Ascii.eqb c dquote then
            match scanstring s' with
            | Some (t, r) => Some (JStr t, r)
            | None => None
            end
          else if Ascii.eqb c "{"%char then
            match skip_ws s' with
            | String c2 r2 =>
                if Ascii.eqb c2 "}"%char then Some (JObj [], r2)
                else
                  match scan_members f (String c2 r2) with
                  | Some (pairs, r) => Some (JObj (dict_of_pairs pairs), r)
                  | None => None
                  end
            | EmptyString => None
            end
          else if Ascii.eqb c "["%char then
            match skip_ws s' with
            | String c2 r2 =>
                if Ascii.eqb c2 "]"%char then Some (JArr [], r2)
                else
                  match scan_elements f (String c2 r2) with
                  | Some (xs, r) => Some (JArr xs, r)
                  | None => None
                  end
            | EmptyString => None
            end
          else
            match strip_prefix "null" s, strip_prefix "true" s, strip_prefix "false" s with
            | Some r, _, _ => Some (JNull, r)
            | None, Some r, _ => Some (JBool true, r)
            | None, None, Some r => Some (JBool false, r)
            | None, None, None => scan_number s
            end
      end
  end
with scan_elements (fuel : nat) (s : string) : option (list json * string) :=
  match fuel with
  | O => None
  | S f =>
      match scan_once f s with
      | None => None
      | Some (x, r) =>
          match skip_ws r with
          | String c r' =>
              if Ascii.eqb c "]"%char then Some ([x], r')
              else if Ascii.eqb c ","%char then
                match scan_elements f (skip_ws r') with
                | Some (xs, r2) => Some (x :: xs, r2)
                | None => None
                end
              else None
          | EmptyString => None
          end
      end
  end
with scan_members (fuel : nat) (s : string) : option (list (string * json) * string) :=
  match fuel with
  | O => None
  | S f =>
      match s with
      | String q s' =>
          if Ascii.eqb q dquote then
            match scanstring s' with
            | None => None
            | Some (k, r) =>
                match skip_ws r with
                | String colon r1 =>
                    if Ascii.eqb colon ":"%char then
                      match scan_once f (skip_ws r1) with
                      | None => None
                      | Some (x, r2) =>
                          match skip_ws r2 with
                          | String c r3 =>
                              if Ascii.eqb c "}"%char then Some ([(k, x)], r3)
                              else if Ascii.eqb c ","%char then
                                match scan_members f (skip_ws r3) with
                                | Some (kvs, r4) => Some ((k, x) :: kvs, r4)
                                | None => None
                                end
                              else None
                          | EmptyString => None
                          end
                      end
                    else None
                | EmptyString => None
                end
            end
          else None
      | EmptyString => None
      end
  end.

(** [json.loads]: one value, white space around it, nothing else. *)
Definition json_loads (s : string) : option json :=
  match scan_once (S (String.length s)) (skip_ws s) with
  | Some (v, r) =>
      match skip_ws r with
      | EmptyString => Some v
      | String _ _ => None
      end
  | None => None
  end.

(* ================================================================== *)
(** * The world outside the script *)

Record request : Type := mkRequest {
  req_url : string;
  req_params : list (string * json);
  req_timeout : Z
}.

(** [body] is [None] when the body is not a JSON text. *)
Record response : Type := mkResponse {
  status_code : Z;
  body : option json
}.

(** What one [requests.get] does: it raises a [RequestException] or
    returns a response. *)
Inductive get_result : Type :=
| GetRaises (e : request_exception)
| GetResponse (r : response).

Inductive node : Type :=
| Dir
| File (content : string).

(** The server's behaviour, the clock, the files by path (relative to the
    working directory) and the log of the network calls made so far.
    Permissions, links and a full disk are not modelled. *)
Record world : Type := mkWorld {
  http_get : request -> get_result;
  now : datetime;
  files : string -> option node;
  calls : list request
}.

(** Code that prints, reads and changes the world, and may raise. *)
Definition IO (A : Type) : Type := world -> (list line * world * outcome A)%type.

Definition io_ret {A} (a : A) : IO A := fun w => ([], w, Returned a).

Definition io_raise {A} (e : exn) : IO A := fun w => ([], w, Raised e).

Definition io_bind {A B} (c : IO A) (k : A -> IO B) : IO B :=
  fun w =>
    match c w with
    | (o1, w1, Returned a) =>
        match k a w1 with
        | (o2, w2, r) => ((o1 ++ o2)%list, w2, r)
        end
    | (o1, w1, Raised e) => (o1, w1, Raised e)
    end.

Definition io_out {A} (c : Out A) : IO A := fun w => (fst c, w, snd c).

Definition io_print (l : line) : IO unit := io_out (print l).

Declare Scope io_scope.
Delimit Scope io_scope with io.
Notation "x <- c ;; k" := (io_bind c (fun x => k))
  (at level 61, c at next level, right associativity) : io_scope.
Notation "c ;;; k" := (io_bind c (fun _ => k))
  (at level 61, right associativity) : io_scope.

(** [requests.get(url, params=params, timeout=timeout)] *)
Definition requests_get (rq : request) : IO get_result :=
  fun w =>
    ([], mkWorld (http_get w) (now w) (files w) (calls w ++ [rq])%list,
     Returned (http_get w rq)).

(** [datetime.now()] *)
Definition datetime_now : IO datetime := fun w => ([], w, Returned (now w)).

Definition write_node (p : string) (n : node) (fs : string -> option node)
  : string -> option node :=
  fun q => if String.eqb q p then Some n else fs q.

Fixpoint has_slash (s : string) : bool :=
  match s with
  | EmptyString => false
  | String c s' => Ascii.eqb c "/"%char || has_slash s'
  end.

(** The path up to its last slash; empty for a path with one component,
    which lies in the working directory. *)
Fixpoint parent_dir (p : string) : string :=
  match p with
  | EmptyString => EmptyString
  | String c p' => if has_slash p' then String c (parent_dir p') else EmptyString
  end.

(** [Path(dir) / name], as a string. *)
Definition path_join (dir name : string) : string :=
  match name with
  | EmptyString => dir
  | String c _ => if Ascii.eqb c "/"%char then name else dir ++ "/" ++ name
  end.

(** [Path(p).mkdir(exist_ok=True)] for a path [p] of one component. *)
Definition mkdir_exist_ok (p : string) : IO unit :=
  fun w =>
    match files w p with
    | Some Dir => ([], w, Returned tt)
    | Some (File _) => ([], w, Raised FileExistsError)
    | None =>
        ([], mkWorld (http_get w) (now w) (write_node p Dir (files w)) (calls w),
         Returned tt)
    end.

Fixpoint has_nul (s : string) : bool :=
  match s with
  | EmptyString => false
  | String c s' => Ascii.eqb c "000"%char || has_nul s'
  end.

(** The last component of a path: what follows its last slash. *)
Fixpoint base_name (p : string) : string :=
  match p with
  | EmptyString => EmptyString
  | String c p' =>
      if has_slash p' then base_name p'
      else if Ascii.eqb c "/"%char then p' else p
  end.

(** The longest file name and the longest path, in bytes, that Linux
    takes ([NAME_MAX]; [PATH_MAX] counts the closing NUL). *)
Definition name_max : nat := 255.
Definition path_max : nat := 4096.

(** [with open(p, 'w', encoding='utf-8') as f: f.write(text)].  Python
    refuses a path with a NUL character ([ValueError]) before the system
    is asked; the system refuses a path of [PATH_MAX] bytes or more, an
    existing directory, a parent that is missing or is a regular file, and
    a last component longer than [NAME_MAX] ([OSError], errno 36). *)
Definition write_text (p text : string) : IO unit :=
  fun w =>
    let put := ([], mkWorld (http_get w) (now w) (write_node p (File text) (files w)) (calls w),
                Returned tt) in
    let create :=
      if (name_max <? String.length (base_name p))%nat then ([], w, Raised OSError)
      else put in
    if has_nul p then ([], w, Raised ValueError)
    else if (path_max <=? String.length p)%nat then ([], w, Raised OSError)
    else
      match files w p with
      | Some Dir => ([], w, Raised IsADirectoryError)
      | _ =>
          match parent_dir p with
          | EmptyString => create
          | String _ _ =>
              match files w (parent_dir p) with
              | Some Dir => create
              | Some (File _) => ([], w, Raised NotADirectoryError)
              | None => ([], w, Raised FileNotFoundError)
              end
          end
      end.

(* ================================================================== *)
(** * Fetcher: [fetch_nfl_scoreboard] *)

Section Script.

Variable parse_iso : string -> option datetime.

Open Scope io_scope.

Definition base_url : string :=
  "https://site.api.espn.com/apis/site/v2/sports/football/nfl/scoreboard".

(** Lines 31-38. *)
Definition build_params (week : json) : list (string * json) :=
  let params := [("limit", JInt 100)] in
  if truthy week then dict_set "seasontype" (JInt 2) (dict_set "week" week params)
  else params.

(** [response.raise_for_status()] raises for a status from 400 to 599. *)
Definition is_error_status (status : Z) : bool :=
  (400 <=? status)%Z && (status <? 600)%Z.

Definition fetch_failed (e : request_exception) : IO json :=
  io_print [Lit "❌ Error fetching data: "; Exc e] ;;;
  io_ret JNull.

(** [year] is not used by the function.  [week] is any Python value,
    [JNull] for [None].  The [try] block covers the call, the status check
    and the decoding of the body; a body that is not JSON raises the
    [JSONDecodeError] of [requests], itself a [RequestException]. *)
Definition fetch_nfl_scoreboard (year : Z) (week : json) : IO json :=
  let params := build_params week in
  io_print [Lit "🏈 Fetching NFL games..."] ;;;
  io_print [Lit "   URL: "; Val (JStr base_url)] ;;;
  io_print [Lit "   Params: "; Val (JObj params)] ;;;
  io_print blank ;;;
  r <- requests_get (mkRequest base_url params 10) ;;
  match r with
  | GetRaises e => fetch_failed e
  | GetResponse resp =>
      if is_error_status (status_code resp) then fetch_failed (HTTPError (status_code resp))
      else
        match body resp with
        | None => fetch_failed JSONDecodeError
        | Some data =>
            io_print [Lit "✅ Successfully fetched data from ESPN API"] ;;;
            io_ret data
        end
  end.

(* ------------------------------------------------------------------ *)
(** * Persister: [save_raw_response] *)

Definition output_dir : string := "sample_responses".

Definition save_raw_response (data : json) (filename : string) : IO unit :=
  mkdir_exist_ok output_dir ;;;
  let filepath := path_join output_dir filename in
  write_text filepath (json_dumps data) ;;;
  io_print [Lit "💾 Saved raw response to: "; Val (JStr filepath)] ;;;
  io_print blank.

(* ------------------------------------------------------------------ *)
(** * Orchestrator: [main] *)

Definition main_banner : list line :=
  [ rule80; [Lit "ESPN NFL API EXPLORATION - DAY 1"]; rule80; blank ].

Definition failure_notice : line := [Lit "Failed to fetch data. Exiting."].

Definition next_steps : list line :=
  [ rule80; [Lit "✅ EXPLORATION COMPLETE"]; rule80; blank;
    [Lit "📋 NEXT STEPS:"];
    [Lit "  1. Check api_research/sample_responses/ for the full JSON"];
    [Lit "  2. Manually inspect the JSON to see all available fields"];
    [Lit "  3. Note any interesting fields for later use"];
    blank ].

Definition print_lines (ls : list line) : IO unit := io_out (ls, Returned tt).

Definition main : IO unit :=
  print_lines main_banner ;;;
  data <- fetch_nfl_scoreboard 2024 JNull ;;
  if negb (truthy data) then io_print failure_notice
  else
    t <- datetime_now ;;
    let timestamp := strftime_stamp t in
    let filename := "nfl_scoreboard_" ++ timestamp ++ ".json" in
    save_raw_response data filename ;;;
    io_out (print_game_summary parse_iso data) ;;;
    io_out (inspect_data_structure data) ;;;
    print_lines next_steps.

End Script.

(* ================================================================== *)
(** * [datetime.fromisoformat] *)

Definition digit_val (c : ascii) : option nat :=
  if is_digit c then Some (nat_of_ascii c - 48) else None.

(** Exactly [n] decimal digits at the head of [s], read from the value
    [acc] on. *)
Fixpoint take_digits (n : nat) (acc : nat) (s : string) : option (nat * string) :=
  match n with
  | O => Some (acc, s)
  | S n' =>
      match s with
      | String c s' =>
          match digit_val c with
          | Some d => take_digits n' (10 * acc + d) s'
          | None => None
          end
      | EmptyString => None
      end
  end.

Definition is_leap (y : nat) : bool :=
  (y mod 4 =? 0)%nat && (negb (y mod 100 =? 0)%nat || (y mod 400 =? 0)%nat).

Definition days_in_month (y m : nat) : nat :=
  match m with
  | 1 | 3 | 5 | 7 | 8 | 10 | 12 => 31
  | 4 | 6 | 9 | 11 => 30
  | 2 => if is_leap y then 29 else 28
  | _ => 0
  end.

(** [YYYY-MM-DD] at the head of the string. *)
Definition parse_isoformat_date (s : string) : option (nat * nat * nat * string) :=
  match take_digits 4 0 s with
  | Some (y, String c1 r1) =>
      if Ascii.eqb c1 "-"%char then
        match take_digits 2 0 r1 with
        | Some (m, String c2 r2) =>
            if Ascii.eqb c2 "-"%char then
              match take_digits 2 0 r2 with
              | Some (d, r3) => Some (y, m, d, r3)
              | None => None
              end
            else None
        | _ => None
        end
      else None
  | _ => None
  end.

(** The fraction of a second: three or six digits, in microseconds. *)
Definition parse_fraction (s : string) : option Z :=
  match String.length s with
  | 3 => match take_digits 3 0 s with Some (ms, _) => Some (Z.of_nat ms * 1000)%Z | None => None end
  | 6 => match take_digits 6 0 s with Some (us, _) => Some (Z.of_nat us) | None => None end
  | _ => None
  end.

(** [HH[:MM[:SS[.fff[fff]]]]], the whole string. *)
Definition parse_hh_mm_ss_ff (s : string) : option (nat * nat * nat * Z) :=
  match take_digits 2 0 s with
  | Some (h, EmptyString) => Some (h, 0, 0, 0%Z)
  | Some (h, String c1 r1) =>
      if Ascii.eqb c1 ":"%char then
        match take_digits 2 0 r1 with
        | Some (m, EmptyString) => Some (h, m, 0, 0%Z)
        | Some (m, String c2 r2) =>
            if Ascii.eqb c2 ":"%char then
              match take_digits 2 0 r2 with
              | Some (sec, EmptyString) => Some (h, m, sec, 0%Z)
              | Some (sec, String c3 r3) =>
                  if Ascii.eqb c3 "."%char then
                    match parse_fraction r3 with
                    | Some us => Some (h, m, sec, us)
                    | None => None
                    end
                  else None
              | None => None
              end
            else None
        | None => None
        end
      else None
  | None => None
  end.

(** The time and, after the first sign, the offset. *)
Fixpoint split_sign (s : string) : string * option (ascii * string) :=
  match s with
  | EmptyString => (EmptyString, None)
  | String c s' =>
      if Ascii.eqb c "+"%char || Ascii.eqb c "-"%char then (EmptyString, Some (c, s'))
      else let (t, z) := split_sign s' in (String c t, z)
  end.

(** The offset [HH:MM[:SS[.ffffff]]] after its sign, in microseconds; it
    must lie strictly between minus and plus 24 hours. *)
Definition parse_offset (sign : ascii) (s : string) : option Z :=
  match String.length s with
  | 5 | 8 | 15 =>
      match parse_hh_mm_ss_ff s with
      | Some (h, m, sec, us) =>
          let magnitude :=
            ((Z.of_nat h * 3600 + Z.of_nat m * 60 + Z.of_nat sec) * 1000000 + us)%Z in
          if (magnitude <? 86400000000)%Z then
            Some (if Ascii.eqb sign "-"%char then Z.opp magnitude else magnitude)
          else None
      | None => None
      end
  | _ => None
  end.

(** The range checks of the [datetime] constructor. *)
Definition valid_fields (y m d h mi sec : nat) : bool :=
  (1 <=? y)%nat && (1 <=? m)%nat && (m <=? 12)%nat &&
  (1 <=? d)%nat && (d <=? days_in_month y m)%nat &&
  (h <? 24)%nat && (mi <? 60)%nat && (sec <? 60)%nat.

(** The strings every version of [fromisoformat] reads the same way:
    [YYYY-MM-DD[*HH[:MM[:SS[.fff[fff]]]][+HH:MM[:SS[.ffffff]]]]], where [*]
    is any one character.  The offset of the result is in microseconds. *)
Definition fromisoformat (s : string) : option datetime :=
  match parse_isoformat_date s with
  | Some (y, m, d, EmptyString) =>
      if valid_fields y m d 0 0 0 then Some (mkDatetime y m d 0 0 0 0%Z None) else None
  | Some (y, m, d, String _ tstr) =>
      let (timestr, tz) := split_sign tstr in
      match parse_hh_mm_ss_ff timestr with
      | Some (h, mi, sec, us) =>
          if valid_fields y m d h mi sec then
            match tz with
            | None => Some (mkDatetime y m d h mi sec us None)
            | Some (sign, tzstr) =>
                match parse_offset sign tzstr with
                | Some off => Some (mkDatetime y m d h mi sec us (Some off))
                | None => None
                end
            end
          else None
      | None => None
      end
  | None => None
  end.

(** The seconds of a timestamp that may leave them out. *)
Definition seconds_of (sec : option nat) : nat :=
  match sec with
  | Some x => x
  | None => 0
  end.

(** A UTC timestamp as the endpoint writes it: [YYYY-MM-DDThh:mmZ], or
    [YYYY-MM-DDThh:mm:ssZ] when the seconds are given. *)
Definition iso_utc (y m d h mi : nat) (sec : option nat) : string :=
  d4 y ++ "-" ++ d2 m ++ "-" ++ d2 d ++ "T" ++ d2 h ++ ":" ++ d2 mi ++
  match sec with
  | Some x => ":" ++ d2 x
  | None => EmptyString
  end ++ "Z".

(** Three decimal digits, zero filled. *)
Definition d3 (n : nat) : string := String (digit_char ((n / 100) mod 10)) (d2 (n mod 100)).

(** A fraction of a second as a timestamp writes it: three digits
    (milliseconds) or six (microseconds). *)
Inductive fraction : Type :=
| Millis (ms : nat)
| Micros (us : nat).

Definition fraction_digits (f : fraction) : string :=
  match f with
  | Millis ms => d3 ms
  | Micros us => d3 (us / 1000) ++ d3 (us mod 1000)
  end.

Definition fraction_in_range (f : fraction) : bool :=
  match f with
  | Millis ms => (ms <? 1000)%nat
  | Micros us => (us <? 1000 * 1000)%nat
  end.

Definition fraction_micros (f : fraction) : Z :=
  match f with
  | Millis ms => (Z.of_nat ms * 1000)%Z
  | Micros us => Z.of_nat us
  end.

(** A UTC timestamp with a fraction of a second:
    [YYYY-MM-DDThh:mm:ss.fffZ] or [YYYY-MM-DDThh:mm:ss.ffffffZ]. *)
Definition iso_utc_fraction (y m d h mi sec : nat) (f : fraction) : string :=
  d4 y ++ "-" ++ d2 m ++ "-" ++ d2 d ++ "T" ++ d2 h ++ ":" ++ d2 mi ++ ":" ++ d2 sec ++
  "." ++ fraction_digits f ++ "Z".

(** The 12-hour clock, hour by hour from midnight: the hour it shows and
    the half of the day. *)
Definition clock12 : list (string * string) :=
  [ ("12", "AM"); ("01", "AM"); ("02", "AM"); ("03", "AM"); ("04", "AM"); ("05", "AM");
    ("06", "AM"); ("07", "AM"); ("08", "AM"); ("09", "AM"); ("10", "AM"); ("11", "AM");
    ("12", "PM"); ("01", "PM"); ("02", "PM"); ("03", "PM"); ("04", "PM"); ("05", "PM");
    ("06", "PM"); ("07", "PM"); ("08", "PM"); ("09", "PM"); ("10", "PM"); ("11", "PM") ].

(** The wall-clock time [y-m-d h:mi] as [YYYY-MM-DD hh:mm AM/PM]. *)
Definition readable_utc (y m d h mi : nat) : string :=
  let (hh, half) := nth h clock12 (EmptyString, EmptyString) in
  d4 y ++ "-" ++ d2 m ++ "-" ++ d2 d ++ " " ++ hh ++ ":" ++ d2 mi ++ " " ++ half.

(** An event dated with a leap second, which no [datetime] can hold. *)
Definition leap_second_event : json :=
  JObj [ ("id", JStr "401671789");
         ("date", JStr "2024-12-31T23:59:60Z");
         ("competitions",
          JArr [JObj [("competitors",
            JArr [ JObj [("homeAway", JStr "home")]; JObj [("homeAway", JStr "away")] ])]]) ].

(* ================================================================== *)
(** * The data model of the specification *)

Definition is_obj (v : json) : bool :=
  match v with
  | JObj _ => true
  | _ => false
  end.

(** [v] is an object, and its field [k], when present, satisfies [p]. *)
Definition opt_field (k : string) (p : json -> bool) (v : json) : bool :=
  match v with
  | JObj kvs =>
      match dict_lookup k kvs with
      | Some x => p x
      | None => true
      end
  | _ => false
  end.

(** [v] is a sequence whose elements satisfy [p]. *)
Definition all_items (p : json -> bool) (v : json) : bool :=
  match v with
  | JArr xs => forallb p xs
  | _ => false
  end.

(** Section 3 of the specification: a response is an object with [events]
    (a sequence of events), [season] and [week] (objects); an event has a
    nested [status] and a sequence of [competitions]; a competition has a
    sequence of [competitors]; a competitor wraps a [team] object.  Every
    field may be missing; one that is present has the type the model
    gives it.  Fields the script only prints ([id], [date], ...) are free. *)
Definition wf_competitor (c : json) : bool := opt_field "team" is_obj c.

Definition wf_competition (c : json) : bool :=
  opt_field "competitors" (all_items wf_competitor) c.

Definition wf_status (s : json) : bool := opt_field "type" is_obj s.

Definition wf_event (e : json) : bool :=
  opt_field "status" wf_status e &&
  opt_field "competitions" (all_items wf_competition) e.

Definition wf_response (d : json) : bool :=
  opt_field "events" (all_items wf_event) d &&
  opt_field "season" is_obj d &&
  opt_field "week" is_obj d.

(** The field [k] of [v], or [default] when [v] has no such field. *)
Definition field (k : string) (default : json) (v : json) : json :=
  match v with
  | JObj kvs =>
      match dict_lookup k kvs with
      | Some x => x
      | None => default
      end
  | _ => default
  end.

Definition items (v : json) : list json :=
  match v with
  | JArr xs => xs
  | _ => []
  end.

(* ------------------------------------------------------------------ *)
(** ** The summary, in the words of the specification *)

Section SummarySpec.

Variable parse_iso : string -> option datetime.

(** The competitors of the first competition of an event; none when the
    event has no competition. *)
Definition matchup_competitors (event : json) : list json :=
  match items (field "competitions" (JArr []) event) with
  | [] => []
  | first :: _ => items (field "competitors" (JArr []) first)
  end.

(** The event has a first competition with at least two competitors. *)
Definition has_matchup (event : json) : bool :=
  (2 <=? List.length (matchup_competitors event))%nat.

(** The first competitor tagged [side], or an empty structure. *)
Definition side_competitor (side : string) (cs : list json) : json :=
  match find (fun c => json_is_str side (field "homeAway" JNull c)) cs with
  | Some c => c
  | None => JObj []
  end.

Definition display_name (c : json) : json :=
  field "displayName" (JStr "Unknown") (field "team" (JObj []) c).

(** What the summary shows for the event at 1-based position [idx]. *)
Definition summary_block (idx : Z) (event : json) : list line :=
  if has_matchup event then
    let cs := matchup_competitors event in
    game_block idx
      (field "id" (JStr "Unknown") event)
      (display_name (side_competitor "away" cs))
      (display_name (side_competitor "home" cs))
      (format_date parse_iso (field "date" (JStr "Unknown date") event))
      (field "description" (JStr "Unknown")
         (field "type" (JObj []) (field "status" (JObj []) event)))
  else [].

(** The events with their positions in the sequence, counted from [k]. *)
Definition enumerate_from (k : nat) (events : list json) : list (nat * json) :=
  combine (seq k (List.length events)) events.

Definition summary_blocks_from (k : nat) (events : list json) : list line :=
  flat_map (fun p => summary_block (Z.of_nat (fst p)) (snd p)) (enumerate_from k events).

(** Every event is shown with its 1-based position in the sequence. *)
Definition summary_blocks (events : list json) : list line :=
  summary_blocks_from 1 events.

(** The first line of the block of game number [idx]. *)
Definition game_line (idx : Z) : line := [Lit "Game "; Val (JInt idx); Lit ":"].

(** The banner with the season year and the week number. *)
Definition summary_banner (data : json) : list line :=
  [ rule80;
    [Lit "📅 NFL SCHEDULE"];
    [Lit "   Season: "; Val (field "year" (JStr "Unknown") (field "season" (JObj []) data))];
    [Lit "   Week: "; Val (field "number" (JStr "Unknown") (field "week" (JObj []) data))];
    rule80;
    blank ].

End SummarySpec.

(* ------------------------------------------------------------------ *)
(** ** The inspection, in the words of the specification *)

(** The first element of the field [k] of [v], when the field is present
    and not empty. *)
Definition first_item (k : string) (v : json) : option json :=
  match v with
  | JObj kvs =>
      match dict_lookup k kvs with
      | Some (JArr (x :: _)) => Some x
      | _ => None
      end
  | _ => None
  end.

Definition keys_of (v : json) : list string :=
  match v with
  | JObj kvs => dict_keys kvs
  | _ => []
  end.

Definition keys_line (label : string) (v : json) : list line :=
  [ [Lit label; Val (keys_value (keys_of v))]; blank ].

Definition team_level (competitor : json) : list line :=
  match competitor with
  | JObj kvs =>
      match dict_lookup "team" kvs with
      | Some team => keys_line "  Team keys: " team
      | None => []
      end
  | _ => []
  end.

Definition competitor_level (comp : json) : list line :=
  match first_item "competitors" comp with
  | Some competitor => keys_line "  Competitor keys: " competitor ++ team_level competitor
  | None => []
  end%list.

Definition competition_level (event : json) : list line :=
  match first_item "competitions" event with
  | Some comp => keys_line "  Competition keys: " comp ++ competitor_level comp
  | None => []
  end%list.

Definition event_level (data : json) : list line :=
  match first_item "events" data with
  | Some event =>
      [Lit "Sample event structure (first game):"] ::
      keys_line "  Event keys: " event ++ competition_level event
  | None => []
  end%list.

Definition top_level (data : json) : list line :=
  ([ rule80; [Lit "🔍 DATA STRUCTURE INSPECTION"]; rule80; blank;
     [Lit "Top-level keys available:"] ] ++
   map (fun key => [Lit "  - "; Val (JStr key)]) (keys_of data) ++
   [ blank ])%list.

(** The levels the descent reaches, each printed once. *)
Definition levels_reached (data : json) : list line :=
  (top_level data ++ event_level data)%list.

(* ------------------------------------------------------------------ *)
(** ** File names *)

(** A name of one path component that the file system takes: not empty,
    no slash, not [.] or [..], no NUL character and at most [NAME_MAX]
    bytes. *)
Definition simple_name (name : string) : bool :=
  negb (String.eqb name "") && negb (has_slash name) &&
  negb (String.eqb name ".") && negb (String.eqb name "..") &&
  negb (has_nul name) && (String.length name <=? name_max)%nat.

(** The keys of a dictionary are pairwise different. *)
Fixpoint distinct_keys (kvs : list (string * json)) : bool :=
  match kvs with
  | [] => true
  | (k, _) :: rest => negb (existsb (String.eqb k) (dict_keys rest)) && distinct_keys rest
  end.

(** Every dictionary of the document has each key once, as a Python
    [dict] does. *)
Fixpoint unique_keys (v : json) : bool :=
  match v with
  | JArr xs => forallb unique_keys xs
  | JObj kvs =>
      distinct_keys kvs && forallb (fun kv : string * json => unique_keys (snd kv)) kvs
  | _ => true
  end.

(* ------------------------------------------------------------------ *)
(** ** Limits of the interpreter *)

(** The decimal digits of an integer. *)
Definition int_digits (n : Z) : nat :=
  String.length (NilEmpty.string_of_uint (N.to_uint (Z.abs_N n))).

(** Python 3.11 refuses to write or read an integer of more than 4300
    digits. *)
Definition max_int_digits : nat := 4300.

Fixpoint ints_in_limit (v : json) : bool :=
  match v with
  | JInt n => (int_digits n <=? max_int_digits)%nat
  | JArr xs => forallb ints_in_limit xs
  | JObj kvs => forallb (fun kv : string * json => ints_in_limit (snd kv)) kvs
  | _ => true
  end.

(** The levels of arrays and objects inside one another. *)
Fixpoint depth (v : json) : nat :=
  match v with
  | JArr xs => S (list_max (map depth xs))
  | JObj kvs => S (list_max (map (fun kv : string * json => depth (snd kv)) kvs))
  | _ => 0
  end.

(** A nesting the encoder and the scanner, which recurse once per level,
    reach well inside the recursion limit of the interpreter. *)
Definition max_depth : nat := 100.

(** A document the interpreter writes and reads without hitting one of
    its limits. *)
Definition within_limits (v : json) : bool :=
  ints_in_limit v && (depth v <=? max_depth)%nat.

(* ------------------------------------------------------------------ *)
(** ** The file, line by line *)












(* ------------------------------------------------------------------ *)
(** ** Reading back what the encoder wrote *)

(** What follows a value in the text the encoder writes: nothing, a comma
    or a newline. *)
Definition ends_value (rest : string) : bool :=
  match rest with
  | EmptyString => true
  | String c _ => Ascii.eqb c ","%char || Ascii.eqb c newline
  end.

(** The text starts with a character that is not white space and closes no
    array or object. *)
Definition starts_value (s : string) : bool :=
  match s with
  | EmptyString => false
  | String c _ =>
      negb (is_ws c) && negb (Ascii.eqb c "]"%char) && negb (Ascii.eqb c "}"%char)
  end.

(** The number of values in a document, counting every element and member
    once more: the fuel [scan_once] needs to read it back. *)
Fixpoint size (v : json) : nat :=
  match v with
  | JArr xs => S (list_sum (map (fun x => S (size x)) xs))
  | JObj kvs => S (list_sum (map (fun kv : string * json => S (size (snd kv))) kvs))
  | _ => 1
  end.

Section JsonInduction.

Variable P : json -> Prop.
Hypothesis P_null : P JNull.
Hypothesis P_bool : forall b, P (JBool b).
Hypothesis P_int : forall n, P (JInt n).
Hypothesis P_str : forall s, P (JStr s).
Hypothesis P_arr : forall xs, Forall P xs -> P (JArr xs).
Hypothesis P_obj : forall kvs, Forall (fun kv => P (snd kv)) kvs -> P (JObj kvs).

(** Induction on a document, with the hypothesis for every element of an
    array and every value of an object. *)
Fixpoint json_nested_ind (v : json) : P v :=
  match v with
  | JNull => P_null
  | JBool b => P_bool b
  | JInt n => P_int n
  | JStr s => P_str s
  | JArr xs =>
      P_arr xs
        ((fix go (l : list json) : Forall P l :=
            match l with
            | [] => Forall_nil P
            | x :: r => Forall_cons x (json_nested_ind x) (go r)
            end) xs)
  | JObj kvs =>
      P_obj kvs
        ((fix go (l : list (string * json)) : Forall (fun kv => P (snd kv)) l :=
            match l with
            | [] => Forall_nil _
            | kv :: r => Forall_cons kv (json_nested_ind (snd kv)) (go r)
            end) kvs)
  end.

End JsonInduction.

(** [scan_once] reads [v] back from the text [encode] writes for it, at
    any nesting level and before any text that ends a value. *)
Definition roundtrips (v : json) : Prop :=
  forall lvl fuel rest,
    size v <= fuel -> ends_value rest = true -> unique_keys v = true ->
    scan_once fuel (encode lvl v ++ rest) = Some (v, rest).


(* ------------------------------------------------------------------ *)
(** ** Sample documents *)

(** A fully populated event. *)
Definition sample_event : json :=
  JObj [ ("id", JStr "401671789");
         ("name", JStr "Dallas Cowboys at Cleveland Browns");
         ("date", JStr "2024-09-08T17:00Z");
         ("status", JObj [("type", JObj [("description", JStr "Scheduled")])]);
         ("competitions",
          JArr [JObj [("competitors",
            JArr [ JObj [("homeAway", JStr "home");
                         ("team", JObj [("displayName", JStr "Cleveland Browns")])];
                   JObj [("homeAway", JStr "away");
                         ("team", JObj [("displayName", JStr "Dallas Cowboys")])] ])]]) ].

(** The minimal event. *)
Definition minimal_event : json := JObj [].

(** A response with the events [evs]. *)
Definition sample_response (evs : list json) : json :=
  JObj [ ("season", JObj [("type", JInt 2); ("year", JInt 2024)]);
         ("week", JObj [("number", JInt 1)]);
         ("events", JArr evs) ].

(** The lines the fetcher prints before the network call. *)
Definition fetch_prelude (week : json) : list line :=
  [ [Lit "🏈 Fetching NFL games..."];
    [Lit "   URL: "; Val (JStr base_url)];
    [Lit "   Params: "; Val (JObj (build_params week))];
    blank ].

(** The request the fetcher sends for [week]. *)
Definition fetch_request (week : json) : request :=
  mkRequest base_url (build_params week) 10.

(** A world with an empty working directory whose server behaves as
    [server]. *)
Definition sample_world (server : request -> get_result) : world :=
  mkWorld server (mkDatetime 2024 9 8 12 30 15 0%Z None) (fun _ => None) [].

(* ------------------------------------------------------------------ *)
(** ** Definitions for the further properties *)

(** The name [main] gives the file of a run at time [t]. *)
Definition run_filename (t : datetime) : string :=
  "nfl_scoreboard_" ++ strftime_stamp t ++ ".json".

(** What the summary shows for a response: the notice when there is no
    [events] field; otherwise the banner, followed by the notice for an
    empty week or by the blocks of the events. *)
Definition summary_output (parse_iso : string -> option datetime) (data : json)
  : list line :=
  match data with
  | JObj kvs =>
      match dict_lookup "events" kvs with
      | None => [no_games_notice]
      | Some evs =>
          (summary_banner data ++
           match items evs with
           | [] => [no_games_this_week]
           | xs => summary_blocks parse_iso xs
           end)%list
      end
  | _ => [no_games_notice]
  end.

(** A timestamp with an explicit offset from UTC:
    [YYYY-MM-DDThh:mm+HH:MM], or with a minus sign when [west]. *)
Definition iso_offset (y m d h mi : nat) (west : bool) (oh om : nat) : string :=
  d4 y ++ "-" ++ d2 m ++ "-" ++ d2 d ++ "T" ++ d2 h ++ ":" ++ d2 mi ++
  (if west then "-" else "+") ++ d2 oh ++ ":" ++ d2 om.

(** The fields of a time that [strftime_stamp] shows. *)
Definition stamp_fields (t : datetime) : nat * nat * nat * nat * nat * nat :=
  (dt_year t, dt_month t, dt_day t, dt_hour t, dt_minute t, dt_second t).

(** A time of the calendar in a year of four digits, for which [%Y]
    needs no filling. *)
Definition stamp_in_range (t : datetime) : bool :=
  (1000 <=? dt_year t)%nat && (dt_year t <? 100 * 100)%nat &&
  valid_fields (dt_year t) (dt_month t) (dt_day t) (dt_hour t) (dt_minute t) (dt_second t).

(** The sample event under another name and with one more field. *)
Definition renamed_event : json :=
  JObj [ ("shortName", JStr "DAL @ CLE");
         ("name", JStr "Cowboys visit Browns");
         ("competitions",
          JArr [JObj [("competitors",
            JArr [ JObj [("homeAway", JStr "home");
                         ("team", JObj [("displayName", JStr "Cleveland Browns")])];
                   JObj [("homeAway", JStr "away");
                         ("team", JObj [("displayName", JStr "Dallas Cowboys")])] ])]]);
         ("status", JObj [("type", JObj [("description", JStr "Scheduled")])]);
         ("date", JStr "2024-09-08T17:00Z");
         ("id", JStr "401671789") ].

(** A character the encoder writes as it is: not a control character, not
    the quote, not the backslash. *)
Definition plain_char (c : ascii) : bool :=
  negb (nat_of_ascii c <? 32)%nat && negb (Ascii.eqb c dquote) &&
  negb (Ascii.eqb c backslash).

Fixpoint all_plain (s : string) : bool :=
  match s with
  | EmptyString => true
  | String c s' => plain_char c && all_plain s'
  end.

(** A world whose server answers every request with status 200 and the
    body [data]. *)
Definition serving (data : json) : world :=
  sample_world (fun _ => GetResponse (mkResponse 200 (Some data))).

(** A world as [serving], where [sample_responses] is a regular file. *)
Definition serving_blocked (data : json) : world :=
  mkWorld (fun _ => GetResponse (mkResponse 200 (Some data)))
    (mkDatetime 2024 9 8 12 30 15 0%Z None)
    (fun p => if String.eqb p output_dir then Some (File "notes") else None) [].

(* ================================================================== *)
(** * Properties of the summarizer *)

Section SummarizerFacts.

Variable parse_iso : string -> option datetime.

Lemma bind_lift_returned {A B} (a : A) (k : A -> Out B) :
  bind (lift (Returned a)) k = k a.
Proof.
  unfold bind, lift. destruct (k a) as [o r]. reflexivity.
Qed.

Lemma bind_lift_raised {A B} (e : exn) (k : A -> Out B) :
  bind (lift (Raised e)) k = ([], Raised e).
Proof. reflexivity. Qed.

Lemma bind_print {B} (l : line) (k : unit -> Out B) :
  bind (print l) k = (l :: fst (k tt), snd (k tt)).
Proof.
  unfold bind, print. destruct (k tt) as [o r]. reflexivity.
Qed.

Lemma py_get_obj k default kvs :
  py_get k default (JObj kvs) = Returned (field k default (JObj kvs)).
Proof. reflexivity. Qed.

Lemma opt_field_obj k p v :
  opt_field k p v = true -> exists kvs, v = JObj kvs.
Proof.
  destruct v; simpl; try discriminate. intros _. eexists. reflexivity.
Qed.

Lemma opt_field_default k p v default :
  opt_field k p v = true -> p default = true -> p (field k default v) = true.
Proof.
  destruct v; simpl; try discriminate.
  destruct (dict_lookup k kvs); auto.
Qed.

Lemma all_items_arr p v :
  all_items p v = true -> exists xs, v = JArr xs /\ forallb p xs = true.
Proof.
  destruct v; simpl; try discriminate. eauto.
Qed.

(** On competitors that are objects, the generator expression finds the
    first one tagged [side]. *)
Lemma next_side_wf side cs :
  forallb wf_competitor cs = true ->
  next_side side cs = Returned (side_competitor side cs).
Proof.
  unfold side_competitor.
  induction cs as [|c cs IH]; simpl; intros H; [reflexivity|].
  apply andb_prop in H. destruct H as [Hc Hcs].
  destruct (opt_field_obj _ _ _ Hc) as [kvs ->]. simpl.
  destruct (json_is_str side
              match dict_lookup "homeAway" kvs with Some x => x | None => JNull end);
    [reflexivity|].
  rewrite (IH Hcs). reflexivity.
Qed.

Lemma side_competitor_wf side cs :
  forallb wf_competitor cs = true -> wf_competitor (side_competitor side cs) = true.
Proof.
  unfold side_competitor. intros H.
  destruct (find _ cs) as [c|] eqn:E; [|reflexivity].
  apply find_some in E. destruct E as [Hin _].
  rewrite forallb_forall in H. auto.
Qed.

Lemma team_display_name_wf c :
  wf_competitor c = true -> team_display_name c = Returned (display_name c).
Proof.
  intros H. destruct (opt_field_obj _ _ _ H) as [kvs ->].
  unfold team_display_name, display_name, wf_competitor in *. simpl in *.
  destruct (dict_lookup "team" kvs) as [t|]; [|reflexivity].
  destruct t; try discriminate. reflexivity.
Qed.

(** The loop body on an event of the data model: it never raises, and it
    prints the block of the event, or nothing. *)
Lemma event_body_wf idx event :
  wf_event event = true ->
  event_body parse_iso idx event = (summary_block parse_iso idx event, Returned tt).
Proof.
  intros H. unfold wf_event in H. apply andb_prop in H. destruct H as [Hs Hc].
  destruct (opt_field_obj _ _ _ Hs) as [kvs ->].
  assert (Hst : wf_status (field "status" (JObj []) (JObj kvs)) = true)
    by (apply opt_field_default; auto).
  destruct (opt_field_obj _ _ _ Hst) as [skvs Es].
  assert (Hty : is_obj (field "type" (JObj []) (JObj skvs)) = true)
    by (rewrite <- Es; apply opt_field_default; auto).
  destruct (field "type" (JObj []) (JObj skvs)) as [| | | | |tkvs] eqn:Et; try discriminate.
  assert (Hcs : all_items wf_competition (field "competitions" (JArr []) (JObj kvs)) = true)
    by (apply opt_field_default; auto).
  apply all_items_arr in Hcs. destruct Hcs as (comps & Ec & Hall).
  unfold event_body, summary_block, has_matchup, matchup_competitors.
  rewrite !py_get_obj, !bind_lift_returned.
  rewrite Es, py_get_obj, bind_lift_returned, Et, py_get_obj, bind_lift_returned.
  rewrite bind_lift_returned.
  rewrite Ec. simpl items.
  destruct comps as [|first rest]; [reflexivity|].
  simpl truthy. cbv iota. simpl py_index0. rewrite bind_lift_returned.
  simpl in Hall. apply andb_prop in Hall. destruct Hall as [Hfirst _].
  destruct (opt_field_obj _ _ _ Hfirst) as [ckvs ->].
  rewrite py_get_obj, bind_lift_returned.
  assert (Hcomp : all_items wf_competitor (field "competitors" (JArr []) (JObj ckvs)) = true)
    by (apply opt_field_default; auto).
  apply all_items_arr in Hcomp. destruct Hcomp as (cs & Ecs & Hcall).
  rewrite Ecs. simpl items. simpl py_len. rewrite bind_lift_returned.
  replace (2 <=? Z.of_nat (List.length cs))%Z with (2 <=? List.length cs)%nat.
  2:{ destruct (Nat.leb_spec 2 (List.length cs)); symmetry;
      [apply Z.leb_le | apply Z.leb_gt]; lia. }
  destruct (2 <=? List.length cs)%nat; [|reflexivity].
  simpl py_iter. rewrite bind_lift_returned.
  rewrite !next_side_wf by assumption. rewrite !bind_lift_returned.
  rewrite !team_display_name_wf by (apply side_competitor_wf; assumption).
  rewrite !bind_lift_returned.
  reflexivity.
Qed.

Lemma bind_returned {A B} (o : list line) (a : A) (k : A -> Out B) :
  bind (o, Returned a) k = ((o ++ fst (k a))%list, snd (k a)).
Proof.
  unfold bind. destruct (k a) as [o2 r]. reflexivity.
Qed.

Lemma event_loop_wf k events :
  forallb wf_event events = true ->
  event_loop parse_iso (Z.of_nat k) events
  = (summary_blocks_from parse_iso k events, Returned tt).
Proof.
  revert k. induction events as [|event rest IH]; intros k H; [reflexivity|].
  simpl in H. apply andb_prop in H. destruct H as [He Hr].
  cbn [event_loop]. rewrite (event_body_wf _ _ He), bind_returned.
  replace (Z.of_nat k + 1)%Z with (Z.of_nat (S k)) by lia.
  rewrite (IH (S k) Hr). reflexivity.
Qed.

Lemma summary_blocks_from_app k pre post :
  summary_blocks_from parse_iso k (pre ++ post)
  = (summary_blocks_from parse_iso k pre
     ++ summary_blocks_from parse_iso (k + List.length pre) post)%list.
Proof.
  revert k. induction pre as [|e pre IH]; intros k.
  - simpl. rewrite Nat.add_0_r. reflexivity.
  - unfold summary_blocks_from, enumerate_from in *. cbn [List.length List.app seq combine flat_map fst snd].
    rewrite IH. replace (k + S (List.length pre)) with (S k + List.length pre) by lia.
    rewrite app_assoc. reflexivity.
Qed.

Lemma summary_block_no_matchup idx event :
  has_matchup event = false -> summary_block parse_iso idx event = [].
Proof. unfold summary_block. intros ->. reflexivity. Qed.

(** The summary of a response of the data model that has events: the
    banner, then the block of every event that has a matchup. *)
Lemma print_game_summary_wf data events :
  wf_response data = true ->
  field "events" (JArr []) data = JArr events ->
  events <> [] ->
  print_game_summary parse_iso data
  = ((summary_banner data ++ summary_blocks parse_iso events)%list, Returned tt).
Proof.
  intros Hwf Hev Hne.
  unfold wf_response in Hwf.
  apply andb_prop in Hwf. destruct Hwf as [Hwf Hweek].
  apply andb_prop in Hwf. destruct Hwf as [Hevents Hseason].
  destruct (opt_field_obj _ _ _ Hevents) as [kvs ->].
  assert (Hs : is_obj (field "season" (JObj []) (JObj kvs)) = true)
    by (apply opt_field_default; auto).
  assert (Hw : is_obj (field "week" (JObj []) (JObj kvs)) = true)
    by (apply opt_field_default; auto).
  assert (Hall : forallb (wf_event) events = true).
  { simpl in Hevents, Hev. destruct (dict_lookup "events" kvs) as [x|].
    - subst x. exact Hevents.
    - injection Hev as <-. reflexivity. }
  unfold print_game_summary, summary_banner.
  assert (Hin : dict_lookup "events" kvs <> None).
  { simpl in Hev. destruct (dict_lookup "events" kvs); [discriminate|].
    injection Hev as <-. contradiction. }
  assert (Ht : truthy (JObj kvs) = true).
  { destruct kvs; [contradiction Hin; reflexivity | reflexivity]. }
  rewrite Ht. cbn [negb]. cbn [py_in obind].
  destruct (dict_lookup "events" kvs) as [x|] eqn:Ex; [|contradiction].
  cbn [negb]. rewrite bind_lift_returned.
  rewrite !py_get_obj. rewrite !bind_lift_returned.
  rewrite Hev.
  destruct (field "season" (JObj []) (JObj kvs)) as [| | | | |skvs] eqn:Es; try discriminate.
  destruct (field "week" (JObj []) (JObj kvs)) as [| | | | |wkvs] eqn:Ew; try discriminate.
  repeat (rewrite ?py_get_obj, ?bind_lift_returned, ?bind_print; cbn [fst snd]).
  destruct events as [|e0 es]; [contradiction|].
  cbn [truthy negb py_iter]. rewrite bind_lift_returned.
  change 1%Z with (Z.of_nat 1).
  rewrite (event_loop_wf 1 _ Hall). reflexivity.
Qed.

End SummarizerFacts.

(* ------------------------------------------------------------------ *)
(** ** Claims about the summarizer *)

Section SummarizerClaims.

Variable parse_iso : string -> option datetime.

(** C2.  A response without an [events] field prints the notice that no
    games were found, and nothing else, and returns; a response of the data
    model whose [events] sequence is empty prints the banner and the notice
    that there are no games this week, and returns.  Neither raises, and
    neither prints a line for an event. *)
Theorem summary_no_games_notice kvs :
  (dict_lookup "events" kvs = None ->
   print_game_summary parse_iso (JObj kvs) = ([no_games_notice], Returned tt)) /\
  (dict_lookup "events" kvs = Some (JArr []) ->
   wf_response (JObj kvs) = true ->
   print_game_summary parse_iso (JObj kvs)
   = ((summary_banner (JObj kvs) ++ [no_games_this_week])%list, Returned tt)).
Proof.
  split.
  - intros Hnone. unfold print_game_summary.
    destruct (truthy (JObj kvs)); cbn [negb]; [|reflexivity].
    cbn [py_in obind]. rewrite Hnone. reflexivity.
  - intros Hev Hwf. unfold wf_response in Hwf.
    apply andb_prop in Hwf. destruct Hwf as [Hwf Hweek].
    apply andb_prop in Hwf. destruct Hwf as [_ Hseason].
    assert (Hs : is_obj (field "season" (JObj []) (JObj kvs)) = true)
      by (apply opt_field_default; auto).
    assert (Hw : is_obj (field "week" (JObj []) (JObj kvs)) = true)
      by (apply opt_field_default; auto).
    unfold print_game_summary, summary_banner.
    assert (Ht : truthy (JObj kvs) = true) by (destruct kvs; [discriminate | reflexivity]).
    rewrite Ht. cbn [negb py_in obind]. rewrite Hev. cbn [negb].
    rewrite bind_lift_returned, !py_get_obj, !bind_lift_returned.
    destruct (field "season" (JObj []) (JObj kvs)) as [| | | | |skvs] eqn:Es; try discriminate.
    destruct (field "week" (JObj []) (JObj kvs)) as [| | | | |wkvs] eqn:Ew; try discriminate.
    assert (Hf : field "events" (JArr []) (JObj kvs) = JArr []) by (simpl; rewrite Hev; reflexivity).
    rewrite Hf.
    repeat (rewrite ?py_get_obj, ?bind_lift_returned, ?bind_print; cbn [fst snd]).
    reflexivity.
Qed.

(** C1, as amended.  In a response of the data model, an event with no
    competition, or whose first competition has fewer than two competitors,
    prints nothing at all: the loop body returns with no output for it, and
    the summary is the banner followed by the blocks of the other events,
    each under its own position. *)
Theorem summary_skips_event_without_matchup data pre event post :
  wf_response data = true ->
  field "events" (JArr []) data = JArr (pre ++ event :: post) ->
  has_matchup event = false ->
  event_body parse_iso (Z.of_nat (List.length pre) + 1) event = ([], Returned tt) /\
  print_game_summary parse_iso data
  = ((summary_banner data
      ++ summary_blocks_from parse_iso 1 pre
      ++ summary_blocks_from parse_iso (List.length pre + 2) post)%list, Returned tt).
Proof.
  intros Hwf Hev Hno.
  assert (Hall : forallb wf_event (pre ++ event :: post) = true).
  { unfold wf_response in Hwf.
    apply andb_prop in Hwf. destruct Hwf as [Hwf _].
    apply andb_prop in Hwf. destruct Hwf as [Hevents _].
    destruct (opt_field_obj _ _ _ Hevents) as [kvs ->].
    simpl in Hevents, Hev. destruct (dict_lookup "events" kvs) as [x|].
    - subst x. exact Hevents.
    - destruct pre; discriminate. }
  rewrite forallb_app in Hall. apply andb_prop in Hall. destruct Hall as [_ Hall].
  simpl in Hall. apply andb_prop in Hall. destruct Hall as [He _].
  split.
  - rewrite (event_body_wf parse_iso _ _ He).
    rewrite summary_block_no_matchup by assumption. reflexivity.
  - rewrite (print_game_summary_wf parse_iso data _ Hwf Hev) by (destruct pre; discriminate).
    unfold summary_blocks.
    rewrite summary_blocks_from_app.
    change (event :: post) with ([event] ++ post)%list.
    rewrite summary_blocks_from_app.
    unfold summary_blocks_from at 2. cbn [enumerate_from List.length seq combine flat_map fst snd].
    rewrite summary_block_no_matchup by assumption.
    cbn [List.app List.length].
    replace (1 + List.length pre + 1) with (List.length pre + 2) by lia. reflexivity.
Qed.

Lemma game_line_in_block idx k event :
  In (game_line k) (summary_block parse_iso idx event) ->
  k = idx /\ has_matchup event = true.
Proof.
  unfold summary_block. destruct (has_matchup event); [|intros []].
  unfold game_block, game_line. intros H. cbn [In] in H.
  destruct H as [H|[H|[H|[H|[H|[H|[]]]]]]]; try discriminate.
  injection H as ->. auto.
Qed.

Lemma game_line_in_blocks k from events :
  In (game_line k) (summary_blocks_from parse_iso from events) ->
  exists i event,
    nth_error events i = Some event /\ has_matchup event = true /\
    k = Z.of_nat (from + i).
Proof.
  revert from. induction events as [|e es IH]; intros from H.
  - destruct H.
  - unfold summary_blocks_from in H. cbn [enumerate_from List.length seq combine flat_map fst snd] in H.
    apply in_app_or in H. destruct H as [H|H].
    + apply game_line_in_block in H. destruct H as [-> Hm].
      exists 0, e. rewrite Nat.add_0_r. repeat split; auto.
    + apply IH in H. destruct H as (i & ev & Hn & Hm & ->).
      exists (S i), ev. repeat split; auto; f_equal; lia.
Qed.

Lemma game_line_of_matchup from events i event :
  nth_error events i = Some event ->
  has_matchup event = true ->
  In (game_line (Z.of_nat (from + i))) (summary_blocks_from parse_iso from events).
Proof.
  revert from i. induction events as [|e es IH]; intros from i Hn Hm.
  - destruct i; discriminate.
  - unfold summary_blocks_from. cbn [enumerate_from List.length seq combine flat_map fst snd].
    apply in_or_app. destruct i as [|i].
    + left. injection Hn as ->. rewrite Nat.add_0_r.
      unfold summary_block. rewrite Hm. left. reflexivity.
    + right. replace (from + S i) with (S from + i) by lia. apply IH; assumption.
Qed.

Lemma game_line_not_in_banner k data : ~ In (game_line k) (summary_banner data).
Proof.
  unfold summary_banner, game_line, rule80, blank. cbn [In].
  intros [H|[H|[H|[H|[H|[H|[]]]]]]]; discriminate.
Qed.

(** C10.  In a response of the data model, the summary is the banner
    followed by the blocks of the events that have a matchup, each numbered
    with the 1-based position of its event in [events]: every such event at
    position [i] has the line [Game i+1:], and every [Game k:] line comes
    from such an event at position [k-1].  Events that are skipped leave
    gaps in the numbers. *)
Theorem game_index_is_position data events :
  wf_response data = true ->
  field "events" (JArr []) data = JArr events ->
  events <> [] ->
  print_game_summary parse_iso data
  = ((summary_banner data ++ summary_blocks parse_iso events)%list, Returned tt) /\
  (forall i event,
      nth_error events i = Some event -> has_matchup event = true ->
      In (game_line (Z.of_nat i + 1)) (fst (print_game_summary parse_iso data))) /\
  (forall k,
      In (game_line k) (fst (print_game_summary parse_iso data)) ->
      exists i event,
        nth_error events i = Some event /\ has_matchup event = true /\
        k = (Z.of_nat i + 1)%Z).
Proof.
  intros Hwf Hev Hne.
  rewrite (print_game_summary_wf parse_iso data events Hwf Hev Hne). cbn [fst].
  split; [reflexivity|]. split.
  - intros i event Hn Hm. apply in_or_app. right.
    replace (Z.of_nat i + 1)%Z with (Z.of_nat (1 + i)) by lia.
    apply (game_line_of_matchup 1 events i event); assumption.
  - intros k H. apply in_app_or in H. destruct H as [H|H].
    + exfalso. exact (game_line_not_in_banner _ _ H).
    + apply game_line_in_blocks in H. destruct H as (i & ev & Hn & Hm & ->).
      exists i, ev. repeat split; auto. lia.
Qed.

(** C4.  When the date string of an event cannot be parsed (after the
    substitution of [Z]), the formatted date is the original string,
    verbatim; the loop body returns normally on such an event, and the
    [Date] line of its block shows the original string. *)
Theorem unparseable_date_is_printed_verbatim s :
  parse_iso (replace_Z s) = None ->
  format_date parse_iso (JStr s) = JStr s /\
  (forall idx event,
      wf_event event = true ->
      field "date" (JStr "Unknown date") event = JStr s ->
      snd (event_body parse_iso idx event) = Returned tt /\
      (has_matchup event = true ->
       In [Lit "  Date: "; Val (JStr s)] (fst (event_body parse_iso idx event)))).
Proof.
  intros Hfail.
  assert (Hfmt : format_date parse_iso (JStr s) = JStr s)
    by (unfold format_date; rewrite Hfail; reflexivity).
  split; [exact Hfmt|].
  intros idx event Hwf Hdate.
  rewrite (event_body_wf parse_iso idx event Hwf). cbn [fst snd].
  split; [reflexivity|].
  intros Hm. unfold summary_block. rewrite Hm, Hdate, Hfmt.
  unfold game_block. cbn [In]. auto.
Qed.

End SummarizerClaims.

Lemma summary_no_games_notice_witness :
  print_game_summary fromisoformat (JObj [("week", JObj [("number", JInt 1)])])
  = ([no_games_notice], Returned tt) /\
  print_game_summary fromisoformat (sample_response [])
  = ((summary_banner (sample_response []) ++ [no_games_this_week])%list, Returned tt).
Proof.
  split.
  - apply (summary_no_games_notice fromisoformat [("week", JObj [("number", JInt 1)])]).
    reflexivity.
  - apply (summary_no_games_notice fromisoformat
             [ ("season", JObj [("type", JInt 2); ("year", JInt 2024)]);
               ("week", JObj [("number", JInt 1)]);
               ("events", JArr []) ]); reflexivity.
Defined.

(** The minimal event [{}]: the summary is the banner alone, with no
    [Game], [ID], [Date] or [Status] line for the event. *)
Lemma minimal_event_prints_no_block :
  print_game_summary fromisoformat (JObj [("events", JArr [minimal_event])])
  = (summary_banner (JObj [("events", JArr [minimal_event])]), Returned tt) /\
  ~ In (game_line 1)
       (fst (print_game_summary fromisoformat (JObj [("events", JArr [minimal_event])]))) /\
  ~ In [Lit "  ID: "; Val (JStr "Unknown")]
       (fst (print_game_summary fromisoformat (JObj [("events", JArr [minimal_event])]))) /\
  ~ In [Lit "  Date: "; Val (JStr "Unknown date")]
       (fst (print_game_summary fromisoformat (JObj [("events", JArr [minimal_event])]))) /\
  ~ In [Lit "  Status: "; Val (JStr "Unknown")]
       (fst (print_game_summary fromisoformat (JObj [("events", JArr [minimal_event])]))).
Proof.
  repeat split; try reflexivity;
    vm_compute; intros H; repeat (destruct H as [H|H]; [discriminate|]); exact H.
Qed.

Lemma summary_skips_event_without_matchup_witness :
  event_body fromisoformat (Z.of_nat (List.length [sample_event]) + 1) minimal_event
  = ([], Returned tt) /\
  print_game_summary fromisoformat (sample_response [sample_event; minimal_event; sample_event])
  = ((summary_banner (sample_response [sample_event; minimal_event; sample_event])
      ++ summary_blocks_from fromisoformat 1 [sample_event]
      ++ summary_blocks_from fromisoformat (List.length [sample_event] + 2) [sample_event])%list,
     Returned tt).
Proof.
  apply (summary_skips_event_without_matchup fromisoformat
           (sample_response [sample_event; minimal_event; sample_event])
           [sample_event] minimal_event [sample_event]); reflexivity.
Defined.

Lemma game_index_is_position_witness :
  In (game_line 2)
     (fst (print_game_summary fromisoformat (sample_response [minimal_event; sample_event]))) /\
  ~ In (game_line 1)
     (fst (print_game_summary fromisoformat (sample_response [minimal_event; sample_event]))).
Proof.
  destruct (game_index_is_position fromisoformat
              (sample_response [minimal_event; sample_event])
              [minimal_event; sample_event]) as (_ & Hpos & Honly);
    [reflexivity | reflexivity | discriminate |].
  split.
  - apply (Hpos 1 sample_event); reflexivity.
  - intros H. apply Honly in H. destruct H as (i & event & Hn & Hm & Hk).
    assert (i = 0) by lia. subst i. injection Hn as <-. discriminate.
Defined.

Lemma unparseable_date_is_printed_verbatim_witness :
  format_date fromisoformat (JStr "not-a-date") = JStr "not-a-date".
Proof.
  apply (unparseable_date_is_printed_verbatim fromisoformat "not-a-date").
  reflexivity.
Defined.

(* ================================================================== *)
(** * Properties of the date formatting *)

Lemma string_app_assoc (a b c : string) : (a ++ b) ++ c = a ++ (b ++ c).
Proof. induction a as [|x a IH]; simpl; [reflexivity | rewrite IH; reflexivity]. Qed.

Lemma string_app_nil (a : string) : a ++ "" = a.
Proof. induction a as [|x a IH]; simpl; [reflexivity | rewrite IH; reflexivity]. Qed.

Ltac digit_cases d :=
  do 10 (destruct d as [|d]; [try reflexivity|]); try lia.

Lemma take_digits_digit n acc d s :
  d < 10 ->
  take_digits (S n) acc (String (digit_char d) s) = take_digits n (10 * acc + d) s.
Proof. intros H. digit_cases d. Qed.

Lemma two_digits n : n < 100 -> 10 * ((n / 10) mod 10) + n mod 10 = n.
Proof.
  intros H.
  assert (n / 10 < 10) by (apply Nat.Div0.div_lt_upper_bound; lia).
  rewrite (Nat.mod_small (n / 10) 10) by assumption.
  symmetry. apply Nat.div_mod_eq.
Qed.

Lemma take_digits_d2 k acc n rest :
  n < 100 ->
  take_digits (S (S k)) acc (d2 n ++ rest) = take_digits k (100 * acc + n) rest.
Proof.
  intros H. unfold d2. cbn [append].
  rewrite !take_digits_digit by (apply Nat.mod_upper_bound; lia).
  f_equal. pose proof (two_digits n H). lia.
Qed.

Lemma take_digits_d4 n rest :
  n < 100 * 100 ->
  take_digits 4 0 (d4 n ++ rest) = Some (n, rest).
Proof.
  intros H. unfold d4. rewrite string_app_assoc.
  assert (n / 100 < 100) by (apply Nat.Div0.div_lt_upper_bound; lia).
  assert (n mod 100 < 100) by (apply Nat.mod_upper_bound; lia).
  rewrite !take_digits_d2 by assumption. cbn [take_digits].
  pose proof (Nat.div_mod_eq n 100). do 2 f_equal. lia.
Qed.

Lemma replace_Z_digit d s :
  d < 10 -> replace_Z (String (digit_char d) s) = String (digit_char d) (replace_Z s).
Proof. intros H. digit_cases d. Qed.

Lemma replace_Z_d2 n rest : replace_Z (d2 n ++ rest) = d2 n ++ replace_Z rest.
Proof.
  unfold d2. cbn [append].
  rewrite !replace_Z_digit by (apply Nat.mod_upper_bound; lia). reflexivity.
Qed.

Lemma replace_Z_d4 n rest : replace_Z (d4 n ++ rest) = d4 n ++ replace_Z rest.
Proof.
  unfold d4. rewrite !string_app_assoc, !replace_Z_d2. reflexivity.
Qed.

Lemma split_sign_digit d s :
  d < 10 ->
  split_sign (String (digit_char d) s)
  = let (t, z) := split_sign s in (String (digit_char d) t, z).
Proof. intros H. digit_cases d. Qed.

Lemma split_sign_d2 n rest :
  split_sign (d2 n ++ rest) = let (t, z) := split_sign rest in (d2 n ++ t, z).
Proof.
  unfold d2. cbn [append].
  rewrite !split_sign_digit by (apply Nat.mod_upper_bound; lia).
  destruct (split_sign rest). reflexivity.
Qed.

Lemma valid_fields_bounds y m d h mi sec :
  valid_fields y m d h mi sec = true ->
  m < 100 /\ d < 100 /\ h < 100 /\ mi < 100 /\ sec < 100.
Proof.
  unfold valid_fields. intros H.
  repeat (apply andb_prop in H; destruct H as [H ?]).
  repeat match goal with
         | H : (_ <=? _)%nat = true |- _ => apply Nat.leb_le in H
         | H : (_ <? _)%nat = true |- _ => apply Nat.ltb_lt in H
         end.
  assert (days_in_month y m <= 31).
  { unfold days_in_month.
    do 13 (destruct m as [|m]; [try lia; destruct (is_leap y); lia|]). lia. }
  lia.
Qed.

Lemma replace_Z_other c s :
  Ascii.eqb c "Z"%char = false -> replace_Z (String c s) = String c (replace_Z s).
Proof. intros H. cbn [replace_Z]. rewrite H. reflexivity. Qed.

Lemma replace_Z_iso_utc y m d h mi sec :
  replace_Z (iso_utc y m d h mi sec)
  = d4 y ++ "-" ++ d2 m ++ "-" ++ d2 d ++ "T" ++ d2 h ++ ":" ++ d2 mi ++
    match sec with Some x => ":" ++ d2 x | None => EmptyString end ++ "+00:00".
Proof.
  unfold iso_utc.
  repeat (rewrite ?replace_Z_d4, ?replace_Z_d2; cbn [append];
          rewrite ?replace_Z_other by reflexivity).
  destruct sec as [x|]; cbn [append].
  - rewrite replace_Z_other by reflexivity. rewrite replace_Z_d2. reflexivity.
  - reflexivity.
Qed.

Lemma split_sign_time h mi sec :
  split_sign (d2 h ++ ":" ++ d2 mi ++
              match sec with Some x => ":" ++ d2 x | None => EmptyString end ++ "+00:00")
  = (d2 h ++ ":" ++ d2 mi ++ match sec with Some x => ":" ++ d2 x | None => EmptyString end,
     Some ("+"%char, "00:00")).
Proof.
  rewrite split_sign_d2. cbn [append split_sign Ascii.eqb Bool.eqb orb].
  rewrite split_sign_d2.
  destruct sec as [x|]; cbn [append split_sign Ascii.eqb Bool.eqb orb].
  - rewrite split_sign_d2. cbn [split_sign Ascii.eqb Bool.eqb orb].
    rewrite string_app_nil. reflexivity.
  - rewrite string_app_nil. reflexivity.
Qed.

Lemma take_digits_0 acc s : take_digits 0 acc s = Some (acc, s).
Proof. reflexivity. Qed.

Ltac take_step :=
  rewrite take_digits_d2, take_digits_0 by assumption;
  cbn [append Ascii.eqb Bool.eqb].

Lemma parse_time_fields h mi sec :
  h < 100 -> mi < 100 -> seconds_of sec < 100 ->
  parse_hh_mm_ss_ff
    (d2 h ++ ":" ++ d2 mi ++ match sec with Some x => ":" ++ d2 x | None => EmptyString end)
  = Some (h, mi, seconds_of sec, 0%Z).
Proof.
  intros Hh Hm Hs. unfold parse_hh_mm_ss_ff.
  take_step. take_step.
  destruct sec as [x|]; cbn [seconds_of append Ascii.eqb Bool.eqb] in *.
  - rewrite <- (string_app_nil (d2 x)). take_step.
    rewrite !Nat.mul_0_r. reflexivity.
  - rewrite !Nat.mul_0_r. reflexivity.
Qed.

Lemma parse_date_fields y m d rest :
  y < 100 * 100 -> m < 100 -> d < 100 ->
  parse_isoformat_date (d4 y ++ "-" ++ d2 m ++ "-" ++ d2 d ++ rest)
  = Some (y, m, d, rest).
Proof.
  intros Hy Hm Hd. unfold parse_isoformat_date.
  rewrite take_digits_d4 by assumption. cbn [append Ascii.eqb Bool.eqb].
  take_step. take_step.
  rewrite !Nat.mul_0_r. reflexivity.
Qed.

Lemma valid_fields_hour y m d h mi sec :
  valid_fields y m d h mi sec = true -> h < 24.
Proof.
  unfold valid_fields. intros H.
  repeat (apply andb_prop in H; destruct H as [H ?]).
  apply Nat.ltb_lt. assumption.
Qed.

(** [strftime('%Y-%m-%d %I:%M %p')] shows a time of day on the 12-hour
    clock. *)
Lemma strftime_readable_clock y m d h mi sec us off :
  h < 24 ->
  strftime_readable (mkDatetime y m d h mi sec us off) = readable_utc y m d h mi.
Proof.
  intros H. unfold strftime_readable, readable_utc.
  cbn [dt_year dt_month dt_day dt_hour dt_minute].
  do 24 (destruct h as [|h]; [reflexivity|]). lia.
Qed.

Lemma take_digits_d3 k acc n rest :
  n < 1000 ->
  take_digits (S (S (S k))) acc (d3 n ++ rest) = take_digits k (1000 * acc + n) rest.
Proof.
  intros H. unfold d3.
  assert (n / 100 < 10) by (apply Nat.Div0.div_lt_upper_bound; lia).
  assert (n mod 100 < 100) by (apply Nat.mod_upper_bound; lia).
  cbn [append]. rewrite take_digits_digit by (apply Nat.mod_upper_bound; lia).
  rewrite (Nat.mod_small (n / 100) 10) by assumption.
  rewrite take_digits_d2 by assumption.
  f_equal. pose proof (Nat.div_mod_eq n 100). lia.
Qed.

Lemma replace_Z_d3 n rest : replace_Z (d3 n ++ rest) = d3 n ++ replace_Z rest.
Proof.
  unfold d3. cbn [append].
  rewrite replace_Z_digit by (apply Nat.mod_upper_bound; lia).
  rewrite replace_Z_d2. reflexivity.
Qed.

Lemma split_sign_d3 n rest :
  split_sign (d3 n ++ rest) = let (t, z) := split_sign rest in (d3 n ++ t, z).
Proof.
  unfold d3. cbn [append].
  rewrite split_sign_digit by (apply Nat.mod_upper_bound; lia).
  rewrite split_sign_d2. destruct (split_sign rest). reflexivity.
Qed.

Lemma replace_Z_fraction f rest :
  replace_Z (fraction_digits f ++ rest) = fraction_digits f ++ replace_Z rest.
Proof.
  destruct f as [ms|us]; cbn [fraction_digits].
  - apply replace_Z_d3.
  - rewrite !string_app_assoc, !replace_Z_d3. reflexivity.
Qed.

Lemma split_sign_fraction f rest :
  split_sign (fraction_digits f ++ rest)
  = let (t, z) := split_sign rest in (fraction_digits f ++ t, z).
Proof.
  destruct f as [ms|us]; cbn [fraction_digits].
  - apply split_sign_d3.
  - rewrite !string_app_assoc, !split_sign_d3.
    destruct (split_sign rest). rewrite string_app_assoc. reflexivity.
Qed.

Lemma parse_fraction_digits f :
  fraction_in_range f = true ->
  parse_fraction (fraction_digits f) = Some (fraction_micros f).
Proof.
  destruct f as [ms|us]; cbn [fraction_in_range fraction_digits fraction_micros];
    intros H; apply Nat.ltb_lt in H; unfold parse_fraction.
  - replace (String.length (d3 ms)) with 3 by reflexivity.
    rewrite <- (string_app_nil (d3 ms)), take_digits_d3, take_digits_0 by assumption.
    rewrite Nat.mul_0_r. reflexivity.
  - replace (String.length (d3 (us / 1000) ++ d3 (us mod 1000))) with 6 by reflexivity.
    assert (us / 1000 < 1000) by (apply Nat.Div0.div_lt_upper_bound; lia).
    assert (us mod 1000 < 1000) by (apply Nat.mod_upper_bound; lia).
    rewrite <- (string_app_nil (d3 (us / 1000) ++ d3 (us mod 1000))).
    rewrite !string_app_assoc, !take_digits_d3, take_digits_0 by assumption.
    rewrite Nat.mul_0_r. do 2 f_equal.
    pose proof (Nat.div_mod_eq us 1000). lia.
Qed.

Lemma replace_Z_iso_utc_fraction y m d h mi sec f :
  replace_Z (iso_utc_fraction y m d h mi sec f)
  = d4 y ++ "-" ++ d2 m ++ "-" ++ d2 d ++ "T" ++ d2 h ++ ":" ++ d2 mi ++ ":" ++ d2 sec ++
    "." ++ fraction_digits f ++ "+00:00".
Proof.
  unfold iso_utc_fraction.
  repeat (rewrite ?replace_Z_d4, ?replace_Z_d2, ?replace_Z_fraction; cbn [append];
          rewrite ?replace_Z_other by reflexivity).
  reflexivity.
Qed.

Lemma split_sign_time_fraction h mi sec f :
  split_sign (d2 h ++ ":" ++ d2 mi ++ ":" ++ d2 sec ++ "." ++ fraction_digits f ++ "+00:00")
  = (d2 h ++ ":" ++ d2 mi ++ ":" ++ d2 sec ++ "." ++ fraction_digits f,
     Some ("+"%char, "00:00")).
Proof.
  rewrite split_sign_d2. cbn [append split_sign Ascii.eqb Bool.eqb orb].
  rewrite split_sign_d2. cbn [append split_sign Ascii.eqb Bool.eqb orb].
  rewrite split_sign_d2. cbn [append split_sign Ascii.eqb Bool.eqb orb].
  rewrite split_sign_fraction. cbn [split_sign Ascii.eqb Bool.eqb orb].
  rewrite string_app_nil. reflexivity.
Qed.

Lemma parse_time_fraction h mi sec f :
  h < 100 -> mi < 100 -> sec < 100 -> fraction_in_range f = true ->
  parse_hh_mm_ss_ff (d2 h ++ ":" ++ d2 mi ++ ":" ++ d2 sec ++ "." ++ fraction_digits f)
  = Some (h, mi, sec, fraction_micros f).
Proof.
  intros Hh Hm Hs Hf. unfold parse_hh_mm_ss_ff.
  take_step. take_step. take_step.
  rewrite parse_fraction_digits by assumption.
  rewrite !Nat.mul_0_r. reflexivity.
Qed.

(** C3.  A date of the form [YYYY-MM-DDThh:mmZ] or [YYYY-MM-DDThh:mm:ssZ],
    or with a fraction of three or six digits after the seconds (year 1000
    to 9999, a day of the calendar, a time of day), is parsed, once its [Z]
    is replaced by [+00:00], as that wall-clock time with a zero offset
    from UTC, and is rendered as [YYYY-MM-DD hh:mm AM/PM] on the 12-hour
    clock, seconds and fraction dropped; the [Date] line of the event's
    block shows that text.  In particular [2024-09-08T17:00Z] is rendered
    as [2024-09-08 05:00 PM] (the witness).  A string ending in [Z] that
    [fromisoformat] refuses is not rendered: [leap_second_is_printed_raw]. *)
Theorem utc_date_is_rendered_readable y m d h mi sec :
  1000 <= y < 100 * 100 ->
  valid_fields y m d h mi (seconds_of sec) = true ->
  fromisoformat (replace_Z (iso_utc y m d h mi sec))
  = Some (mkDatetime y m d h mi (seconds_of sec) 0 (Some 0%Z)) /\
  format_date fromisoformat (JStr (iso_utc y m d h mi sec))
  = JStr (readable_utc y m d h mi) /\
  (forall f,
      fraction_in_range f = true ->
      fromisoformat (replace_Z (iso_utc_fraction y m d h mi (seconds_of sec) f))
      = Some (mkDatetime y m d h mi (seconds_of sec) (fraction_micros f) (Some 0%Z)) /\
      format_date fromisoformat (JStr (iso_utc_fraction y m d h mi (seconds_of sec) f))
      = JStr (readable_utc y m d h mi)) /\
  (forall idx event,
      wf_event event = true ->
      has_matchup event = true ->
      field "date" (JStr "Unknown date") event = JStr (iso_utc y m d h mi sec) ->
      In [Lit "  Date: "; Val (JStr (readable_utc y m d h mi))]
         (fst (event_body fromisoformat idx event))).
Proof.
  intros Hy Hvalid.
  destruct (valid_fields_bounds _ _ _ _ _ _ Hvalid) as (Hm & Hd & Hh & Hmi & Hs).
  pose proof (valid_fields_hour _ _ _ _ _ _ Hvalid) as Hday.
  assert (Hparse : fromisoformat (replace_Z (iso_utc y m d h mi sec))
                   = Some (mkDatetime y m d h mi (seconds_of sec) 0 (Some 0%Z))).
  { rewrite replace_Z_iso_utc. unfold fromisoformat.
    rewrite parse_date_fields by lia.
    match goal with
    | |- context ["T" ++ ?r] => change ("T" ++ r) with (String "T"%char r)
    end.
    cbv iota beta.
    rewrite split_sign_time. rewrite parse_time_fields by assumption.
    rewrite Hvalid. reflexivity. }
  assert (Hfmt : format_date fromisoformat (JStr (iso_utc y m d h mi sec))
                 = JStr (readable_utc y m d h mi)).
  { unfold format_date. rewrite Hparse, strftime_readable_clock by assumption.
    reflexivity. }
  split; [exact Hparse|]. split; [exact Hfmt|]. split.
  - intros f Hf.
    assert (Hp : fromisoformat (replace_Z (iso_utc_fraction y m d h mi (seconds_of sec) f))
                 = Some (mkDatetime y m d h mi (seconds_of sec) (fraction_micros f)
                           (Some 0%Z))).
    { rewrite replace_Z_iso_utc_fraction. unfold fromisoformat.
      rewrite parse_date_fields by lia.
      match goal with
      | |- context ["T" ++ ?r] => change ("T" ++ r) with (String "T"%char r)
      end.
      cbv iota beta.
      rewrite split_sign_time_fraction. rewrite parse_time_fraction by assumption.
      rewrite Hvalid. reflexivity. }
    split; [exact Hp|].
    unfold format_date. rewrite Hp, strftime_readable_clock by assumption.
    reflexivity.
  - intros idx event Hwf Hmatch Hdate.
    rewrite (event_body_wf fromisoformat idx event Hwf). cbn [fst].
    unfold summary_block. rewrite Hmatch, Hdate, Hfmt.
    unfold game_block. cbn [In]. auto.
Qed.

Lemma utc_date_is_rendered_readable_witness :
  (fromisoformat (replace_Z "2024-09-08T17:00Z")
   = Some (mkDatetime 2024 9 8 17 0 0 0 (Some 0%Z)) /\
   format_date fromisoformat (JStr "2024-09-08T17:00Z") = JStr "2024-09-08 05:00 PM" /\
   format_date fromisoformat (JStr "2024-09-08T17:00:00.000Z") = JStr "2024-09-08 05:00 PM" /\
   In [Lit "  Date: "; Val (JStr "2024-09-08 05:00 PM")]
      (fst (event_body fromisoformat 1 sample_event))) /\
  format_date fromisoformat (JStr "2025-01-05T00:15:30Z") = JStr "2025-01-05 12:15 AM".
Proof.
  split.
  - destruct (utc_date_is_rendered_readable 2024 9 8 17 0 None) as (Hp & Hf & Hfrac & Hev).
    + split; [apply Nat.leb_le | apply Nat.ltb_lt]; reflexivity.
    + reflexivity.
    + split; [exact Hp|]. split; [exact Hf|]. split.
      * exact (proj2 (Hfrac (Millis 0) eq_refl)).
      * apply (Hev 1%Z sample_event); reflexivity.
  - destruct (utc_date_is_rendered_readable 2025 1 5 0 15 (Some 30)) as (_ & Hf & _).
    + split; [apply Nat.leb_le | apply Nat.ltb_lt]; reflexivity.
    + reflexivity.
    + exact Hf.
Defined.

(** A date with second 60 ends in [Z] and is a timestamp of ISO 8601, but
    [fromisoformat] refuses it: the [Date] line shows the string as it
    came. *)
Lemma leap_second_is_printed_raw :
  format_date fromisoformat (JStr "2024-12-31T23:59:60Z") = JStr "2024-12-31T23:59:60Z" /\
  wf_event leap_second_event = true /\
  event_body fromisoformat 1 leap_second_event
  = (game_block 1 (JStr "401671789") (JStr "Unknown") (JStr "Unknown")
       (JStr "2024-12-31T23:59:60Z") (JStr "Unknown"),
     Returned tt).
Proof. repeat split. Qed.

(* ================================================================== *)
(** * Properties of the inspector *)

Ltac out_steps :=
  repeat (rewrite ?py_get_obj, ?bind_lift_returned, ?bind_print; cbn [fst snd]).

Lemma print_keys_lines ks :
  print_keys ks = (map (fun key => [Lit "  - "; Val (JStr key)]) ks, Returned tt).
Proof.
  induction ks as [|k ks IH]; [reflexivity|].
  cbn [print_keys map]. rewrite bind_print, IH. reflexivity.
Qed.

Lemma inspect_team_wf competitor :
  wf_competitor competitor = true ->
  inspect_team competitor = (team_level competitor, Returned tt).
Proof.
  intros H. destruct (opt_field_obj _ _ _ H) as [kvs ->].
  unfold wf_competitor, opt_field in H.
  unfold inspect_team, team_level. cbn [py_in py_item].
  destruct (dict_lookup "team" kvs) as [team|]; out_steps; [|reflexivity].
  destruct team; try discriminate. cbn [py_keys]. out_steps. reflexivity.
Qed.

(** The test ['k' in v and v['k']] and the element [v['k'][0]] on an object
    whose field [k], when present, is a sequence. *)
Lemma descend_or_stop k p kvs :
  opt_field k (all_items p) (JObj kvs) = true ->
  match first_item k (JObj kvs) with
  | Some x =>
      present_and k (JObj kvs) = Returned true /\
      first_of k (JObj kvs) = Returned x /\ p x = true
  | None => present_and k (JObj kvs) = Returned false
  end.
Proof.
  unfold opt_field, first_item, present_and, first_of. cbn [py_in py_item obind].
  destruct (dict_lookup k kvs) as [x|]; [|reflexivity].
  intros H. apply all_items_arr in H. destruct H as (xs & -> & Hall).
  destruct xs as [|x xs]; [reflexivity|].
  cbn [forallb] in Hall. apply andb_prop in Hall. destruct Hall as [Hx _].
  cbn [obind py_index0 truthy]. auto.
Qed.

Lemma inspect_competitor_wf comp :
  wf_competition comp = true ->
  inspect_competitor comp = (competitor_level comp, Returned tt).
Proof.
  intros H. destruct (opt_field_obj _ _ _ H) as [kvs ->].
  pose proof (descend_or_stop _ _ _ H) as D.
  unfold inspect_competitor, competitor_level.
  destruct (first_item "competitors" (JObj kvs)) as [competitor|].
  - destruct D as (-> & -> & Hc). out_steps.
    destruct (opt_field_obj _ _ _ Hc) as [ckvs ->]. cbn [py_keys]. out_steps.
    rewrite (inspect_team_wf _ Hc). reflexivity.
  - rewrite D. out_steps. reflexivity.
Qed.

Lemma inspect_competition_wf event :
  wf_event event = true ->
  inspect_competition event = (competition_level event, Returned tt).
Proof.
  intros H. unfold wf_event in H. apply andb_prop in H. destruct H as [_ H].
  destruct (opt_field_obj _ _ _ H) as [kvs ->].
  pose proof (descend_or_stop _ _ _ H) as D.
  unfold inspect_competition, competition_level.
  destruct (first_item "competitions" (JObj kvs)) as [comp|].
  - destruct D as (-> & -> & Hc). out_steps.
    destruct (opt_field_obj _ _ _ Hc) as [ckvs ->]. cbn [py_keys]. out_steps.
    rewrite (inspect_competitor_wf _ Hc). reflexivity.
  - rewrite D. out_steps. reflexivity.
Qed.

Lemma inspect_event_wf data :
  opt_field "events" (all_items wf_event) data = true ->
  inspect_event data = (event_level data, Returned tt).
Proof.
  intros H. destruct (opt_field_obj _ _ _ H) as [kvs ->].
  pose proof (descend_or_stop _ _ _ H) as D.
  unfold inspect_event, event_level.
  destruct (first_item "events" (JObj kvs)) as [event|].
  - destruct D as (-> & -> & He). out_steps.
    assert (Hobj : exists ekvs, event = JObj ekvs).
    { unfold wf_event in He. apply andb_prop in He. destruct He as [He _].
      exact (opt_field_obj _ _ _ He). }
    destruct Hobj as [ekvs ->]. cbn [py_keys]. out_steps.
    rewrite (inspect_competition_wf _ He). reflexivity.
  - rewrite D. out_steps. reflexivity.
Qed.

(** C7.  On a response of the data model the inspector never raises, and
    it prints exactly the levels the descent reaches: the top-level keys;
    the keys of the first event when [events] is present and not empty;
    the keys of its first competition when [competitions] is present and
    not empty; the keys of its first competitor when [competitors] is
    present and not empty; the keys of its team when [team] is present.
    A level that is absent ends the descent without an error. *)
Theorem inspector_stops_without_error data :
  wf_response data = true ->
  inspect_data_structure data = (levels_reached data, Returned tt).
Proof.
  intros H. unfold wf_response in H.
  apply andb_prop in H. destruct H as [H _].
  apply andb_prop in H. destruct H as [H _].
  destruct (opt_field_obj _ _ _ H) as [kvs ->].
  unfold inspect_data_structure, levels_reached, top_level.
  cbn [py_keys keys_of]. out_steps.
  rewrite print_keys_lines. rewrite bind_returned. cbn [fst snd].
  out_steps. rewrite (inspect_event_wf _ H). cbn [fst snd].
  cbn [List.app]. rewrite <- app_assoc. reflexivity.
Qed.

Lemma inspector_stops_without_error_witness :
  inspect_data_structure
    (JObj [("events",
            JArr [JObj [("competitions",
                         JArr [JObj [("competitors", JArr [JObj [("id", JStr "5")]])]])]])])
  = ([ rule80; [Lit "🔍 DATA STRUCTURE INSPECTION"]; rule80; blank;
       [Lit "Top-level keys available:"];
       [Lit "  - "; Val (JStr "events")];
       blank;
       [Lit "Sample event structure (first game):"];
       [Lit "  Event keys: "; Val (JArr [JStr "competitions"])]; blank;
       [Lit "  Competition keys: "; Val (JArr [JStr "competitors"])]; blank;
       [Lit "  Competitor keys: "; Val (JArr [JStr "id"])]; blank ],
      Returned tt).
Proof.
  apply (inspector_stops_without_error
           (JObj [("events",
                   JArr [JObj [("competitions",
                                JArr [JObj [("competitors",
                                             JArr [JObj [("id", JStr "5")]])]])]])])).
  reflexivity.
Defined.

(* ================================================================== *)
(** * Properties of the fetcher and the orchestrator *)

Ltac io_run :=
  cbv [io_bind io_print io_out io_ret print requests_get fetch_failed
       print_lines fst snd].

(** What the fetcher does, by the answer of the server. *)
Lemma fetch_run year week w :
  fetch_nfl_scoreboard year week w
  = let w' := mkWorld (http_get w) (now w) (files w)
                (calls w ++ [fetch_request week])%list in
    match http_get w (fetch_request week) with
    | GetRaises e =>
        ((fetch_prelude week ++ [[Lit "❌ Error fetching data: "; Exc e]])%list,
         w', Returned JNull)
    | GetResponse resp =>
        if is_error_status (status_code resp) then
          ((fetch_prelude week
            ++ [[Lit "❌ Error fetching data: "; Exc (HTTPError (status_code resp))]])%list,
           w', Returned JNull)
        else
          match body resp with
          | None =>
              ((fetch_prelude week
                ++ [[Lit "❌ Error fetching data: "; Exc JSONDecodeError]])%list,
               w', Returned JNull)
          | Some data =>
              ((fetch_prelude week
                ++ [[Lit "✅ Successfully fetched data from ESPN API"]])%list,
               w', Returned data)
          end
    end.
Proof.
  unfold fetch_nfl_scoreboard, fetch_request, fetch_prelude. io_run.
  destruct (http_get w (mkRequest base_url (build_params week) 10)) as [e|resp];
    [reflexivity|].
  destruct (is_error_status (status_code resp)); [reflexivity|].
  destruct (body resp); reflexivity.
Qed.

(** C6, as amended.  Every run of the fetcher makes exactly one network
    call, the request for [week], whatever the answer.  When the call
    raises a request exception (a transport failure or a timeout), or the
    response has a status from 400 to 599, the fetcher prints the cause in
    an error line and returns [None]: it does not raise, and the value it
    returns holds no data and no cause. *)
Theorem fetch_one_call_and_none_on_failure year week w :
  calls (snd (fst (fetch_nfl_scoreboard year week w)))
  = (calls w ++ [fetch_request week])%list /\
  (forall e,
      http_get w (fetch_request week) = GetRaises e ->
      fetch_nfl_scoreboard year week w
      = ((fetch_prelude week ++ [[Lit "❌ Error fetching data: "; Exc e]])%list,
         mkWorld (http_get w) (now w) (files w) (calls w ++ [fetch_request week])%list,
         Returned JNull)) /\
  (forall resp,
      http_get w (fetch_request week) = GetResponse resp ->
      is_error_status (status_code resp) = true ->
      fetch_nfl_scoreboard year week w
      = ((fetch_prelude week
          ++ [[Lit "❌ Error fetching data: "; Exc (HTTPError (status_code resp))]])%list,
         mkWorld (http_get w) (now w) (files w) (calls w ++ [fetch_request week])%list,
         Returned JNull)).
Proof.
  rewrite fetch_run. cbv zeta. repeat split.
  - destruct (http_get w (fetch_request week)) as [e|resp]; [reflexivity|].
    destruct (is_error_status (status_code resp)); [reflexivity|].
    destruct (body resp); reflexivity.
  - intros e ->. reflexivity.
  - intros resp -> ->. reflexivity.
Qed.

(** A timeout and a 503 response give the same result, [None]: no function
    of the result recovers the cause.  A response with status 300 and a JSON
    body is returned as data. *)
Lemma fetch_failure_result_carries_no_cause :
  snd (fetch_nfl_scoreboard 2024 JNull
         (sample_world (fun _ => GetRaises (Timeout "read timed out")))) = Returned JNull /\
  snd (fetch_nfl_scoreboard 2024 JNull
         (sample_world (fun _ => GetResponse (mkResponse 503 None)))) = Returned JNull /\
  Timeout "read timed out" <> HTTPError 503 /\
  snd (fetch_nfl_scoreboard 2024 JNull
         (sample_world (fun _ => GetResponse (mkResponse 300 (Some (JObj [("a", JInt 1)]))))))
  = Returned (JObj [("a", JInt 1)]) /\
  ~ (exists cause_of : outcome json -> request_exception,
        forall w e,
          http_get w (fetch_request JNull) = GetRaises e ->
          cause_of (snd (fetch_nfl_scoreboard 2024 JNull w)) = e).
Proof.
  repeat split; try reflexivity; try discriminate.
  intros [cause_of H].
  pose proof (H (sample_world (fun _ => GetRaises (Timeout "read timed out"))) _ eq_refl) as H1.
  pose proof (H (sample_world (fun _ => GetRaises (ConnectionError "refused"))) _ eq_refl) as H2.
  cbn in H1, H2. rewrite H1 in H2. discriminate.
Qed.

Lemma fetch_one_call_and_none_on_failure_witness :
  calls (snd (fst (fetch_nfl_scoreboard 2024 (JInt 3)
                     (sample_world (fun _ => GetResponse (mkResponse 404 None))))))
  = [fetch_request (JInt 3)] /\
  snd (fetch_nfl_scoreboard 2024 (JInt 3)
         (sample_world (fun _ => GetResponse (mkResponse 404 None)))) = Returned JNull.
Proof.
  destruct (fetch_one_call_and_none_on_failure 2024 (JInt 3)
              (sample_world (fun _ => GetResponse (mkResponse 404 None))))
    as (Hcalls & _ & Hstatus).
  split; [exact Hcalls|].
  rewrite (Hstatus (mkResponse 404 None)); reflexivity.
Defined.

Section OrchestratorClaims.
Variable parse_iso : string -> option datetime.

(** C8.  The orchestrator takes any falsy result of the fetcher as a
    failure.  When the server answers with a success status and a body that
    is an empty object (or any other falsy JSON value), [main] prints the
    failure notice right after the fetcher's lines and returns: no file is
    written, and no line of the summary or the inspection is printed.  That
    is what it does after a transport failure too. *)
Theorem main_treats_falsy_result_as_failure w :
  (forall resp data,
      http_get w (fetch_request JNull) = GetResponse resp ->
      is_error_status (status_code resp) = false ->
      body resp = Some data ->
      truthy data = false ->
      main parse_iso w
      = ((main_banner ++ fetch_prelude JNull
          ++ [[Lit "✅ Successfully fetched data from ESPN API"]; failure_notice])%list,
         mkWorld (http_get w) (now w) (files w) (calls w ++ [fetch_request JNull])%list,
         Returned tt)) /\
  (forall e,
      http_get w (fetch_request JNull) = GetRaises e ->
      main parse_iso w
      = ((main_banner ++ fetch_prelude JNull
          ++ [[Lit "❌ Error fetching data: "; Exc e]; failure_notice])%list,
         mkWorld (http_get w) (now w) (files w) (calls w ++ [fetch_request JNull])%list,
         Returned tt)).
Proof.
  split.
  - intros resp data Hget Hstatus Hbody Hfalsy.
    unfold main. unfold io_bind at 1. unfold print_lines at 1, io_out at 1. cbn [fst snd].
    unfold io_bind at 1. rewrite fetch_run. cbv zeta.
    rewrite Hget, Hstatus, Hbody, Hfalsy. reflexivity.
  - intros e Hget.
    unfold main. unfold io_bind at 1. unfold print_lines at 1, io_out at 1. cbn [fst snd].
    unfold io_bind at 1. rewrite fetch_run. cbv zeta.
    rewrite Hget. reflexivity.
Qed.

End OrchestratorClaims.

Lemma main_treats_falsy_result_as_failure_witness :
  main fromisoformat (sample_world (fun _ => GetResponse (mkResponse 200 (Some (JObj [])))))
  = ((main_banner ++ fetch_prelude JNull
      ++ [[Lit "✅ Successfully fetched data from ESPN API"]; failure_notice])%list,
     mkWorld (fun _ => GetResponse (mkResponse 200 (Some (JObj []))))
       (mkDatetime 2024 9 8 12 30 15 0%Z None) (fun _ => None) [fetch_request JNull],
     Returned tt).
Proof.
  destruct (main_treats_falsy_result_as_failure fromisoformat
              (sample_world (fun _ => GetResponse (mkResponse 200 (Some (JObj []))))))
    as [Hempty _].
  apply (Hempty (mkResponse 200 (Some (JObj []))) (JObj [])); reflexivity.
Defined.

(** C9.  A falsy [week] (0 as well as [None]) adds neither [week] nor
    [seasontype]: the parameters are [limit] alone, the request is the one
    sent for no week, and the whole run of the fetcher is the same.  A truthy
    [week] adds both [week] and [seasontype = 2]. *)
Theorem falsy_week_adds_no_parameter year week :
  (truthy week = false ->
   build_params week = [("limit", JInt 100)] /\
   fetch_request week = fetch_request JNull /\
   forall w, fetch_nfl_scoreboard year week w = fetch_nfl_scoreboard year JNull w) /\
  (truthy week = true ->
   build_params week = [("limit", JInt 100); ("week", week); ("seasontype", JInt 2)]).
Proof.
  split; intros H.
  - assert (Hp : build_params week = [("limit", JInt 100)])
      by (unfold build_params; rewrite H; reflexivity).
    split; [exact Hp|]. split.
    + unfold fetch_request. rewrite Hp. reflexivity.
    + intros w. unfold fetch_nfl_scoreboard. rewrite Hp. reflexivity.
  - unfold build_params. rewrite H. reflexivity.
Qed.

Lemma falsy_week_adds_no_parameter_witness :
  (build_params (JInt 0) = [("limit", JInt 100)] /\
   fetch_request (JInt 0) = fetch_request JNull /\
   forall w, fetch_nfl_scoreboard 2024 (JInt 0) w = fetch_nfl_scoreboard 2024 JNull w) /\
  build_params (JInt 5) = [("limit", JInt 100); ("week", JInt 5); ("seasontype", JInt 2)].
Proof.
  split.
  - apply (falsy_week_adds_no_parameter 2024 (JInt 0)). reflexivity.
  - apply (falsy_week_adds_no_parameter 2024 (JInt 5)). reflexivity.
Defined.

(* ================================================================== *)
(** * Properties of the persister *)

(** ** Strings *)
Lemma scanstring_escape_char c tail :
  scanstring (escape_char c ++ tail) = prepend (String c EmptyString) (scanstring tail).
Proof.
  destruct c as [[] [] [] [] [] [] [] []]; reflexivity.
Qed.

Lemma scanstring_escape_string s rest :
  scanstring (escape_string s ++ String dquote rest) = Some (s, rest).
Proof.
  induction s as [|c s IH].
  - cbn [escape_string append scanstring]. unfold dquote. reflexivity.
  - cbn [escape_string]. rewrite string_app_assoc, scanstring_escape_char, IH.
    reflexivity.
Qed.

(** ** Integers *)
Lemma ends_value_not_digit rest :
  ends_value rest = true -> span_digits rest = (EmptyString, rest).
Proof.
  destruct rest as [|c r]; [reflexivity|]. cbn [ends_value]. intros H.
  apply orb_prop in H. destruct H as [H|H]; apply Ascii.eqb_eq in H; subst c; reflexivity.
Qed.

Lemma ends_value_not_fraction rest :
  ends_value rest = true -> starts_fraction rest = false.
Proof.
  destruct rest as [|c r]; [reflexivity|]. cbn [ends_value]. intros H.
  apply orb_prop in H. destruct H as [H|H]; apply Ascii.eqb_eq in H; subst c; reflexivity.
Qed.

Lemma span_digits_uint d rest :
  ends_value rest = true ->
  span_digits (NilEmpty.string_of_uint d ++ rest) = (NilEmpty.string_of_uint d, rest).
Proof.
  intros H. induction d; cbn [NilEmpty.string_of_uint append];
    [apply ends_value_not_digit; assumption | ..];
    cbn [span_digits]; rewrite IHd; reflexivity.
Qed.

Lemma nzhead_not_D0 u v : nzhead u <> D0 v.
Proof. induction u; cbn [nzhead]; try discriminate. assumption. Qed.

(** The decimal digits of a number: a single zero, or digits that do not
    start with a zero. *)
Lemma to_uint_shape n :
  N.to_uint n = D0 Nil \/
  match N.to_uint n with
  | Nil | D0 _ => False
  | _ => True
  end.
Proof.
  rewrite <- (DecimalN.Unsigned.of_to n) at 1 2.
  rewrite DecimalN.Unsigned.to_of. unfold unorm.
  pose proof (nzhead_not_D0 (N.to_uint n)) as H.
  destruct (nzhead (N.to_uint n)); auto.
  exfalso. exact (H _ eq_refl).
Qed.

Lemma scan_natural_uint d rest :
  match d with Nil | D0 _ => False | _ => True end ->
  ends_value rest = true ->
  scan_natural (NilEmpty.string_of_uint d ++ rest) = Some (N.of_uint d, rest).
Proof.
  intros Hd H.
  pose proof (span_digits_uint d rest H) as Hs.
  pose proof (NilEmpty.usu d) as Hu.
  destruct d; try contradiction;
    cbn [NilEmpty.string_of_uint append] in *; unfold scan_natural;
    match goal with
    | |- context [is_digit ?c] => change (is_digit c) with true
    end;
    cbn [Ascii.eqb Bool.eqb andb]; rewrite Hs, Hu; reflexivity.
Qed.

Lemma scan_natural_digits n rest :
  ends_value rest = true ->
  scan_natural (NilEmpty.string_of_uint (N.to_uint n) ++ rest) = Some (n, rest).
Proof.
  intros H. pose proof (DecimalN.Unsigned.of_to n) as Hn.
  destruct (to_uint_shape n) as [E|E].
  - rewrite E in *. cbn in Hn. subst n. reflexivity.
  - rewrite (scan_natural_uint _ _ E H), Hn. reflexivity.
Qed.

(** The text of an integer starts with a sign or a digit, and [scan_once]
    reads such a text as a number. *)
Lemma scan_once_number f c s :
  c = "-"%char \/ is_digit c = true ->
  scan_once (S f) (String c s) = scan_number (String c s).
Proof.
  intros H.
  destruct c as [[] [] [] [] [] [] [] []];
    try reflexivity; exfalso; destruct H as [H|H]; discriminate.
Qed.

Lemma digits_head n :
  exists c s,
    NilEmpty.string_of_uint (N.to_uint n) = String c s /\
    is_digit c = true /\ Ascii.eqb c "-"%char = false.
Proof.
  destruct (to_uint_shape n) as [E|E].
  - rewrite E. do 2 eexists. repeat split; reflexivity.
  - destruct (N.to_uint n); try contradiction;
      do 2 eexists; repeat split; reflexivity.
Qed.

Lemma scan_once_int f n rest :
  ends_value rest = true ->
  scan_once (S f) (encode_int n ++ rest) = Some (JInt n, rest).
Proof.
  intros H. unfold encode_int.
  destruct (Z.ltb_spec n 0) as [Hneg|Hpos].
  - cbn [append]. rewrite scan_once_number by auto.
    unfold scan_number. cbn [Ascii.eqb Bool.eqb].
    rewrite scan_natural_digits by assumption.
    rewrite ends_value_not_fraction by assumption.
    do 3 f_equal. rewrite N2Z.inj_abs_N. lia.
  - destruct (digits_head (Z.abs_N n)) as (c & s & E & Hd & Hm).
    pose proof (scan_natural_digits (Z.abs_N n) rest H) as Hs.
    rewrite E in *. cbn [append] in *.
    rewrite scan_once_number by auto.
    unfold scan_number. rewrite Hm, Hs.
    rewrite ends_value_not_fraction by assumption.
    do 3 f_equal. rewrite N2Z.inj_abs_N. lia.
Qed.

(** ** White space, arrays *)
Lemma skip_ws_spaces n s : skip_ws (repeat_string " " n ++ s) = skip_ws s.
Proof. induction n as [|n IH]; [reflexivity|]. cbn [repeat_string append]. exact IH. Qed.

Lemma skip_ws_newline_indent lvl s : skip_ws (newline_indent lvl ++ s) = skip_ws s.
Proof. unfold newline_indent. cbn [append skip_ws]. apply skip_ws_spaces. Qed.

Lemma skip_ws_value s rest :
  starts_value s = true -> skip_ws (s ++ rest) = s ++ rest.
Proof.
  destruct s as [|c s]; [discriminate|]. cbn [starts_value append skip_ws].
  destruct (is_ws c); [discriminate | reflexivity].
Qed.

Lemma starts_value_app s rest :
  starts_value s = true -> starts_value (s ++ rest) = true.
Proof. destruct s; [discriminate | auto]. Qed.

Lemma encode_starts_value lvl v : starts_value (encode lvl v) = true.
Proof.
  destruct v as [| [] | n | s | [|x xs] | [|kv kvs]]; try reflexivity.
  unfold encode, encode_int.
  destruct (digits_head (Z.abs_N n)) as (c & s & E & Hd & _). rewrite E.
  destruct (n <? 0)%Z; [reflexivity|].
  cbn [starts_value].
  destruct c as [[] [] [] [] [] [] [] []]; try discriminate; reflexivity.
Qed.

Lemma ends_value_separator lvl s : ends_value (item_separator lvl ++ s) = true.
Proof. reflexivity. Qed.

Lemma ends_value_newline lvl s : ends_value (newline_indent lvl ++ s) = true.
Proof. reflexivity. Qed.


Lemma concat_cons2 sep (x y : string) l :
  String.concat sep (x :: y :: l) = x ++ sep ++ String.concat sep (y :: l).
Proof. reflexivity. Qed.

Lemma concat_starts_value sep (x : string) l :
  starts_value x = true -> starts_value (String.concat sep (x :: l)) = true.
Proof.
  intros H. destruct l; [exact H|]. rewrite concat_cons2. apply starts_value_app, H.
Qed.

Lemma scan_elements_encode xs :
  Forall roundtrips xs -> xs <> [] ->
  forall lvl outer fuel rest,
    list_sum (map (fun x => S (size x)) xs) <= fuel ->
    forallb unique_keys xs = true ->
    scan_elements fuel
      (String.concat (item_separator lvl) (map (encode lvl) xs)
       ++ newline_indent outer ++ String "]" rest)
    = Some (xs, rest).
Proof.
  induction 1 as [|x xs Hx Hxs IH]; [contradiction|]. intros _ lvl outer fuel rest Hfuel Hu.
  cbn [map list_sum fold_right forallb] in Hfuel, Hu. apply andb_prop in Hu. destruct Hu as [Hux Huxs].
  destruct fuel as [|f]; [lia|]. cbn [scan_elements].
  destruct xs as [|y l]; cbn [map list_sum fold_right] in Hfuel.
  - cbn [map String.concat].
    rewrite (Hx lvl f) by (auto using ends_value_newline; lia).
    rewrite skip_ws_newline_indent. reflexivity.
  - cbn [map]. rewrite concat_cons2, !string_app_assoc.
    rewrite (Hx lvl f) by (auto using ends_value_separator; lia).
    unfold item_separator at 1. cbn [append skip_ws is_ws Ascii.eqb Bool.eqb orb].
    rewrite skip_ws_newline_indent.
    change (encode lvl y :: map (encode lvl) l) with (map (encode lvl) (y :: l)).
    rewrite skip_ws_value.
    2:{ cbn [map]. apply concat_starts_value, encode_starts_value. }
    rewrite (IH ltac:(discriminate) lvl outer f rest) by (auto; cbn [map list_sum fold_right]; lia).
    reflexivity.
Qed.

(** ** Objects *)
Lemma concat_cons2_gen {A} sep (f : A -> string) (x y : A) l :
  String.concat sep (map f (x :: y :: l)) = f x ++ sep ++ String.concat sep (map f (y :: l)).
Proof. reflexivity. Qed.


Lemma encode_member_starts_value lvl kv : starts_value (encode_member lvl kv) = true.
Proof. destruct kv. reflexivity. Qed.

Lemma scan_members_encode kvs :
  Forall (fun kv => roundtrips (snd kv)) kvs -> kvs <> [] ->
  forall lvl outer fuel rest,
    list_sum (map (fun kv : string * json => S (size (snd kv))) kvs) <= fuel ->
    forallb (fun kv : string * json => unique_keys (snd kv)) kvs = true ->
    scan_members fuel
      (String.concat (item_separator lvl) (map (encode_member lvl) kvs)
       ++ newline_indent outer ++ String "}" rest)
    = Some (kvs, rest).
Proof.
  induction 1 as [|[k x] kvs Hx Hxs IH]; [contradiction|].
  intros _ lvl outer fuel rest Hfuel Hu.
  cbn [map list_sum fold_right forallb snd] in Hfuel, Hu, Hx.
  apply andb_prop in Hu. destruct Hu as [Hux Huxs].
  destruct fuel as [|f]; [lia|].
  destruct kvs as [|y l]; cbn [map list_sum fold_right] in Hfuel.
  - cbn [map String.concat encode_member]. unfold encode_string.
    cbn [append scan_members]. rewrite Ascii.eqb_refl.
    rewrite !string_app_assoc. cbn [append]. rewrite scanstring_escape_string.
    cbn [append skip_ws is_ws Ascii.eqb Bool.eqb orb].
    rewrite skip_ws_value by apply encode_starts_value.
    rewrite (Hx lvl f) by (auto using ends_value_newline; lia).
    rewrite skip_ws_newline_indent. reflexivity.
  - rewrite concat_cons2_gen. cbn [encode_member]. unfold encode_string.
    cbn [append scan_members]. rewrite Ascii.eqb_refl.
    rewrite !string_app_assoc. cbn [append]. rewrite scanstring_escape_string.
    cbn [append skip_ws is_ws Ascii.eqb Bool.eqb orb].
    rewrite skip_ws_value by apply encode_starts_value.
    rewrite (Hx lvl f) by (auto using ends_value_separator; lia).
    unfold item_separator at 1. cbn [append skip_ws is_ws Ascii.eqb Bool.eqb orb].
    rewrite skip_ws_newline_indent.
    rewrite skip_ws_value
      by (cbn [map]; apply concat_starts_value, encode_member_starts_value).
    rewrite (IH ltac:(discriminate) lvl outer f rest) by (auto; cbn [map list_sum fold_right]; lia).
    reflexivity.
Qed.

(** ** Dictionaries *)
Lemma dict_set_fresh k v acc :
  existsb (String.eqb k) (dict_keys acc) = false ->
  dict_set k v acc = (acc ++ [(k, v)])%list.
Proof.
  induction acc as [|[k' v'] acc IH]; [reflexivity|].
  cbn [dict_keys map fst existsb dict_set List.app]. intros H.
  apply orb_false_elim in H. destruct H as [Hk Hacc]. rewrite Hk.
  unfold dict_keys in IH. rewrite (IH Hacc). reflexivity.
Qed.

Lemma existsb_keys_app k (a b : list (string * json)) :
  existsb (String.eqb k) (dict_keys (a ++ b))
  = existsb (String.eqb k) (dict_keys a) || existsb (String.eqb k) (dict_keys b).
Proof. unfold dict_keys. rewrite List.map_app. apply List.existsb_app. Qed.

Lemma fold_dict_set_fresh kvs :
  forall acc,
    distinct_keys kvs = true ->
    (forall k, existsb (String.eqb k) (dict_keys kvs) = true ->
               existsb (String.eqb k) (dict_keys acc) = false) ->
    fold_left (fun d kv => dict_set (fst kv) (snd kv) d) kvs acc = (acc ++ kvs)%list.
Proof.
  induction kvs as [|[k v] kvs IH]; intros acc Hd Hfresh.
  - cbn [fold_left]. rewrite List.app_nil_r. reflexivity.
  - cbn [distinct_keys] in Hd. apply andb_prop in Hd. destruct Hd as [Hk Hd].
    apply negb_true_iff in Hk.
    cbn [fold_left fst snd].
    rewrite dict_set_fresh.
    2:{ apply Hfresh. cbn [dict_keys map fst existsb]. rewrite String.eqb_refl. reflexivity. }
    rewrite IH; [rewrite <- List.app_assoc; reflexivity | assumption |].
    intros k' Hk'. rewrite existsb_keys_app.
    rewrite Hfresh by (cbn [dict_keys map fst existsb]; unfold dict_keys in Hk'; rewrite Hk';
                       apply orb_true_r).
    cbn [dict_keys map fst existsb orb].
    destruct (String.eqb_spec k' k) as [->|]; [|reflexivity].
    unfold dict_keys in *. congruence.
Qed.

Lemma dict_of_pairs_distinct kvs :
  distinct_keys kvs = true -> dict_of_pairs kvs = kvs.
Proof.
  intros H. unfold dict_of_pairs. rewrite fold_dict_set_fresh; auto.
Qed.

(** ** Values *)

Lemma scan_once_open_array f s :
  scan_once (S f) (String "[" s)
  = match skip_ws s with
    | String c2 r2 =>
        if Ascii.eqb c2 "]"%char then Some (JArr [], r2)
        else
          match scan_elements f (String c2 r2) with
          | Some (xs, r) => Some (JArr xs, r)
          | None => None
          end
    | EmptyString => None
    end.
Proof. reflexivity. Qed.

Lemma scan_once_open_object f s :
  scan_once (S f) (String "{" s)
  = match skip_ws s with
    | String c2 r2 =>
        if Ascii.eqb c2 "}"%char then Some (JObj [], r2)
        else
          match scan_members f (String c2 r2) with
          | Some (pairs, r) => Some (JObj (dict_of_pairs pairs), r)
          | None => None
          end
    | EmptyString => None
    end.
Proof. reflexivity. Qed.

Lemma encode_roundtrips v : roundtrips v.
Proof.
  induction v as [| b | n | s | xs IH | kvs IH] using json_nested_ind;
    intros lvl fuel rest Hfuel Hrest Hu;
    (destruct fuel as [|f]; [cbn [size] in Hfuel; lia|]).
  - reflexivity.
  - destruct b; reflexivity.
  - apply scan_once_int; assumption.
  - cbn [encode]. unfold encode_string. cbn [append scan_once].
    rewrite Ascii.eqb_refl, string_app_assoc. cbn [append].
    rewrite scanstring_escape_string. reflexivity.
  - destruct xs as [|x xs]; [reflexivity|].
    cbn [size] in Hfuel. cbn [unique_keys] in Hu.
    cbn [encode]. rewrite !string_app_assoc. cbn [append].
    rewrite scan_once_open_array, skip_ws_newline_indent.
    rewrite skip_ws_value by apply concat_starts_value, encode_starts_value.
    pose proof (concat_starts_value (item_separator (S lvl)) (encode (S lvl) x)
                  (map (encode (S lvl)) xs) (encode_starts_value _ _)) as Hstart.
    change (encode (S lvl) x :: map (encode (S lvl)) xs)
      with (map (encode (S lvl)) (x :: xs)) in *.
    pose proof (scan_elements_encode (x :: xs) IH ltac:(discriminate)
                  (S lvl) lvl f rest ltac:(lia) Hu) as Hscan.
    destruct (String.concat (item_separator (S lvl)) (map (encode (S lvl)) (x :: xs)))
      as [|c r] eqn:E; [discriminate|].
    cbn [append] in *. cbn [starts_value] in Hstart.
    apply andb_prop in Hstart. destruct Hstart as [Hstart _].
    apply andb_prop in Hstart. destruct Hstart as [_ Hc].
    apply negb_true_iff in Hc. rewrite Hc, Hscan. reflexivity.
  - destruct kvs as [|kv kvs]; [reflexivity|].
    cbn [size] in Hfuel. cbn [unique_keys] in Hu.
    apply andb_prop in Hu. destruct Hu as [Hd Hu].
    cbn [encode].
    match goal with
    | |- context [map ?f (kv :: kvs)] =>
        change (map f (kv :: kvs)) with (map (encode_member (S lvl)) (kv :: kvs))
    end.
    rewrite !string_app_assoc. cbn [append].
    rewrite scan_once_open_object, skip_ws_newline_indent.
    pose proof (concat_starts_value (item_separator (S lvl)) (encode_member (S lvl) kv)
                  (map (encode_member (S lvl)) kvs) (encode_member_starts_value _ _)) as Hstart.
    change (encode_member (S lvl) kv :: map (encode_member (S lvl)) kvs)
      with (map (encode_member (S lvl)) (kv :: kvs)) in Hstart.
    rewrite skip_ws_value by exact Hstart.
    pose proof (scan_members_encode (kv :: kvs) IH ltac:(discriminate)
                  (S lvl) lvl f rest ltac:(lia) Hu) as Hscan.
    destruct (String.concat (item_separator (S lvl)) (map (encode_member (S lvl)) (kv :: kvs)))
      as [|c r] eqn:E; [discriminate|].
    cbn [append] in *. cbn [starts_value] in Hstart.
    apply andb_prop in Hstart. destruct Hstart as [_ Hc].
    apply negb_true_iff in Hc. rewrite Hc, Hscan.
    rewrite dict_of_pairs_distinct by assumption. reflexivity.
Qed.

(** ** Fuel *)
Lemma string_length_app (a b : string) :
  String.length (a ++ b) = String.length a + String.length b.
Proof. induction a as [|c a IH]; [reflexivity|]. cbn [append String.length]. rewrite IH. reflexivity. Qed.

Lemma concat_length_ge {A} (f : A -> string) (sz : A -> nat) sep l :
  1 <= String.length sep ->
  Forall (fun x => sz x <= String.length (f x)) l ->
  list_sum (map (fun x => S (sz x)) l) <= String.length (String.concat sep (map f l)) + 1.
Proof.
  intros Hsep. induction 1 as [|x l Hx Hl IH]; [cbn; lia|].
  destruct l as [|y l].
  - cbn [map list_sum fold_right String.concat]. lia.
  - rewrite concat_cons2_gen, !string_length_app.
    cbn [map list_sum fold_right] in *. lia.
Qed.

Lemma newline_indent_length lvl : 1 <= String.length (newline_indent lvl).
Proof. unfold newline_indent. cbn [String.length]. lia. Qed.

Lemma item_separator_length lvl : 1 <= String.length (item_separator lvl).
Proof. unfold item_separator. cbn [append String.length]. lia. Qed.

Lemma size_le_length v : forall lvl, size v <= String.length (encode lvl v).
Proof.
  induction v as [| b | n | s | xs IH | kvs IH] using json_nested_ind; intros lvl.
  - cbn. lia.
  - destruct b; cbn; lia.
  - pose proof (encode_starts_value lvl (JInt n)) as H.
    destruct (encode lvl (JInt n)); [discriminate|]. cbn [size String.length]. lia.
  - cbn [size encode]. unfold encode_string. cbn [String.length]. lia.
  - destruct xs as [|x xs]; [cbn; lia|].
    cbn [size encode]. rewrite !string_length_app.
    pose proof (concat_length_ge (encode (S lvl)) size (item_separator (S lvl)) (x :: xs)
                  (item_separator_length _)) as H.
    cbn [String.length]. 
    assert (Hall : Forall (fun x0 => size x0 <= String.length (encode (S lvl) x0)) (x :: xs)).
    { eapply Forall_impl; [|exact IH]. cbn beta. auto. }
    specialize (H Hall). lia.
  - destruct kvs as [|kv kvs]; [cbn; lia|].
    cbn [size encode].
    match goal with
    | |- context [map ?f (kv :: kvs)] =>
        match f with
        | context [encode_string] =>
            change (map f (kv :: kvs)) with (map (encode_member (S lvl)) (kv :: kvs))
        end
    end.
    rewrite !string_length_app.
    pose proof (concat_length_ge (encode_member (S lvl)) (fun kv => size (snd kv))
                  (item_separator (S lvl)) (kv :: kvs) (item_separator_length _)) as H.
    cbn [String.length].
    assert (Hall : Forall (fun kv0 => size (snd kv0) <= String.length (encode_member (S lvl) kv0))
                     (kv :: kvs)).
    { eapply Forall_impl; [|exact IH]. intros [k x] Hx. cbn [snd encode_member].
      rewrite !string_length_app. specialize (Hx (S lvl)). cbn [snd] in Hx. lia. }
    specialize (H Hall). lia.
Qed.

(** The decoder reads back every document the encoder writes. *)
Lemma json_loads_dumps v :
  unique_keys v = true -> json_loads (json_dumps v) = Some v.
Proof.
  intros Hu. unfold json_loads, json_dumps.
  rewrite <- (string_app_nil (encode 0 v)) at 2.
  rewrite skip_ws_value by apply encode_starts_value.
  rewrite (encode_roundtrips v 0 _ EmptyString); auto.
  pose proof (size_le_length v 0). lia.
Qed.


(** ** The persister *)
Lemma has_slash_join dir name : has_slash (dir ++ String "/" name) = true.
Proof.
  induction dir as [|c dir IH]; [reflexivity|].
  cbn [append has_slash]. rewrite IH. apply orb_true_r.
Qed.

Lemma parent_dir_join dir name :
  has_slash name = false -> parent_dir (dir ++ "/" ++ name) = dir.
Proof.
  intros H. change ("/" ++ name) with (String "/" name).
  induction dir as [|c dir IH].
  - cbn [append parent_dir]. rewrite H. reflexivity.
  - cbn [append parent_dir]. rewrite has_slash_join, IH. reflexivity.
Qed.

Lemma path_join_simple dir name :
  simple_name name = true -> path_join dir name = dir ++ "/" ++ name.
Proof.
  unfold simple_name, path_join. destruct name as [|c name]; [discriminate|].
  intros H. repeat (apply andb_prop in H; destruct H as [H ?]).
  cbn [has_slash] in *.
  destruct (Ascii.eqb c "/"); [discriminate | reflexivity].
Qed.

Lemma simple_name_no_slash name : simple_name name = true -> has_slash name = false.
Proof.
  unfold simple_name. intros H. repeat (apply andb_prop in H; destruct H as [H ?]).
  apply negb_true_iff. assumption.
Qed.

Lemma join_not_dir dir name : String.eqb (dir ++ "/" ++ name) dir = false.
Proof.
  induction dir as [|c dir IH]; [reflexivity|].
  cbn [append String.eqb]. rewrite Ascii.eqb_refl. exact IH.
Qed.

Lemma mkdir_run p w :
  (forall text, files w p <> Some (File text)) ->
  exists fs',
    mkdir_exist_ok p w = ([], mkWorld (http_get w) (now w) fs' (calls w), Returned tt) /\
    fs' p = Some Dir /\
    (forall q, String.eqb q p = false -> fs' q = files w q).
Proof.
  intros H. unfold mkdir_exist_ok.
  destruct (files w p) as [[|text]|] eqn:E.
  - exists (files w). destruct w. auto.
  - exfalso. exact (H text eq_refl).
  - exists (write_node p Dir (files w)). unfold write_node.
    rewrite String.eqb_refl. repeat split.
    intros q ->. reflexivity.
Qed.

Lemma has_nul_app a b : has_nul (a ++ b) = has_nul a || has_nul b.
Proof.
  induction a as [|c a IH]; [reflexivity|].
  cbn [append has_nul]. rewrite IH, orb_assoc. reflexivity.
Qed.

Lemma base_name_join dir name :
  has_slash name = false -> base_name (dir ++ "/" ++ name) = name.
Proof.
  intros H. change ("/" ++ name) with (String "/" name).
  induction dir as [|c dir IH].
  - cbn [append base_name]. rewrite H. reflexivity.
  - cbn [append base_name]. rewrite has_slash_join. exact IH.
Qed.

Lemma simple_name_parts name :
  simple_name name = true ->
  has_slash name = false /\ has_nul name = false /\ String.length name <= name_max.
Proof.
  unfold simple_name. intros H. repeat (apply andb_prop in H; destruct H as [H ?]).
  repeat split; try (apply negb_true_iff; assumption).
  apply Nat.leb_le. assumption.
Qed.

(** A path of the output directory and one or two simple names can be
    opened as far as its spelling goes. *)
Lemma output_path_ok mid name :
  has_nul mid = false ->
  (String.length mid <= S name_max)%nat ->
  simple_name name = true ->
  has_nul (output_dir ++ "/" ++ mid ++ name) = false /\
  String.length (output_dir ++ "/" ++ mid ++ name) < path_max.
Proof.
  intros Hnul Hlen Hname.
  destruct (simple_name_parts name Hname) as (_ & Hn & Hl).
  split.
  - rewrite !has_nul_app, Hnul, Hn. reflexivity.
  - rewrite !string_length_app. unfold name_max, path_max in *. cbn [String.length output_dir].
    lia.
Qed.

Lemma write_text_run p text w :
  has_nul p = false ->
  String.length p < path_max ->
  String.length (base_name p) <= name_max ->
  files w p <> Some Dir ->
  files w (parent_dir p) = Some Dir ->
  write_text p text w
  = ([], mkWorld (http_get w) (now w) (write_node p (File text) (files w)) (calls w),
     Returned tt).
Proof.
  intros Hnul Hlen Hbase Hp Hparent. unfold write_text. rewrite Hparent, Hnul.
  apply Nat.leb_gt in Hlen. rewrite Hlen.
  apply Nat.ltb_ge in Hbase. rewrite Hbase.
  destruct (files w p) as [[|old]|]; [contradiction Hp; reflexivity | |];
    destruct (parent_dir p); reflexivity.
Qed.

(** Writing under the output directory with a simple name. *)
Lemma write_text_simple name text w :
  simple_name name = true ->
  files w (output_dir ++ "/" ++ name) <> Some Dir ->
  files w output_dir = Some Dir ->
  write_text (output_dir ++ "/" ++ name) text w
  = ([], mkWorld (http_get w) (now w)
           (write_node (output_dir ++ "/" ++ name) (File text) (files w)) (calls w),
     Returned tt).
Proof.
  intros Hname Hp Hdir.
  destruct (simple_name_parts name Hname) as (Hs & Hn & Hl).
  destruct (output_path_ok "" name eq_refl ltac:(cbn; lia) Hname) as (Hnul & Hlen).
  apply write_text_run; try assumption.
  - rewrite base_name_join by assumption. assumption.
  - rewrite parent_dir_join by assumption. assumption.
Qed.











Lemma escape_plain_char c : plain_char c = true -> escape_char c = String c EmptyString.
Proof.
  destruct c as [[] [] [] [] [] [] [] []]; intros H; try discriminate; reflexivity.
Qed.





(* ================================================================== *)
(** * Further properties of the script *)

Lemma has_slash_app a b : has_slash (a ++ b) = has_slash a || has_slash b.
Proof.
  induction a as [|c a IH]; [reflexivity|].
  cbn [append has_slash]. rewrite IH, orb_assoc. reflexivity.
Qed.

Lemma has_slash_d2 n : has_slash (d2 n) = false.
Proof.
  unfold d2.
  assert (H : forall d, d < 10 -> Ascii.eqb (digit_char d) "/" = false)
    by (intros d Hd; digit_cases d).
  cbn [has_slash]. rewrite !H by (apply Nat.mod_upper_bound; lia). reflexivity.
Qed.

Lemma has_slash_stamp t : has_slash (strftime_stamp t) = false.
Proof.
  unfold strftime_stamp, d4.
  repeat (rewrite has_slash_app || rewrite has_slash_d2). reflexivity.
Qed.

Lemma has_nul_d2 n : has_nul (d2 n) = false.
Proof.
  unfold d2.
  assert (H : forall d, d < 10 -> Ascii.eqb (digit_char d) "000" = false)
    by (intros d Hd; digit_cases d).
  cbn [has_nul]. rewrite !H by (apply Nat.mod_upper_bound; lia). reflexivity.
Qed.

Lemma has_nul_stamp t : has_nul (strftime_stamp t) = false.
Proof.
  unfold strftime_stamp, d4.
  repeat (rewrite has_nul_app || rewrite has_nul_d2). reflexivity.
Qed.

Lemma length_stamp t : String.length (strftime_stamp t) = 15.
Proof.
  unfold strftime_stamp, d4, d2. cbn [append String.length]. reflexivity.
Qed.

Lemma run_filename_simple t : simple_name (run_filename t) = true.
Proof.
  unfold simple_name, run_filename.
  rewrite !has_slash_app, !has_nul_app, has_slash_stamp, has_nul_stamp.
  rewrite !string_length_app, length_stamp.
  cbn [append String.eqb Ascii.eqb Bool.eqb]. reflexivity.
Qed.

(** What [save_raw_response] does when the directory can be made and the
    target can be opened. *)
Lemma save_raw_response_run data filename w :
  simple_name filename = true ->
  (forall text, files w output_dir <> Some (File text)) ->
  files w (path_join output_dir filename) <> Some Dir ->
  exists fs1,
    fs1 output_dir = Some Dir /\
    (forall q, String.eqb q output_dir = false -> fs1 q = files w q) /\
    save_raw_response data filename w
    = ([ [Lit "💾 Saved raw response to: "; Val (JStr (path_join output_dir filename))];
         blank ],
       mkWorld (http_get w) (now w)
         (write_node (path_join output_dir filename) (File (json_dumps data)) fs1) (calls w),
       Returned tt).
Proof.
  intros Hname Hdir Hfile.
  pose proof (path_join_simple output_dir filename Hname) as Hp.
  pose proof (parent_dir_join output_dir filename (simple_name_no_slash _ Hname)) as Hparent.
  pose proof (join_not_dir output_dir filename) as Hneq.
  rewrite Hp in *.
  set (p := output_dir ++ "/" ++ filename) in *.
  destruct (mkdir_run output_dir w Hdir) as (fs1 & Hmk & Hd1 & Hsame).
  exists fs1. split; [exact Hd1|]. split; [exact Hsame|].
  assert (Hwrite : write_text p (json_dumps data) (mkWorld (http_get w) (now w) fs1 (calls w))
                   = ([], mkWorld (http_get w) (now w)
                            (write_node p (File (json_dumps data)) fs1) (calls w),
                      Returned tt)).
  { apply (write_text_simple filename (json_dumps data)
             (mkWorld (http_get w) (now w) fs1 (calls w)) Hname).
    - cbn [files]. fold p. rewrite (Hsame p Hneq). exact Hfile.
    - exact Hd1. }
  unfold save_raw_response. rewrite Hp. fold p.
  unfold io_bind at 1. rewrite Hmk.
  unfold io_bind at 1. rewrite Hwrite.
  reflexivity.
Qed.

Section SummaryOutput.
Variable parse_iso : string -> option datetime.

(** The whole output of the summarizer on a response of the data model. *)
Lemma print_game_summary_output data :
  wf_response data = true ->
  print_game_summary parse_iso data = (summary_output parse_iso data, Returned tt).
Proof.
  intros Hwf. pose proof Hwf as Hwf0. unfold wf_response in Hwf.
  apply andb_prop in Hwf. destruct Hwf as [Hwf Hweek].
  apply andb_prop in Hwf. destruct Hwf as [Hevents Hseason].
  destruct (opt_field_obj _ _ _ Hevents) as [kvs ->].
  unfold summary_output.
  destruct (dict_lookup "events" kvs) as [evs|] eqn:E.
  - cbn [opt_field] in Hevents. rewrite E in Hevents.
    apply all_items_arr in Hevents. destruct Hevents as (xs & -> & Hall).
    cbn [items]. destruct xs as [|x xs].
    + assert (Hs : is_obj (field "season" (JObj []) (JObj kvs)) = true)
        by (apply opt_field_default; auto).
      assert (Hw : is_obj (field "week" (JObj []) (JObj kvs)) = true)
        by (apply opt_field_default; auto).
      unfold print_game_summary, summary_banner.
      assert (Ht : truthy (JObj kvs) = true) by (destruct kvs; [discriminate | reflexivity]).
      rewrite Ht. cbn [negb py_in obind]. rewrite E. cbn [negb].
      rewrite bind_lift_returned, !py_get_obj, !bind_lift_returned.
      destruct (field "season" (JObj []) (JObj kvs)) as [| | | | |skvs] eqn:Es; try discriminate.
      destruct (field "week" (JObj []) (JObj kvs)) as [| | | | |wkvs] eqn:Ew; try discriminate.
      assert (Hf : field "events" (JArr []) (JObj kvs) = JArr [])
        by (cbn [field]; rewrite E; reflexivity).
      rewrite Hf. out_steps. reflexivity.
    + apply (print_game_summary_wf parse_iso (JObj kvs) (x :: xs) Hwf0).
      * cbn [field]. rewrite E. reflexivity.
      * discriminate.
  - unfold print_game_summary.
    destruct (truthy (JObj kvs)); cbn [negb]; [|reflexivity].
    cbn [py_in obind]. rewrite E. reflexivity.
Qed.
End SummaryOutput.

Lemma inspect_data_structure_output data :
  wf_response data = true ->
  inspect_data_structure data = (levels_reached data, Returned tt).
Proof.
  intros H. unfold wf_response in H.
  apply andb_prop in H. destruct H as [H _].
  apply andb_prop in H. destruct H as [H _].
  destruct (opt_field_obj _ _ _ H) as [kvs ->].
  unfold inspect_data_structure, levels_reached, top_level.
  cbn [py_keys keys_of]. out_steps.
  rewrite print_keys_lines. rewrite bind_returned. cbn [fst snd].
  out_steps. rewrite (inspect_event_wf _ H). cbn [fst snd].
  cbn [List.app]. rewrite <- List.app_assoc. reflexivity.
Qed.

Lemma io_bind_run {A B} (c : IO A) (k : A -> IO B) w o1 w1 a :
  c w = (o1, w1, Returned a) ->
  io_bind c k w = (let '(o2, w2, r) := k a w1 in ((o1 ++ o2)%list, w2, r)).
Proof. intros H. unfold io_bind. rewrite H. destruct (k a w1) as [[o2 w2] r]. reflexivity. Qed.

Lemma io_bind_raise {A B} (c : IO A) (k : A -> IO B) w o1 w1 e :
  c w = (o1, w1, Raised e) -> io_bind c k w = (o1, w1, Raised e).
Proof. intros H. unfold io_bind. rewrite H. reflexivity. Qed.

Lemma fetch_success week w resp data year :
  http_get w (fetch_request week) = GetResponse resp ->
  is_error_status (status_code resp) = false ->
  body resp = Some data ->
  fetch_nfl_scoreboard year week w
  = ((fetch_prelude week ++ [[Lit "✅ Successfully fetched data from ESPN API"]])%list,
     mkWorld (http_get w) (now w) (files w) (calls w ++ [fetch_request week])%list,
     Returned data).
Proof. intros Hg Hs Hb. rewrite fetch_run. cbv zeta. rewrite Hg, Hs, Hb. reflexivity. Qed.

Section MainRuns.
Variable parse_iso : string -> option datetime.

(** X1.  When the server answers with a status outside 400-599 and a body
    that is a truthy response of the data model, and the output directory
    can be made, [main] runs every stage in order: it prints its banner,
    the fetcher's lines, the line of the saved file, the summary, the
    inspection and the closing text, and returns.  It makes one network
    call, leaves the document's text in
    [sample_responses/nfl_scoreboard_<stamp>.json], and otherwise changes
    only the directory entry. *)
Theorem main_runs_every_stage_in_order w resp data :
  http_get w (fetch_request JNull) = GetResponse resp ->
  is_error_status (status_code resp) = false ->
  body resp = Some data ->
  truthy data = true ->
  wf_response data = true ->
  (forall text, files w output_dir <> Some (File text)) ->
  files w (path_join output_dir (run_filename (now w))) <> Some Dir ->
  exists w',
    main parse_iso w
    = ((main_banner
        ++ fetch_prelude JNull
        ++ [[Lit "✅ Successfully fetched data from ESPN API"]]
        ++ [ [Lit "💾 Saved raw response to: ";
              Val (JStr (path_join output_dir (run_filename (now w))))];
             blank ]
        ++ summary_output parse_iso data
        ++ levels_reached data
        ++ next_steps)%list,
       w', Returned tt) /\
    calls w' = (calls w ++ [fetch_request JNull])%list /\
    files w' (path_join output_dir (run_filename (now w))) = Some (File (json_dumps data)) /\
    (forall q,
        String.eqb q output_dir = false ->
        String.eqb q (path_join output_dir (run_filename (now w))) = false ->
        files w' q = files w q).
Proof.
  intros Hget Hstatus Hbody Htruthy Hwf Hdir Hfile.
  set (w1 := mkWorld (http_get w) (now w) (files w) (calls w ++ [fetch_request JNull])%list).
  destruct (save_raw_response_run data (run_filename (now w)) w1
              (run_filename_simple _) Hdir Hfile) as (fs1 & Hd1 & Hsame & Hsave).
  cbn [w1 http_get now files calls] in Hsave, Hsame.
  eexists. split; [|split; [|split]].
  - unfold main.
    erewrite io_bind_run by reflexivity.
    erewrite io_bind_run by (apply (fetch_success JNull w resp data); assumption).
    rewrite Htruthy. cbn [negb].
    erewrite io_bind_run by reflexivity.
    fold (run_filename (now w)). fold w1.
    change (now w1) with (now w).
    erewrite io_bind_run by exact Hsave.
    unfold io_out at 1.
    erewrite io_bind_run
      by (unfold io_out; rewrite print_game_summary_output by exact Hwf; reflexivity).
    erewrite io_bind_run
      by (unfold io_out; rewrite inspect_data_structure_output by exact Hwf; reflexivity).
    unfold print_lines, io_out. cbn [fst snd].
    rewrite !List.app_nil_l, <- !List.app_assoc. reflexivity.
  - reflexivity.
  - cbn [files]. unfold write_node. rewrite String.eqb_refl. reflexivity.
  - intros q Hq1 Hq2. cbn [files]. unfold write_node. rewrite Hq2. apply Hsame, Hq1.
Qed.
End MainRuns.

Section MainFailures.
Variable parse_iso : string -> option datetime.

(** X2.  A body that is a non-empty array without the string [events]
    passes the test of [main], is saved, and is summarised by the notice
    alone; the inspector then raises [AttributeError] on [data.keys()],
    after its five heading lines, and [main] raises with it: the closing
    text is never printed, while the file has been written. *)
Theorem main_fails_in_inspector_on_array w resp xs :
  http_get w (fetch_request JNull) = GetResponse resp ->
  is_error_status (status_code resp) = false ->
  body resp = Some (JArr xs) ->
  xs <> [] ->
  existsb (json_is_str "events") xs = false ->
  (forall text, files w output_dir <> Some (File text)) ->
  files w (path_join output_dir (run_filename (now w))) <> Some Dir ->
  exists w',
    main parse_iso w
    = ((main_banner
        ++ fetch_prelude JNull
        ++ [[Lit "✅ Successfully fetched data from ESPN API"]]
        ++ [ [Lit "💾 Saved raw response to: ";
              Val (JStr (path_join output_dir (run_filename (now w))))];
             blank ]
        ++ [no_games_notice]
        ++ [ rule80; [Lit "🔍 DATA STRUCTURE INSPECTION"]; rule80; blank;
             [Lit "Top-level keys available:"] ])%list,
       w', Raised AttributeError) /\
    files w' (path_join output_dir (run_filename (now w)))
    = Some (File (json_dumps (JArr xs))).
Proof.
  intros Hget Hstatus Hbody Hne Hno Hdir Hfile.
  set (w1 := mkWorld (http_get w) (now w) (files w) (calls w ++ [fetch_request JNull])%list).
  destruct (save_raw_response_run (JArr xs) (run_filename (now w)) w1
              (run_filename_simple _) Hdir Hfile) as (fs1 & Hd1 & Hsame & Hsave).
  cbn [w1 http_get now files calls] in Hsave, Hsame.
  assert (Htruthy : truthy (JArr xs) = true) by (destruct xs; [contradiction | reflexivity]).
  assert (Hsum : print_game_summary parse_iso (JArr xs) = ([no_games_notice], Returned tt)).
  { unfold print_game_summary. rewrite Htruthy. cbn [negb py_in obind]. rewrite Hno. reflexivity. }
  eexists. split.
  - unfold main.
    erewrite io_bind_run by reflexivity.
    erewrite io_bind_run by (apply (fetch_success JNull w resp (JArr xs)); assumption).
    rewrite Htruthy. cbn [negb].
    erewrite io_bind_run by reflexivity.
    fold (run_filename (now w)). fold w1. change (now w1) with (now w).
    erewrite io_bind_run by exact Hsave.
    erewrite io_bind_run by (unfold io_out; rewrite Hsum; reflexivity).
    erewrite io_bind_raise by reflexivity.
    rewrite !List.app_nil_l, <- !List.app_assoc. reflexivity.
  - cbn [files]. unfold write_node. rewrite String.eqb_refl. reflexivity.
Qed.

(** X3.  When [sample_responses] exists as a regular file, [main] raises
    [FileExistsError] right after the fetcher's lines: nothing is saved,
    summarised or inspected, and no file changes. *)
Theorem main_stops_when_directory_is_a_file w resp data text :
  http_get w (fetch_request JNull) = GetResponse resp ->
  is_error_status (status_code resp) = false ->
  body resp = Some data ->
  truthy data = true ->
  files w output_dir = Some (File text) ->
  main parse_iso w
  = ((main_banner ++ fetch_prelude JNull
      ++ [[Lit "✅ Successfully fetched data from ESPN API"]])%list,
     mkWorld (http_get w) (now w) (files w) (calls w ++ [fetch_request JNull])%list,
     Raised FileExistsError).
Proof.
  intros Hget Hstatus Hbody Htruthy Hdir.
  unfold main.
  erewrite io_bind_run by reflexivity.
  erewrite io_bind_run by (apply (fetch_success JNull w resp data); assumption).
  rewrite Htruthy. cbn [negb].
  erewrite io_bind_run by reflexivity.
  erewrite io_bind_raise.
  2:{ unfold save_raw_response. erewrite io_bind_raise; [reflexivity|].
      unfold mkdir_exist_ok. cbn [files]. rewrite Hdir. reflexivity. }
  cbn [fst]. rewrite !List.app_nil_r. reflexivity.
Qed.
End MainFailures.

(** ** The persister, further *)
Lemma join_eqb dir a b :
  String.eqb (dir ++ "/" ++ a) (dir ++ "/" ++ b) = String.eqb a b.
Proof.
  induction dir as [|c dir IH].
  - cbn [append String.eqb]. rewrite Ascii.eqb_refl. reflexivity.
  - cbn [append String.eqb]. rewrite Ascii.eqb_refl. exact IH.
Qed.

(** X4.  A successful save changes nothing but its own file and the
    directory entry: every other path holds what it held, [sample_responses]
    is a directory afterwards, and no network call is made. *)
Theorem save_touches_only_its_file data filename w :
  within_limits data = true ->
  simple_name filename = true ->
  (forall text, files w output_dir <> Some (File text)) ->
  files w (path_join output_dir filename) <> Some Dir ->
  exists w',
    save_raw_response data filename w
    = ([ [Lit "💾 Saved raw response to: "; Val (JStr (path_join output_dir filename))];
         blank ], w', Returned tt) /\
    files w' output_dir = Some Dir /\
    (forall q,
        String.eqb q output_dir = false ->
        String.eqb q (path_join output_dir filename) = false ->
        files w' q = files w q) /\
    calls w' = calls w /\ now w' = now w.
Proof.
  intros _ Hname Hdir Hfile.
  destruct (save_raw_response_run data filename w Hname Hdir Hfile)
    as (fs1 & Hd1 & Hsame & Hsave).
  eexists. split; [exact Hsave|]. cbn [files calls now].
  repeat split.
  - unfold write_node. rewrite (path_join_simple _ _ Hname).
    rewrite String.eqb_sym, join_not_dir. exact Hd1.
  - intros q Hq1 Hq2. unfold write_node. rewrite Hq2. apply Hsame, Hq1.
Qed.

(** X5.  Two saves in a row: under different names both files are kept,
    each with its own document; under the same name the second document
    replaces the first. *)
Theorem two_saves_keep_or_replace data1 data2 name1 name2 w :
  within_limits data1 = true ->
  within_limits data2 = true ->
  simple_name name1 = true ->
  simple_name name2 = true ->
  (forall text, files w output_dir <> Some (File text)) ->
  files w (path_join output_dir name1) <> Some Dir ->
  files w (path_join output_dir name2) <> Some Dir ->
  exists o w',
    io_bind (save_raw_response data1 name1) (fun _ => save_raw_response data2 name2) w
    = (o, w', Returned tt) /\
    files w' (path_join output_dir name2) = Some (File (json_dumps data2)) /\
    files w' (path_join output_dir name1)
    = Some (File (json_dumps (if String.eqb name1 name2 then data2 else data1))).
Proof.
  intros _ _ Hn1 Hn2 Hdir Hf1 Hf2.
  destruct (save_raw_response_run data1 name1 w Hn1 Hdir Hf1)
    as (fs1 & Hd1 & Hsame1 & Hsave1).
  set (w1 := mkWorld (http_get w) (now w)
               (write_node (path_join output_dir name1) (File (json_dumps data1)) fs1)
               (calls w)) in *.
  pose proof (path_join_simple output_dir _ Hn1) as Hp1.
  pose proof (path_join_simple output_dir _ Hn2) as Hp2.
  assert (Hdir1 : forall text, files w1 output_dir <> Some (File text)).
  { intros text. cbn [w1 files]. unfold write_node.
    rewrite Hp1, String.eqb_sym, join_not_dir, Hd1. discriminate. }
  assert (Hf2' : files w1 (path_join output_dir name2) <> Some Dir).
  { cbn [w1 files]. unfold write_node.
    destruct (String.eqb (path_join output_dir name2) (path_join output_dir name1));
      [discriminate|].
    rewrite Hsame1; [exact Hf2|]. rewrite Hp2. apply join_not_dir. }
  destruct (save_raw_response_run data2 name2 w1 Hn2 Hdir1 Hf2')
    as (fs2 & Hd2 & Hsame2 & Hsave2).
  do 2 eexists. split; [|split].
  - erewrite io_bind_run by exact Hsave1. fold w1. rewrite Hsave2. reflexivity.
  - cbn [files]. unfold write_node. rewrite String.eqb_refl. reflexivity.
  - cbn [files]. unfold write_node at 1.
    rewrite Hp1, Hp2, join_eqb.
    destruct (String.eqb name1 name2) eqn:E; [reflexivity|].
    rewrite Hsame2 by apply join_not_dir.
    cbn [w1 files]. unfold write_node. rewrite Hp1, String.eqb_refl. reflexivity.
Qed.

(** X6.  Failures of the persister.  When [sample_responses] is a regular
    file, [mkdir] raises [FileExistsError] and the world is unchanged.  In a
    fresh directory, [open] raises [IsADirectoryError] for an empty file
    name, [FileNotFoundError] for a name with a subdirectory that does not
    exist, [ValueError] for a name with a NUL character and [OSError] for a
    name longer than [NAME_MAX]; in these four cases the directory has been
    created, no file is written and nothing is printed. *)
Theorem save_failures_write_no_file data w :
  (forall text,
      files w output_dir = Some (File text) ->
      forall filename,
        save_raw_response data filename w = ([], w, Raised FileExistsError)) /\
  (files w output_dir = None ->
   exists w',
     save_raw_response data EmptyString w = ([], w', Raised IsADirectoryError) /\
     files w' output_dir = Some Dir /\
     (forall q, String.eqb q output_dir = false -> files w' q = files w q)) /\
  (forall sub name,
      simple_name sub = true -> simple_name name = true ->
      files w output_dir = None ->
      files w (output_dir ++ "/" ++ sub) = None ->
      files w (output_dir ++ "/" ++ sub ++ "/" ++ name) = None ->
      exists w',
        save_raw_response data (sub ++ "/" ++ name) w = ([], w', Raised FileNotFoundError) /\
        files w' output_dir = Some Dir /\
        (forall q, String.eqb q output_dir = false -> files w' q = files w q)) /\
  (forall filename,
      has_nul filename = true ->
      files w output_dir = None ->
      exists w',
        save_raw_response data filename w = ([], w', Raised ValueError) /\
        files w' output_dir = Some Dir /\
        (forall q, String.eqb q output_dir = false -> files w' q = files w q)) /\
  (forall filename,
      has_slash filename = false -> has_nul filename = false ->
      name_max < String.length filename < 4000 ->
      files w output_dir = None ->
      files w (output_dir ++ "/" ++ filename) = None ->
      exists w',
        save_raw_response data filename w = ([], w', Raised OSError) /\
        files w' output_dir = Some Dir /\
        (forall q, String.eqb q output_dir = false -> files w' q = files w q)).
Proof.
  assert (Hfresh : files w output_dir = None ->
                   exists fs1,
                     mkdir_exist_ok output_dir w
                     = ([], mkWorld (http_get w) (now w) fs1 (calls w), Returned tt) /\
                     fs1 output_dir = Some Dir /\
                     (forall q, String.eqb q output_dir = false -> fs1 q = files w q)).
  { intros Hnone. apply mkdir_run. intros text. rewrite Hnone. discriminate. }
  split; [|split; [|split; [|split]]].
  - intros text Hdir filename. unfold save_raw_response.
    erewrite io_bind_raise; [reflexivity|].
    unfold mkdir_exist_ok. rewrite Hdir. destruct w; reflexivity.
  - intros Hnone. destruct (Hfresh Hnone) as (fs1 & Hmk & Hd1 & Hsame).
    eexists. split; [|split].
    + unfold save_raw_response. erewrite io_bind_run by exact Hmk.
      cbn [path_join]. erewrite io_bind_raise; [reflexivity|].
      unfold write_text. cbn [files]. rewrite Hd1. reflexivity.
    + exact Hd1.
    + exact Hsame.
  - intros sub name Hsub Hname Hnone Hsubnone Htarget.
    destruct (Hfresh Hnone) as (fs1 & Hmk & Hd1 & Hsame).
    destruct (simple_name_parts sub Hsub) as (Hs1 & Hn1 & Hl1).
    destruct (simple_name_parts name Hname) as (Hs2 & Hn2 & Hl2).
    assert (Hjoin : path_join output_dir (sub ++ "/" ++ name)
                    = output_dir ++ "/" ++ sub ++ "/" ++ name).
    { unfold path_join. destruct sub as [|c sub]; [discriminate|].
      cbn [append]. cbn [has_slash] in Hs1.
      destruct (Ascii.eqb c "/"); [discriminate | reflexivity]. }
    assert (Hparent : parent_dir (output_dir ++ "/" ++ sub ++ "/" ++ name)
                      = output_dir ++ "/" ++ sub).
    { pose proof (parent_dir_join (output_dir ++ "/" ++ sub) name Hs2) as H.
      rewrite !string_app_assoc in H. exact H. }
    destruct (output_path_ok (sub ++ "/") name) as (Hnul & Hlen); [| |assumption|].
    { rewrite has_nul_app, Hn1. reflexivity. }
    { rewrite string_length_app. cbn [String.length]. lia. }
    rewrite string_app_assoc in Hnul, Hlen.
    eexists. split; [|split].
    + unfold save_raw_response. erewrite io_bind_run by exact Hmk.
      rewrite Hjoin. erewrite io_bind_raise; [reflexivity|].
      unfold write_text. rewrite Hnul.
      apply Nat.leb_gt in Hlen. rewrite Hlen.
      cbn [files]. rewrite Hparent.
      rewrite !Hsame by apply join_not_dir.
      rewrite Htarget, Hsubnone.
      destruct (output_dir ++ "/" ++ sub) eqn:E; [discriminate E | reflexivity].
    + exact Hd1.
    + exact Hsame.
  - intros filename Hnul Hnone.
    destruct (Hfresh Hnone) as (fs1 & Hmk & Hd1 & Hsame).
    assert (Hp : has_nul (path_join output_dir filename) = true).
    { unfold path_join. destruct filename as [|c rest]; [discriminate|].
      destruct (Ascii.eqb c "/"); [exact Hnul|].
      rewrite !has_nul_app, Hnul, !orb_true_r. reflexivity. }
    eexists. split; [|split].
    + unfold save_raw_response. erewrite io_bind_run by exact Hmk.
      erewrite io_bind_raise; [reflexivity|].
      unfold write_text. rewrite Hp. reflexivity.
    + exact Hd1.
    + exact Hsame.
  - intros filename Hslash Hnul [Hlong Hshort] Hnone Htarget.
    destruct (Hfresh Hnone) as (fs1 & Hmk & Hd1 & Hsame).
    assert (Hjoin : path_join output_dir filename = output_dir ++ "/" ++ filename).
    { unfold path_join. destruct filename as [|c rest]; [cbn in Hlong; lia|].
      cbn [has_slash] in Hslash.
      destruct (Ascii.eqb c "/"); [discriminate | reflexivity]. }
    eexists. split; [|split].
    + unfold save_raw_response. erewrite io_bind_run by exact Hmk.
      rewrite Hjoin. erewrite io_bind_raise; [reflexivity|].
      unfold write_text.
      rewrite !has_nul_app, Hnul.
      replace (has_nul output_dir || (has_nul "/" || false)) with false by reflexivity.
      assert (Hlen : (path_max <=? String.length (output_dir ++ "/" ++ filename))%nat = false).
      { apply Nat.leb_gt. rewrite !string_length_app. unfold path_max.
        cbn [String.length output_dir]. lia. }
      rewrite Hlen, base_name_join, parent_dir_join by assumption.
      cbn [files]. rewrite Hd1, Hsame by apply join_not_dir. rewrite Htarget.
      apply Nat.ltb_lt in Hlong. rewrite Hlong. reflexivity.
    + exact Hd1.
    + exact Hsame.
Qed.

Section SummaryEdges.
Variable parse_iso : string -> option datetime.

(** X9.  Outside objects: a falsy value ([None], [0], an empty string,
    list or object) and a list that does not hold the string [events] give
    the notice that no games were found; a non-zero integer raises
    [TypeError] from the [in] test, with nothing printed. *)
Theorem summary_notice_without_object data :
  (truthy data = false ->
   print_game_summary parse_iso data = ([no_games_notice], Returned tt)) /\
  (forall xs, data = JArr xs -> existsb (json_is_str "events") xs = false ->
   print_game_summary parse_iso data = ([no_games_notice], Returned tt)) /\
  (forall n, data = JInt n -> n <> 0%Z ->
   print_game_summary parse_iso data = ([], Raised TypeError)).
Proof.
  split; [|split].
  - intros H. unfold print_game_summary. rewrite H. reflexivity.
  - intros xs -> H. unfold print_game_summary.
    destruct (truthy (JArr xs)); cbn [negb]; [|reflexivity].
    cbn [py_in obind]. rewrite H. reflexivity.
  - intros n -> H. unfold print_game_summary. cbn [truthy].
    destruct (Z.eqb_spec n 0); [contradiction|]. reflexivity.
Qed.

(** X10.  With [events] present, a [season] that is present and is not an
    object makes the summarizer raise [AttributeError] after the rule and
    the title; a [week] that is present and is not an object makes it raise
    after the [Season] line.  The lines printed before stay printed. *)
Theorem summary_raises_on_bad_season_or_week kvs events :
  dict_lookup "events" kvs = Some events ->
  (forall season,
      dict_lookup "season" kvs = Some season -> is_obj season = false ->
      print_game_summary parse_iso (JObj kvs)
      = ([rule80; [Lit "📅 NFL SCHEDULE"]], Raised AttributeError)) /\
  (forall week,
      is_obj (field "season" (JObj []) (JObj kvs)) = true ->
      dict_lookup "week" kvs = Some week -> is_obj week = false ->
      print_game_summary parse_iso (JObj kvs)
      = ([ rule80; [Lit "📅 NFL SCHEDULE"];
           [Lit "   Season: ";
            Val (field "year" (JStr "Unknown") (field "season" (JObj []) (JObj kvs)))] ],
         Raised AttributeError)).
Proof.
  intros Hev.
  assert (Ht : truthy (JObj kvs) = true) by (destruct kvs; [discriminate | reflexivity]).
  split.
  - intros season Hs Hobj. unfold print_game_summary.
    rewrite Ht. cbn [negb py_in obind]. rewrite Hev. cbn [negb].
    rewrite bind_lift_returned, !py_get_obj, !bind_lift_returned.
    cbn [field]. rewrite Hs. rewrite !bind_print. cbn [fst snd].
    destruct season; try discriminate; reflexivity.
  - intros week Hseason Hw Hobj. unfold print_game_summary.
    rewrite Ht. cbn [negb py_in obind]. rewrite Hev. cbn [negb].
    rewrite bind_lift_returned, !py_get_obj, !bind_lift_returned.
    destruct (field "season" (JObj []) (JObj kvs)) as [| | | | |skvs] eqn:Es; try discriminate.
    rewrite !bind_print. cbn [fst snd].
    rewrite py_get_obj, bind_lift_returned, bind_print. cbn [fst snd].
    cbn [field]. rewrite Hw.
    destruct week; try discriminate; reflexivity.
Qed.

Lemma event_body_not_object idx event :
  is_obj event = false -> event_body parse_iso idx event = ([], Raised AttributeError).
Proof. destruct event; try discriminate; reflexivity. Qed.

Lemma event_loop_stops k pre bad post :
  forallb wf_event pre = true ->
  is_obj bad = false ->
  event_loop parse_iso (Z.of_nat k) (pre ++ bad :: post)
  = (summary_blocks_from parse_iso k pre, Raised AttributeError).
Proof.
  revert k. induction pre as [|e pre IH]; intros k Hpre Hbad.
  - cbn [List.app event_loop]. rewrite (event_body_not_object _ _ Hbad). reflexivity.
  - cbn [forallb] in Hpre. apply andb_prop in Hpre. destruct Hpre as [He Hpre].
    cbn [List.app event_loop].
    rewrite (event_body_wf parse_iso _ _ He), bind_returned.
    replace (Z.of_nat k + 1)%Z with (Z.of_nat (S k)) by lia.
    rewrite (IH (S k) Hpre Hbad). reflexivity.
Qed.

(** X11.  An element of [events] that is not an object stops the loop
    with [AttributeError]: the banner and the blocks of the events before it
    are printed, nothing of the events after it. *)
Theorem summary_stops_at_event_that_is_no_object kvs pre bad post :
  dict_lookup "events" kvs = Some (JArr (pre ++ bad :: post)) ->
  opt_field "season" is_obj (JObj kvs) = true ->
  opt_field "week" is_obj (JObj kvs) = true ->
  forallb wf_event pre = true ->
  is_obj bad = false ->
  print_game_summary parse_iso (JObj kvs)
  = ((summary_banner (JObj kvs) ++ summary_blocks parse_iso pre)%list,
     Raised AttributeError).
Proof.
  intros Hev Hseason Hweek Hpre Hbad.
  assert (Hs : is_obj (field "season" (JObj []) (JObj kvs)) = true)
    by (apply opt_field_default; auto).
  assert (Hw : is_obj (field "week" (JObj []) (JObj kvs)) = true)
    by (apply opt_field_default; auto).
  assert (Ht : truthy (JObj kvs) = true) by (destruct kvs; [discriminate | reflexivity]).
  unfold print_game_summary, summary_banner.
  rewrite Ht. cbn [negb py_in obind]. rewrite Hev. cbn [negb].
  rewrite bind_lift_returned, !py_get_obj, !bind_lift_returned.
  destruct (field "season" (JObj []) (JObj kvs)) as [| | | | |skvs] eqn:Es; try discriminate.
  destruct (field "week" (JObj []) (JObj kvs)) as [| | | | |wkvs] eqn:Ew; try discriminate.
  assert (Hf : field "events" (JArr []) (JObj kvs) = JArr (pre ++ bad :: post))
    by (cbn [field]; rewrite Hev; reflexivity).
  rewrite Hf. out_steps.
  assert (Hne : truthy (JArr (pre ++ bad :: post)) = true) by (destruct pre; reflexivity).
  rewrite Hne. cbn [negb py_iter]. rewrite bind_lift_returned.
  change 1%Z with (Z.of_nat 1).
  rewrite (event_loop_stops 1 pre bad post Hpre Hbad). reflexivity.
Qed.

(** X12.  In the block of an event of the data model, a side that no
    competitor is tagged with is shown as [Unknown]: without an [away]
    competitor the matchup is [Unknown @ <home>], without a [home]
    competitor it is [<away> @ Unknown]. *)
Theorem matchup_side_defaults_to_unknown idx event :
  wf_event event = true ->
  has_matchup event = true ->
  (forallb (fun c => negb (json_is_str "away" (field "homeAway" JNull c)))
     (matchup_competitors event) = true ->
   In [ Lit "  Matchup: "; Val (JStr "Unknown"); Lit " @ ";
        Val (display_name (side_competitor "home" (matchup_competitors event))) ]
      (fst (event_body parse_iso idx event))) /\
  (forallb (fun c => negb (json_is_str "home" (field "homeAway" JNull c)))
     (matchup_competitors event) = true ->
   In [ Lit "  Matchup: ";
        Val (display_name (side_competitor "away" (matchup_competitors event)));
        Lit " @ "; Val (JStr "Unknown") ]
      (fst (event_body parse_iso idx event))).
Proof.
  intros Hwf Hm.
  assert (Hnone : forall side,
             forallb (fun c => negb (json_is_str side (field "homeAway" JNull c)))
               (matchup_competitors event) = true ->
             display_name (side_competitor side (matchup_competitors event)) = JStr "Unknown").
  { intros side Hall. unfold side_competitor.
    destruct (find _ (matchup_competitors event)) as [c|] eqn:E; [|reflexivity].
    apply find_some in E. destruct E as [Hin Hc].
    rewrite forallb_forall in Hall. specialize (Hall c Hin).
    rewrite Hc in Hall. discriminate. }
  rewrite (event_body_wf parse_iso idx event Hwf). cbn [fst].
  unfold summary_block. rewrite Hm. unfold game_block.
  split; intros Hall; rewrite (Hnone _ Hall); cbn [In]; auto.
Qed.

(** X13.  A [date] that is not a string (a number, [null], ...) raises
    nothing: the bare [except] catches the failure of [date.replace], and
    the [Date] line of the block shows the value itself. *)
Theorem non_string_date_is_printed_as_is idx event date :
  wf_event event = true ->
  has_matchup event = true ->
  field "date" (JStr "Unknown date") event = date ->
  (forall s, date <> JStr s) ->
  snd (event_body parse_iso idx event) = Returned tt /\
  In [Lit "  Date: "; Val date] (fst (event_body parse_iso idx event)).
Proof.
  intros Hwf Hm Hdate Hns.
  rewrite (event_body_wf parse_iso idx event Hwf). cbn [fst snd].
  split; [reflexivity|].
  unfold summary_block. rewrite Hm, Hdate.
  assert (Hfmt : format_date parse_iso date = date).
  { destruct date; try reflexivity. exfalso. exact (Hns s eq_refl). }
  rewrite Hfmt. unfold game_block. cbn [In]. auto.
Qed.

Lemma summary_blocks_from_length k events :
  List.length (summary_blocks_from parse_iso k events)
  = 6 * List.length (filter has_matchup events).
Proof.
  revert k. induction events as [|e es IH]; intros k; [reflexivity|].
  unfold summary_blocks_from in *.
  cbn [enumerate_from List.length seq combine flat_map fst snd filter].
  rewrite List.length_app. unfold enumerate_from in IH. rewrite IH.
  unfold summary_block. destruct (has_matchup e); cbn [List.length game_block]; lia.
Qed.

(** X16.  For a response of the data model with events, the summarizer
    calls [print] six times for the banner and six times for every event
    that has a matchup, and for no other event. *)
Theorem summary_makes_six_prints_per_game data events :
  wf_response data = true ->
  field "events" (JArr []) data = JArr events ->
  events <> [] ->
  List.length (fst (print_game_summary parse_iso data))
  = 6 + 6 * List.length (filter has_matchup events).
Proof.
  intros Hwf Hev Hne.
  rewrite (print_game_summary_wf parse_iso data events Hwf Hev Hne). cbn [fst].
  rewrite List.length_app. unfold summary_blocks.
  rewrite summary_blocks_from_length. reflexivity.
Qed.

End SummaryEdges.


(** ** Dates with an offset *)
Lemma replace_Z_iso_offset y m d h mi west oh om :
  replace_Z (iso_offset y m d h mi west oh om) = iso_offset y m d h mi west oh om.
Proof.
  unfold iso_offset.
  repeat (rewrite ?replace_Z_d4, ?replace_Z_d2; cbn [append];
          rewrite ?replace_Z_other by reflexivity).
  destruct west; cbn [append]; rewrite replace_Z_other by reflexivity;
    rewrite replace_Z_d2; cbn [append]; rewrite replace_Z_other by reflexivity;
    rewrite <- (string_app_nil (d2 om)) at 1; rewrite replace_Z_d2;
    cbn [replace_Z]; rewrite string_app_nil; reflexivity.
Qed.

Lemma split_sign_offset h mi (west : bool) rest :
  split_sign (d2 h ++ ":" ++ d2 mi ++ (if west then "-" else "+") ++ rest)
  = (d2 h ++ ":" ++ d2 mi, Some (if west then "-"%char else "+"%char, rest)).
Proof.
  rewrite split_sign_d2. cbn [append split_sign Ascii.eqb Bool.eqb orb].
  rewrite split_sign_d2.
  destruct west; cbn [append split_sign Ascii.eqb Bool.eqb orb];
    rewrite string_app_nil; reflexivity.
Qed.

Lemma parse_offset_fields sign oh om :
  oh < 24 -> om < 60 ->
  parse_offset sign (d2 oh ++ ":" ++ d2 om)
  = Some (if Ascii.eqb sign "-"%char
          then (- ((Z.of_nat oh * 3600 + Z.of_nat om * 60 + 0) * 1000000 + 0))%Z
          else ((Z.of_nat oh * 3600 + Z.of_nat om * 60 + 0) * 1000000 + 0)%Z).
Proof.
  intros Hh Hm. unfold parse_offset.
  replace (String.length (d2 oh ++ ":" ++ d2 om)) with 5 by reflexivity.
  pose proof (parse_time_fields oh om None) as H. cbn [seconds_of] in H.
  rewrite string_app_nil in H. rewrite H by lia.
  change (Z.of_nat 0) with 0%Z.
  destruct (Z.ltb_spec ((Z.of_nat oh * 3600 + Z.of_nat om * 60 + 0) * 1000000 + 0)
              86400000000); [reflexivity | lia].
Qed.

(** X14.  A date with an explicit offset, [YYYY-MM-DDThh:mm+HH:MM] or
    [-HH:MM], is rendered with the wall-clock fields it is written with:
    the offset is parsed and not applied, so the time shown is not
    converted to UTC. *)
Theorem offset_date_keeps_its_wall_clock y m d h mi west oh om :
  1000 <= y < 100 * 100 ->
  valid_fields y m d h mi 0 = true ->
  oh < 24 -> om < 60 ->
  format_date fromisoformat (JStr (iso_offset y m d h mi west oh om))
  = JStr (readable_utc y m d h mi).
Proof.
  intros Hy Hvalid Hoh Hom.
  destruct (valid_fields_bounds _ _ _ _ _ _ Hvalid) as (Hm & Hd & Hh & Hmi & _).
  unfold format_date. rewrite replace_Z_iso_offset.
  unfold iso_offset, fromisoformat.
  rewrite parse_date_fields by lia.
  match goal with
  | |- context ["T" ++ ?r] => change ("T" ++ r) with (String "T"%char r)
  end.
  cbv iota beta.
  rewrite split_sign_offset.
  pose proof (parse_time_fields h mi None) as Ht. cbn [seconds_of] in Ht.
  rewrite string_app_nil in Ht. rewrite Ht by lia.
  rewrite Hvalid, parse_offset_fields by assumption.
  rewrite strftime_readable_clock by exact (valid_fields_hour _ _ _ _ _ _ Hvalid).
  reflexivity.
Qed.

(** ** The inspector, further *)
(** X17.  The inspector looks at the first event only: two responses with
    the same top-level keys and the same first event give the same output
    and the same result, whatever the later events are. *)
Theorem inspector_reads_first_event_only kvs1 kvs2 event rest1 rest2 :
  dict_keys kvs1 = dict_keys kvs2 ->
  dict_lookup "events" kvs1 = Some (JArr (event :: rest1)) ->
  dict_lookup "events" kvs2 = Some (JArr (event :: rest2)) ->
  inspect_data_structure (JObj kvs1) = inspect_data_structure (JObj kvs2).
Proof.
  intros Hkeys H1 H2.
  assert (He : forall kvs rest,
             dict_lookup "events" kvs = Some (JArr (event :: rest)) ->
             inspect_event (JObj kvs)
             = bind (print [Lit "Sample event structure (first game):"])
                 (fun _ => bind (lift (py_keys event)) (fun ek =>
                   bind (print [Lit "  Event keys: "; Val (keys_value ek)]) (fun _ =>
                   bind (print blank) (fun _ => inspect_competition event))))).
  { intros kvs rest H. unfold inspect_event, present_and, first_of.
    cbn [py_in py_item obind]. rewrite H. cbn [obind truthy py_index0].
    rewrite !bind_lift_returned. reflexivity. }
  unfold inspect_data_structure. cbn [py_keys]. rewrite Hkeys.
  rewrite (He kvs1 rest1 H1), (He kvs2 rest2 H2). reflexivity.
Qed.

(** ** The fetcher, further *)
(** X7.  When the call returns a response whose status is outside
    400-599 and whose body is JSON, the fetcher prints the success line and
    returns the body unchanged, falsy or not; it makes one call and touches
    no file. *)
Theorem fetch_returns_body_on_success year week w resp data :
  http_get w (fetch_request week) = GetResponse resp ->
  is_error_status (status_code resp) = false ->
  body resp = Some data ->
  fetch_nfl_scoreboard year week w
  = ((fetch_prelude week ++ [[Lit "✅ Successfully fetched data from ESPN API"]])%list,
     mkWorld (http_get w) (now w) (files w) (calls w ++ [fetch_request week])%list,
     Returned data).
Proof. intros Hg Hs Hb. rewrite fetch_run. cbv zeta. rewrite Hg, Hs, Hb. reflexivity. Qed.

(** X8.  The [year] argument has no effect: runs with different years
    are equal, and the request never has a [year] parameter.  The request
    always goes to the fixed URL with [limit = 100] and a timeout of 10. *)
Theorem fetch_ignores_year year1 year2 week w :
  fetch_nfl_scoreboard year1 week w = fetch_nfl_scoreboard year2 week w /\
  dict_lookup "year" (req_params (fetch_request week)) = None /\
  dict_lookup "limit" (req_params (fetch_request week)) = Some (JInt 100) /\
  req_url (fetch_request week) = base_url /\
  req_timeout (fetch_request week) = 10%Z.
Proof.
  repeat split; unfold fetch_request, build_params; cbn [req_params];
    destruct (truthy week); reflexivity.
Qed.

(** ** File names *)
Lemma d2_app_inj a b r1 r2 :
  a < 100 -> b < 100 -> d2 a ++ r1 = d2 b ++ r2 -> a = b /\ r1 = r2.
Proof.
  intros Ha Hb H. apply (f_equal (take_digits 2 0)) in H.
  rewrite !take_digits_d2, !take_digits_0 in H by assumption.
  injection H as H1 H2. split; [lia | assumption].
Qed.

Lemma d4_app_inj a b r1 r2 :
  a < 100 * 100 -> b < 100 * 100 -> d4 a ++ r1 = d4 b ++ r2 -> a = b /\ r1 = r2.
Proof.
  intros Ha Hb H. apply (f_equal (take_digits 4 0)) in H.
  rewrite !take_digits_d4 in H by assumption.
  injection H as H1 H2. auto.
Qed.

Lemma string_app_inv_head (p a b : string) : p ++ a = p ++ b -> a = b.
Proof.
  induction p as [|c p IH]; [auto|]. cbn [append]. intros H. injection H as H. auto.
Qed.

(** X18.  The file name of a run shows the wall-clock time of the run to
    the second: in years of four digits, two times have the same file name
    exactly when they have the same year, month, day, hour, minute and
    second.  Microseconds do not count. *)
Theorem run_filename_tells_the_second t1 t2 :
  stamp_in_range t1 = true ->
  stamp_in_range t2 = true ->
  (run_filename t1 = run_filename t2 <-> stamp_fields t1 = stamp_fields t2).
Proof.
  unfold stamp_in_range, stamp_fields, run_filename, strftime_stamp.
  intros H1 H2.
  apply andb_prop in H1. destruct H1 as [H1 V1]. apply andb_prop in H1. destruct H1 as [_ Y1].
  apply andb_prop in H2. destruct H2 as [H2 V2]. apply andb_prop in H2. destruct H2 as [_ Y2].
  apply Nat.ltb_lt in Y1, Y2.
  destruct (valid_fields_bounds _ _ _ _ _ _ V1) as (? & ? & ? & ? & ?).
  destruct (valid_fields_bounds _ _ _ _ _ _ V2) as (? & ? & ? & ? & ?).
  split.
  - intros E.
    apply string_app_inv_head in E.
    rewrite !string_app_assoc in E.
    apply d4_app_inj in E; [|assumption..]. destruct E as [-> E].
    apply d2_app_inj in E; [|assumption..]. destruct E as [-> E].
    apply d2_app_inj in E; [|assumption..]. destruct E as [-> E].
    apply (string_app_inv_head "_") in E.
    apply d2_app_inj in E; [|assumption..]. destruct E as [-> E].
    apply d2_app_inj in E; [|assumption..]. destruct E as [-> E].
    apply d2_app_inj in E; [|assumption..]. destruct E as [-> _].
    reflexivity.
  - intros E. injection E as -> -> -> -> -> ->. reflexivity.
Qed.

(** ** The encoder, further *)

(** X19.  A string without control characters, quotes and backslashes is
    written between quotes exactly as it is, its non-ASCII bytes included
    ([ensure_ascii=False]), and is read back unchanged. *)
Theorem plain_text_is_written_unescaped s :
  all_plain s = true ->
  json_dumps (JStr s) = String dquote (s ++ String dquote EmptyString) /\
  json_loads (json_dumps (JStr s)) = Some (JStr s).
Proof.
  intros H. split.
  - unfold json_dumps. cbn [encode]. unfold encode_string. do 2 f_equal.
    induction s as [|c s IH]; [reflexivity|].
    cbn [all_plain] in H. apply andb_prop in H. destruct H as [Hc Hs].
    cbn [escape_string]. rewrite (escape_plain_char c Hc), (IH Hs). reflexivity.
  - apply json_loads_dumps. reflexivity.
Qed.


Section SummaryFields.
Variable parse_iso : string -> option datetime.

(** X15.  The block of an event depends on its [id], [date], [status] and
    [competitions] only: two events of the data model that agree on these
    four fields print the same lines, whatever their [name] and other
    fields are. *)
Theorem summary_uses_four_fields_only idx event1 event2 :
  wf_event event1 = true ->
  wf_event event2 = true ->
  field "id" (JStr "Unknown") event1 = field "id" (JStr "Unknown") event2 ->
  field "date" (JStr "Unknown date") event1 = field "date" (JStr "Unknown date") event2 ->
  field "status" (JObj []) event1 = field "status" (JObj []) event2 ->
  field "competitions" (JArr []) event1 = field "competitions" (JArr []) event2 ->
  event_body parse_iso idx event1 = event_body parse_iso idx event2.
Proof.
  intros Hw1 Hw2 Hid Hdate Hstatus Hcomp.
  rewrite (event_body_wf parse_iso idx event1 Hw1), (event_body_wf parse_iso idx event2 Hw2).
  unfold summary_block, has_matchup, matchup_competitors.
  rewrite Hid, Hdate, Hstatus, Hcomp. reflexivity.
Qed.
End SummaryFields.

(** ** Witnesses *)
Lemma main_runs_every_stage_in_order_witness :
  exists w',
    main fromisoformat (serving (sample_response [sample_event; minimal_event]))
    = ((main_banner
        ++ fetch_prelude JNull
        ++ [[Lit "✅ Successfully fetched data from ESPN API"]]
        ++ [ [Lit "💾 Saved raw response to: ";
              Val (JStr "sample_responses/nfl_scoreboard_20240908_123015.json")];
             blank ]
        ++ summary_output fromisoformat (sample_response [sample_event; minimal_event])
        ++ levels_reached (sample_response [sample_event; minimal_event])
        ++ next_steps)%list,
       w', Returned tt) /\
    calls w' = [fetch_request JNull] /\
    files w' "sample_responses/nfl_scoreboard_20240908_123015.json"
    = Some (File (json_dumps (sample_response [sample_event; minimal_event]))) /\
    (forall q,
        String.eqb q output_dir = false ->
        String.eqb q "sample_responses/nfl_scoreboard_20240908_123015.json" = false ->
        files w' q = None).
Proof.
  apply (main_runs_every_stage_in_order fromisoformat
           (serving (sample_response [sample_event; minimal_event]))
           (mkResponse 200 (Some (sample_response [sample_event; minimal_event])))
           (sample_response [sample_event; minimal_event]));
    try reflexivity; try discriminate.
Defined.

Lemma main_fails_in_inspector_on_array_witness :
  exists w',
    main fromisoformat (serving (JArr [JInt 1]))
    = ((main_banner
        ++ fetch_prelude JNull
        ++ [[Lit "✅ Successfully fetched data from ESPN API"]]
        ++ [ [Lit "💾 Saved raw response to: ";
              Val (JStr "sample_responses/nfl_scoreboard_20240908_123015.json")];
             blank ]
        ++ [no_games_notice]
        ++ [ rule80; [Lit "🔍 DATA STRUCTURE INSPECTION"]; rule80; blank;
             [Lit "Top-level keys available:"] ])%list,
       w', Raised AttributeError) /\
    files w' "sample_responses/nfl_scoreboard_20240908_123015.json"
    = Some (File (json_dumps (JArr [JInt 1]))).
Proof.
  apply (main_fails_in_inspector_on_array fromisoformat (serving (JArr [JInt 1]))
           (mkResponse 200 (Some (JArr [JInt 1]))) [JInt 1]);
    try reflexivity; try discriminate.
Defined.

Lemma main_stops_when_directory_is_a_file_witness :
  main fromisoformat (serving_blocked (sample_response [sample_event]))
  = ((main_banner ++ fetch_prelude JNull
      ++ [[Lit "✅ Successfully fetched data from ESPN API"]])%list,
     mkWorld (http_get (serving_blocked (sample_response [sample_event])))
       (now (serving_blocked (sample_response [sample_event])))
       (files (serving_blocked (sample_response [sample_event])))
       [fetch_request JNull],
     Raised FileExistsError).
Proof.
  apply (main_stops_when_directory_is_a_file fromisoformat
           (serving_blocked (sample_response [sample_event]))
           (mkResponse 200 (Some (sample_response [sample_event])))
           (sample_response [sample_event]) "notes"); reflexivity.
Defined.

Lemma save_touches_only_its_file_witness :
  exists w',
    save_raw_response (JObj [("a", JInt 1)]) "week1.json" (serving JNull)
    = ([ [Lit "💾 Saved raw response to: "; Val (JStr "sample_responses/week1.json")];
         blank ], w', Returned tt) /\
    files w' output_dir = Some Dir /\
    (forall q,
        String.eqb q output_dir = false ->
        String.eqb q "sample_responses/week1.json" = false ->
        files w' q = None) /\
    calls w' = [] /\ now w' = mkDatetime 2024 9 8 12 30 15 0%Z None.
Proof.
  apply (save_touches_only_its_file (JObj [("a", JInt 1)]) "week1.json" (serving JNull));
    try reflexivity; try discriminate.
Defined.

Lemma two_saves_keep_or_replace_witness :
  (exists o w',
      io_bind (save_raw_response (JInt 1) "a.json")
        (fun _ => save_raw_response (JInt 2) "b.json") (serving JNull)
      = (o, w', Returned tt) /\
      files w' "sample_responses/b.json" = Some (File "2") /\
      files w' "sample_responses/a.json" = Some (File "1")) /\
  (exists o w',
      io_bind (save_raw_response (JInt 1) "a.json")
        (fun _ => save_raw_response (JInt 2) "a.json") (serving JNull)
      = (o, w', Returned tt) /\
      files w' "sample_responses/a.json" = Some (File "2") /\
      files w' "sample_responses/a.json" = Some (File "2")).
Proof.
  split.
  - apply (two_saves_keep_or_replace (JInt 1) (JInt 2) "a.json" "b.json" (serving JNull));
      try reflexivity; try discriminate.
  - apply (two_saves_keep_or_replace (JInt 1) (JInt 2) "a.json" "a.json" (serving JNull));
      try reflexivity; try discriminate.
Defined.

Lemma save_failures_write_no_file_witness :
  save_raw_response (JInt 1) "a.json" (serving_blocked JNull)
  = ([], serving_blocked JNull, Raised FileExistsError) /\
  (exists w',
      save_raw_response (JInt 1) EmptyString (serving JNull)
      = ([], w', Raised IsADirectoryError) /\
      files w' output_dir = Some Dir /\
      (forall q, String.eqb q output_dir = false -> files w' q = None)) /\
  (exists w',
      save_raw_response (JInt 1) "2024/a.json" (serving JNull)
      = ([], w', Raised FileNotFoundError) /\
      files w' output_dir = Some Dir /\
      (forall q, String.eqb q output_dir = false -> files w' q = None)) /\
  (exists w',
      save_raw_response (JInt 1) (String "a" (String "000" "b")) (serving JNull)
      = ([], w', Raised ValueError) /\
      files w' output_dir = Some Dir /\
      (forall q, String.eqb q output_dir = false -> files w' q = None)) /\
  (exists w',
      save_raw_response (JInt 1) (repeat_string "a" 300) (serving JNull)
      = ([], w', Raised OSError) /\
      files w' output_dir = Some Dir /\
      (forall q, String.eqb q output_dir = false -> files w' q = None)).
Proof.
  destruct (save_failures_write_no_file (JInt 1) (serving JNull))
    as (_ & Hempty & Hmissing & Hnul & Hlong).
  split; [|split; [|split; [|split]]].
  - apply (proj1 (save_failures_write_no_file (JInt 1) (serving_blocked JNull)) "notes").
    reflexivity.
  - apply Hempty. reflexivity.
  - apply (Hmissing "2024" "a.json"); reflexivity.
  - apply (Hnul (String "a" (String "000" "b"))); reflexivity.
  - apply (Hlong (repeat_string "a" 300)); try reflexivity.
    split; [apply Nat.ltb_lt | apply Nat.ltb_lt]; reflexivity.
Defined.

Lemma summary_notice_without_object_witness :
  print_game_summary fromisoformat JNull = ([no_games_notice], Returned tt) /\
  print_game_summary fromisoformat (JArr [JStr "x"; JInt 2])
  = ([no_games_notice], Returned tt) /\
  print_game_summary fromisoformat (JInt 7) = ([], Raised TypeError).
Proof.
  split; [|split].
  - apply (proj1 (summary_notice_without_object fromisoformat JNull)). reflexivity.
  - apply (proj1 (proj2 (summary_notice_without_object fromisoformat (JArr [JStr "x"; JInt 2])))
             [JStr "x"; JInt 2]); reflexivity.
  - apply (proj2 (proj2 (summary_notice_without_object fromisoformat (JInt 7))) 7%Z);
      [reflexivity | discriminate].
Defined.

Lemma summary_raises_on_bad_season_or_week_witness :
  print_game_summary fromisoformat (JObj [("events", JArr []); ("season", JNull)])
  = ([rule80; [Lit "📅 NFL SCHEDULE"]], Raised AttributeError) /\
  print_game_summary fromisoformat (JObj [("events", JArr []); ("week", JInt 1)])
  = ([ rule80; [Lit "📅 NFL SCHEDULE"]; [Lit "   Season: "; Val (JStr "Unknown")] ],
     Raised AttributeError).
Proof.
  split.
  - apply (proj1 (summary_raises_on_bad_season_or_week fromisoformat
                    [("events", JArr []); ("season", JNull)] (JArr []) eq_refl) JNull);
      reflexivity.
  - apply (proj2 (summary_raises_on_bad_season_or_week fromisoformat
                    [("events", JArr []); ("week", JInt 1)] (JArr []) eq_refl) (JInt 1));
      reflexivity.
Defined.

Lemma summary_stops_at_event_that_is_no_object_witness :
  print_game_summary fromisoformat
    (JObj [("events", JArr [sample_event; JNull; sample_event])])
  = ((summary_banner (JObj [("events", JArr [sample_event; JNull; sample_event])])
      ++ summary_blocks fromisoformat [sample_event])%list,
     Raised AttributeError).
Proof.
  apply (summary_stops_at_event_that_is_no_object fromisoformat
           [("events", JArr [sample_event; JNull; sample_event])]
           [sample_event] JNull [sample_event]); reflexivity.
Defined.

(** An event whose two competitors are both tagged [home]. *)
Lemma matchup_side_defaults_to_unknown_witness :
  In [ Lit "  Matchup: "; Val (JStr "Unknown"); Lit " @ "; Val (JStr "Browns") ]
     (fst (event_body fromisoformat 1
             (JObj [("competitions",
                     JArr [JObj [("competitors",
                       JArr [ JObj [("homeAway", JStr "home");
                                    ("team", JObj [("displayName", JStr "Browns")])];
                              JObj [("homeAway", JStr "home")] ])]])]))).
Proof.
  apply (proj1 (matchup_side_defaults_to_unknown fromisoformat 1
                  (JObj [("competitions",
                          JArr [JObj [("competitors",
                            JArr [ JObj [("homeAway", JStr "home");
                                         ("team", JObj [("displayName", JStr "Browns")])];
                                   JObj [("homeAway", JStr "home")] ])]])])
                  eq_refl eq_refl)).
  reflexivity.
Defined.

Lemma non_string_date_is_printed_as_is_witness :
  snd (event_body fromisoformat 1
         (JObj [("date", JInt 1725814800);
                ("competitions", JArr [JObj [("competitors", JArr [JObj []; JObj []])]])]))
  = Returned tt /\
  In [Lit "  Date: "; Val (JInt 1725814800)]
     (fst (event_body fromisoformat 1
             (JObj [("date", JInt 1725814800);
                    ("competitions",
                     JArr [JObj [("competitors", JArr [JObj []; JObj []])]])]))).
Proof.
  apply (non_string_date_is_printed_as_is fromisoformat 1
           (JObj [("date", JInt 1725814800);
                  ("competitions", JArr [JObj [("competitors", JArr [JObj []; JObj []])]])])
           (JInt 1725814800)); try reflexivity.
  intros s. discriminate.
Defined.

Lemma summary_makes_six_prints_per_game_witness :
  List.length
    (fst (print_game_summary fromisoformat
            (sample_response [sample_event; minimal_event; sample_event])))
  = 6 + 6 * 2.
Proof.
  apply (summary_makes_six_prints_per_game fromisoformat
           (sample_response [sample_event; minimal_event; sample_event])
           [sample_event; minimal_event; sample_event]);
    try reflexivity. discriminate.
Defined.

Lemma offset_date_keeps_its_wall_clock_witness :
  format_date fromisoformat (JStr "2024-09-08T13:00-04:00") = JStr "2024-09-08 01:00 PM".
Proof.
  apply (offset_date_keeps_its_wall_clock 2024 9 8 13 0 true 4 0).
  - split; [apply Nat.leb_le | apply Nat.ltb_lt]; reflexivity.
  - reflexivity.
  - apply Nat.ltb_lt. reflexivity.
  - apply Nat.ltb_lt. reflexivity.
Defined.

Lemma inspector_reads_first_event_only_witness :
  inspect_data_structure (JObj [("events", JArr [sample_event; JNull; JInt 3])])
  = inspect_data_structure (JObj [("events", JArr [sample_event])]).
Proof.
  apply (inspector_reads_first_event_only
           [("events", JArr [sample_event; JNull; JInt 3])]
           [("events", JArr [sample_event])] sample_event [JNull; JInt 3] []);
    reflexivity.
Defined.

Lemma fetch_returns_body_on_success_witness :
  fetch_nfl_scoreboard 2024 (JInt 3)
    (sample_world (fun _ => GetResponse (mkResponse 204 (Some (JObj [])))))
  = ((fetch_prelude (JInt 3) ++ [[Lit "✅ Successfully fetched data from ESPN API"]])%list,
     mkWorld (fun _ => GetResponse (mkResponse 204 (Some (JObj []))))
       (mkDatetime 2024 9 8 12 30 15 0%Z None) (fun _ => None) [fetch_request (JInt 3)],
     Returned (JObj [])).
Proof.
  apply (fetch_returns_body_on_success 2024 (JInt 3)
           (sample_world (fun _ => GetResponse (mkResponse 204 (Some (JObj [])))))
           (mkResponse 204 (Some (JObj []))) (JObj [])); reflexivity.
Defined.

Lemma run_filename_tells_the_second_witness :
  run_filename (mkDatetime 2024 9 8 12 30 15 0%Z None)
  = run_filename (mkDatetime 2024 9 8 12 30 15 999%Z None) /\
  (run_filename (mkDatetime 2024 9 8 12 30 15 0%Z None)
   = run_filename (mkDatetime 2024 9 8 12 30 16 0%Z None) -> False).
Proof.
  split.
  - apply (proj2 (run_filename_tells_the_second
                    (mkDatetime 2024 9 8 12 30 15 0%Z None)
                    (mkDatetime 2024 9 8 12 30 15 999%Z None) eq_refl eq_refl)).
    reflexivity.
  - intros E.
    apply (proj1 (run_filename_tells_the_second
                    (mkDatetime 2024 9 8 12 30 15 0%Z None)
                    (mkDatetime 2024 9 8 12 30 16 0%Z None) eq_refl eq_refl)) in E.
    discriminate E.
Defined.

Lemma plain_text_is_written_unescaped_witness :
  json_dumps (JStr "Zürich 49ers")
  = String dquote ("Zürich 49ers" ++ String dquote EmptyString) /\
  json_loads (json_dumps (JStr "Zürich 49ers")) = Some (JStr "Zürich 49ers").
Proof.
  apply (plain_text_is_written_unescaped "Zürich 49ers"). reflexivity.
Defined.

Lemma summary_uses_four_fields_only_witness :
  event_body fromisoformat 1 sample_event = event_body fromisoformat 1 renamed_event /\
  fst (event_body fromisoformat 1 renamed_event)
  = game_block 1 (JStr "401671789") (JStr "Dallas Cowboys") (JStr "Cleveland Browns")
      (JStr "2024-09-08 05:00 PM") (JStr "Scheduled").
Proof.
  split.
  - apply (summary_uses_four_fields_only fromisoformat 1 sample_event renamed_event);
      reflexivity.
  - reflexivity.
Defined.
